(** * WebSearchAI: the iterative search orchestration engine

    A shallow embedding of [SearchOrchestrator] (lib/api/orchestrator.ts):
    result aggregation, parsing of model replies, the priority heuristic,
    validation of the analysis payload and the iterative refinement loop,
    followed by the properties the specification states about them; then
    the streaming path ([searchStream], and [streamContent] of
    lib/api/gemini.ts) and the key utilities (lib/utils), with further
    properties read off the code. *)

From Stdlib Require Import ZArith QArith Ascii String.
From stdpp Require Import base list strings gmap sets sorting.

Local Open Scope string_scope.
Local Open Scope list_scope.

(** ** JavaScript strings

    A [string] stands for a JavaScript string all of whose code units are
    below 256 (the Latin-1 range); one character is one code unit, so
    [String.length] is the [length] property. *)

Module JsString.

Definition code (c : ascii) : nat := nat_of_ascii c.

(** WhiteSpace and LineTerminator code units in the Latin-1 range: the
    characters removed by [trim] and matched by the regex class [\s]. *)
Definition isWhiteSpace (c : ascii) : bool :=
  let n := code c in
  (Nat.eqb n 9 || Nat.eqb n 10 || Nat.eqb n 11 || Nat.eqb n 12
   || Nat.eqb n 13 || Nat.eqb n 32 || Nat.eqb n 160)%bool.

(** Line terminators: the characters the regex [.] does not match. *)
Definition isLineTerminator (c : ascii) : bool :=
  let n := code c in (Nat.eqb n 10 || Nat.eqb n 13)%bool.

(** The regex class [\d]. *)
Definition isDigit (c : ascii) : bool :=
  let n := code c in (Nat.leb 48 n && Nat.leb n 57)%bool.

Definition isQuote (c : ascii) : bool :=
  let n := code c in (Nat.eqb n 34 || Nat.eqb n 39)%bool.

Definition isEmpty (s : string) : bool :=
  match s with EmptyString => true | String _ _ => false end.

Fixpoint all (p : ascii -> bool) (s : string) : bool :=
  match s with
  | EmptyString => true
  | String c s' => p c && all p s'
  end.

Fixpoint dropWhile (p : ascii -> bool) (s : string) : string :=
  match s with
  | EmptyString => EmptyString
  | String c s' => if p c then dropWhile p s' else s
  end.

Fixpoint takeWhile (p : ascii -> bool) (s : string) : string :=
  match s with
  | EmptyString => EmptyString
  | String c s' => if p c then String c (takeWhile p s') else EmptyString
  end.

Fixpoint dropN (n : nat) (s : string) : string :=
  match n, s with
  | O, _ => s
  | S _, EmptyString => EmptyString
  | S n', String _ s' => dropN n' s'
  end.

Definition trimStart (s : string) : string := dropWhile isWhiteSpace s.

Fixpoint trimEnd (s : string) : string :=
  match s with
  | EmptyString => EmptyString
  | String c s' =>
      let t := trimEnd s' in
      if isWhiteSpace c && isEmpty t then EmptyString else String c t
  end.

(** [String.prototype.trim] *)
Definition trim (s : string) : string := trimEnd (trimStart s).

Definition lowerChar (c : ascii) : ascii :=
  let n := code c in
  if (Nat.leb 65 n && Nat.leb n 90)%bool then ascii_of_nat (n + 32)
  else if (Nat.leb 192 n && Nat.leb n 222 && negb (Nat.eqb n 215))%bool
       then ascii_of_nat (n + 32)
  else c.

(** [String.prototype.toLowerCase] *)
Fixpoint toLowerCase (s : string) : string :=
  match s with
  | EmptyString => EmptyString
  | String c s' => String (lowerChar c) (toLowerCase s')
  end.

Fixpoint startsWith (s sub : string) : bool :=
  match sub, s with
  | EmptyString, _ => true
  | String _ _, EmptyString => false
  | String b sub', String a s' => Ascii.eqb a b && startsWith s' sub'
  end.

(** [String.prototype.includes] *)
Fixpoint includes (s sub : string) : bool :=
  startsWith s sub ||
  match s with
  | EmptyString => false
  | String _ s' => includes s' sub
  end.

(** [String.prototype.split] with a one-character separator. *)
Fixpoint split (sep : ascii) (s : string) : list string :=
  match s with
  | EmptyString => [EmptyString]
  | String c s' =>
      if Ascii.eqb c sep then EmptyString :: split sep s'
      else match split sep s' with
           | [] => [String c EmptyString]
           | piece :: pieces => String c piece :: pieces
           end
  end.

Definition eqb (a b : string) : bool := String.eqb a b.

Definition LF : ascii := ascii_of_nat 10.
Definition SPACE : ascii := ascii_of_nat 32.

End JsString.

(** ** JavaScript numbers

    A finite number is represented by its exact rational value; the two
    infinities and NaN are separate. Only comparison, [Math.min] and
    [Math.max] are used on them, and these are exact on doubles. *)

Inductive number : Type :=
| NaN
| NegInf
| Fin (q : Q)
| PosInf.

Module JsNumber.

(** [a <= b] as JavaScript evaluates it: false as soon as one side is NaN. *)
Definition leb (a b : number) : bool :=
  match a, b with
  | NaN, _ | _, NaN => false
  | NegInf, _ => true
  | _, PosInf => true
  | Fin x, Fin y => Qle_bool x y
  | _, _ => false
  end.

(** [a >= b] *)
Definition geb (a b : number) : bool := leb b a.

(** [Math.min] and [Math.max] of two arguments. *)
Definition min (a b : number) : number :=
  match a, b with
  | NaN, _ | _, NaN => NaN
  | _, _ => if leb a b then a else b
  end.

Definition max (a b : number) : number :=
  match a, b with
  | NaN, _ | _, NaN => NaN
  | _, _ => if leb a b then b else a
  end.

Definition ofZ (z : Z) : number := Fin (inject_Z z).

(** ToBoolean on a number: 0 and NaN are falsy. *)
Definition truthy (a : number) : bool :=
  match a with
  | NaN => false
  | Fin q => negb (Qeq_bool q 0)
  | _ => true
  end.

(** The closed interval the specification calls [[0,100]]. *)
Definition inPercentRange (a : number) : Prop :=
  match a with
  | Fin q => (0 <= q)%Q /\ (q <= 100)%Q
  | _ => False
  end.

End JsNumber.

(** ** JavaScript values

    What [JSON.parse] can return, together with [undefined] (the value of a
    missing property). An object is the association list of its own
    properties; a key is read at its first binding. *)

#[local] Set Warnings "-register-all".
Inductive jsval : Type :=
| JUndefined
| JNull
| JBool (b : bool)
| JNum (n : number)
| JStr (s : string)
| JArr (elems : list jsval)
| JObj (props : list (string * jsval)).

(** The built-in conversions the orchestrator relies on but does not
    define. [JSON_parse] is [None] when [JSON.parse] throws. *)
Class JsBuiltins : Type := {
  JSON_parse : string -> option jsval;
  StringToNumber : string -> number;
  NumberToString : number -> string
}.

Module JsValue.

Fixpoint lookupProp (props : list (string * jsval)) (key : string) : jsval :=
  match props with
  | [] => JUndefined
  | (k, v) :: rest => if String.eqb k key then v else lookupProp rest key
  end.

Definition hasOwn (props : list (string * jsval)) (key : string) : bool :=
  existsb (fun kv => String.eqb (fst kv) key) props.

(** [v.key] for the keys the orchestrator reads, none of which is found
    on a prototype: [None] is the TypeError raised on [null] and
    [undefined]. *)
Definition getProp (v : jsval) (key : string) : option jsval :=
  match v with
  | JUndefined | JNull => None
  | JObj props => Some (lookupProp props key)
  | _ => Some JUndefined
  end.

(** [v?.key] *)
Definition getPropOpt (v : jsval) (key : string) : option jsval :=
  match v with
  | JUndefined | JNull => Some JUndefined
  | _ => getProp v key
  end.

(** ToBoolean *)
Definition truthy (v : jsval) : bool :=
  match v with
  | JUndefined | JNull => false
  | JBool b => b
  | JNum n => JsNumber.truthy n
  | JStr s => negb (JsString.isEmpty s)
  | JArr _ | JObj _ => true
  end.

(** [a || b] *)
Definition orElse (a b : jsval) : jsval := if truthy a then a else b.

Definition isArray (v : jsval) : bool :=
  match v with JArr _ => true | _ => false end.

Section Conversions.
Context `{JsBuiltins}.

(** ToString; [None] is a TypeError. A parsed object has no callable
    [toString] of its own: it prints as [[object Object]] through the
    inherited one unless an own [toString] property hides that, in which
    case the conversion throws. An array prints as its elements joined
    by commas, [null] and [undefined] printing as nothing. *)
Fixpoint ToString (v : jsval) : option string :=
  match v with
  | JUndefined => Some "undefined"
  | JNull => Some "null"
  | JBool true => Some "true"
  | JBool false => Some "false"
  | JNum n => Some (NumberToString n)
  | JStr s => Some s
  | JArr elems =>
      let fix pieces (l : list jsval) : option (list string) :=
        match l with
        | [] => Some []
        | e :: l' =>
            match (match e with
                   | JUndefined | JNull => Some EmptyString
                   | _ => ToString e
                   end), pieces l' with
            | Some p, Some ps => Some (p :: ps)
            | _, _ => None
            end
        end in
      match pieces elems with
      | Some ps => Some (String.concat "," ps)
      | None => None
      end
  | JObj props =>
      if hasOwn props "toString" then None else Some "[object Object]"
  end.

(** ToNumber; [None] is a TypeError. *)
Definition ToNumber (v : jsval) : option number :=
  match v with
  | JUndefined => Some NaN
  | JNull => Some (JsNumber.ofZ 0)
  | JBool true => Some (JsNumber.ofZ 1)
  | JBool false => Some (JsNumber.ofZ 0)
  | JNum n => Some n
  | JStr s => Some (StringToNumber s)
  | JArr _ | JObj _ =>
      match ToString v with
      | Some s => Some (StringToNumber s)
      | None => None
      end
  end.

(** [value.toLowerCase()]: only a string has the method. *)
Definition callToLowerCase (v : jsval) : option string :=
  match v with
  | JStr s => Some (JsString.toLowerCase s)
  | _ => None
  end.

End Conversions.

End JsValue.

(** Modelled from the spec: the interface [ResultAnalysis] is imported from
    lib/types/api.ts but its declaration is absent from the repository
    files; the fields are those of the GapAnalysis entity of section 3, as
    [parseAnalysisResponse] builds them. The arrays hold whatever the
    parsed payload held. *)
Record GapCategories : Type := {
  factual : list jsval;
  contextual : list jsval;
  verification : list jsval;
  depth : list jsval
}.

(** Modelled from the spec: the GapAnalysis entity of section 3, under the
    field names [parseAnalysisResponse] assigns. *)
Record ResultAnalysis : Type := {
  completeness : number;
  informationGaps : list jsval;
  gapCategories : GapCategories;
  followupTopics : list jsval;
  confidenceLevel : number;
  needsMoreSearch : bool;
  reasoning : string
}.

Inductive SearchFocusMode : Type :=
| general | academic | creative | news | technical | medical | legal.

Record SearchContext : Type := {
  query : string;
  focusMode : SearchFocusMode;
  language : option string;
  region : option string
}.

Record ApiError : Type := {
  message : string;
  code : string
}.

(** [ApiResponse<T>]: the callers test [success] and [data] separately. *)
Record ApiResponse (T : Type) : Type := {
  data : option T;
  error : option ApiError;
  success : bool
}.
Arguments data {T} _.
Arguments error {T} _.
Arguments success {T} _.

Definition succeed {T : Type} (value : T) : ApiResponse T :=
  {| data := Some value; error := None; success := true |}.

Definition failWith {T : Type} (msg errorCode : string) : ApiResponse T :=
  {| data := None;
     error := Some {| message := msg; code := errorCode |};
     success := false |}.

(** The payload of a response that passes the test
    [response.success && response.data]. *)
Definition usable {T : Type} (response : ApiResponse T) : option T :=
  if success response then data response else None.

(** ** Data model *)

(** An item of a search response: the interface [SearchResult] of the
    search client (lib/api/search.ts), under another name because the
    orchestrator has a [SearchResult] of its own. Every field holds what the
    interface declares; [metadata] is the [pagemap] object of the payload. *)
Record SearchItem : Type := {
  title : string;
  link : string;
  snippet : string;
  displayLink : string;
  formattedUrl : string;
  htmlTitle : string;
  htmlSnippet : string;
  cacheId : option string;
  metadata : option jsval
}.

(** The [searchInformation] object of a response; [totalResultsText] is its
    [totalResults] string. *)
Record SearchInformation : Type := {
  searchTime : Q;
  totalResultsText : string;
  formattedTotalResults : string
}.

(** [SearchResponse] of the search client. [searchInformation] is optional
    here although the interface declares it: the object [aggregateResults]
    builds from no batch has none. *)
Record SearchResponse : Type := {
  items : list SearchItem;
  totalResults : nat;
  hasNextPage : bool;
  nextPageStartIndex : option nat;
  searchInformation : option SearchInformation
}.

(** [SearchOrchestrationConfig] after the constructor has filled in the
    defaults. Limits are counts; the API keys and the model name only reach
    the two service clients and are left out. *)
Record SearchOrchestrationConfig : Type := {
  maxSearchResults : nat;
  enableQueryGeneration : bool;
  maxGeneratedQueries : nat;
  enableIterativeSearch : bool;
  maxSearchIterations : nat;
  completenessThreshold : number;
  maxFollowupQueries : nat
}.

Definition defaultConfig : SearchOrchestrationConfig := {|
  maxSearchResults := 10;
  enableQueryGeneration := true;
  maxGeneratedQueries := 5;
  enableIterativeSearch := false;
  maxSearchIterations := 2;
  completenessThreshold := JsNumber.ofZ 80;
  maxFollowupQueries := 3
|}.

(** ** ResultAggregator *)

(** One turn of the deduplication loop of [aggregateResults]: [seenUrls] is
    the [Set<string>], [uniqueItems] the array being pushed to. *)
Definition dedupStep (st : gset string * list SearchItem) (item : SearchItem)
  : gset string * list SearchItem :=
  let '(seenUrls, uniqueItems) := st in
  if bool_decide (link item ∈ seenUrls) then st
  else ({[ link item ]} ∪ seenUrls, uniqueItems ++ [item]).

(** [aggregateResults]. [searchResponses[0]] is [head] ([undefined] on the
    empty array), and spreading [undefined] into the object literal adds no
    property, which leaves [searchInformation] absent. *)
Definition aggregateResults (config : SearchOrchestrationConfig)
    (searchResponses : list SearchResponse) : SearchResponse :=
  let allItems := flat_map items searchResponses in
  let uniqueItems := snd (fold_left dedupStep allItems (∅, [])) in
  let limitedItems := take (maxSearchResults config) uniqueItems in
  let baseResponse := head searchResponses in
  {| items := limitedItems;
     totalResults := length limitedItems;
     hasNextPage := false;
     nextPageStartIndex := None;
     searchInformation := baseResponse ≫= searchInformation |}.

(** The specification's wording of the same result, for comparison with the
    code: of the flattened items, keep exactly those whose URL does not
    occur among the items before them. *)
Fixpoint keepFirstAfter (earlier later : list SearchItem) : list SearchItem :=
  match later with
  | [] => []
  | item :: rest =>
      (if bool_decide (link item ∈ link <$> earlier) then [] else [item])
      ++ keepFirstAfter (earlier ++ [item]) rest
  end.

Definition keepFirstByUrl (allItems : list SearchItem) : list SearchItem :=
  keepFirstAfter [] allItems.

(** ** Parsing of model replies *)

Module ReplyParsing.
Import JsString.

(** The greedy [\s*] followed by [(.+)$]: the capture starts [k]
    characters into [rest], for the largest [k] not above the length of
    the white-space prefix that leaves a non-empty capture free of line
    terminators; the matcher backtracks from the longest prefix down. *)
Fixpoint captureAfter (k : nat) (rest : string) : option string :=
  let captured := dropN k rest in
  if negb (isEmpty captured) && all (fun c => negb (isLineTerminator c)) captured
  then Some captured
  else match k with
       | O => None
       | S k' => captureAfter k' rest
       end.

(** [line.match(/^\d+\.\s*(.+)$/)], returning capture group 1. The digit
    run is maximal: giving a digit back would need a digit to match the
    dot. *)
Definition matchNumbered (line : string) : option string :=
  let digits := takeWhile isDigit line in
  if isEmpty digits then None
  else match dropWhile isDigit line with
       | String dot rest =>
           if Nat.eqb (code dot) 46
           then captureAfter (String.length (takeWhile isWhiteSpace rest)) rest
           else None
       | EmptyString => None
       end.

Fixpoint dropLastQuote (s : string) : string :=
  match s with
  | EmptyString => EmptyString
  | String c EmptyString => if isQuote c then EmptyString else s
  | String c s' => String c (dropLastQuote s')
  end.

(** [query.replace(/^["']|["']$/g, '')]: a quote at the start is removed,
    and so is a quote at the end of what follows it. *)
Definition stripQuotes (s : string) : string :=
  match s with
  | String c s' => if isQuote c then dropLastQuote s' else dropLastQuote s
  | EmptyString => EmptyString
  end.

(** [generatedText.split('\n').filter(line => line.trim())] *)
Definition replyLines (generatedText : string) : list string :=
  filter (fun line => negb (isEmpty (trim line)) = true)
         (split LF generatedText).

(** The query a numbered line contributes, if any: capture, trim, strip
    quotes, then drop it when empty or equal to the original query. *)
Definition numberedQuery (originalQuery line : string) : option string :=
  match matchNumbered line with
  | Some captured =>
      let q := stripQuotes (trim captured) in
      if negb (isEmpty q) && negb (String.eqb q originalQuery)
      then Some q else None
  | None => None
  end.

(** The filter of the fallback of [parseGeneratedQueries]. *)
Definition meaningfulLine (originalQuery line : string) : bool :=
  Nat.ltb 5 (String.length line)
  && negb (includes (toLowerCase line) "here are")
  && negb (includes (toLowerCase line) "search queries")
  && negb (includes (toLowerCase line) "cannot generate")
  && negb (String.eqb line originalQuery).

Definition parseGeneratedQueries (config : SearchOrchestrationConfig)
    (generatedText originalQuery : string) : list string :=
  let lines := replyLines generatedText in
  let queries := omap (numberedQuery originalQuery) lines in
  let queries :=
    if Nat.eqb (length queries) 0
    then queries ++ take (maxGeneratedQueries config)
                         (filter (fun line => meaningfulLine originalQuery line = true) lines)
    else queries in
  let queries :=
    if Nat.eqb (length queries) 0 then queries ++ [originalQuery]
    else queries in
  take (maxGeneratedQueries config) queries.

End ReplyParsing.

(** ** Priority heuristic of the follow-up generator *)

Module Priority.
Import JsString.

Definition factualKeywords : list string :=
  ["data"; "statistics"; "numbers"; "facts"; "research"; "study"; "evidence"].
Definition verificationKeywords : list string :=
  ["official"; "verified"; "confirmed"; "authoritative"; "source"; "validation"].
Definition depthKeywords : list string :=
  ["detailed"; "comprehensive"; "complete"; "thorough"; "in-depth"; "advanced"].
Definition contextualKeywords : list string :=
  ["background"; "context"; "history"; "explanation"; "overview"; "introduction"].

(** [keywords.some(keyword => queryLower.includes(keyword))] *)
Definition someIncluded (queryLower : string) (keywords : list string) : bool :=
  existsb (fun keyword => includes queryLower keyword) keywords.

(** The guarded keyword test of one gap category. *)
Definition addresses (gaps : list jsval) (keywords : list string)
    (queryLower : string) : bool :=
  Nat.ltb 0 (length gaps) && someIncluded queryLower keywords.

(** [entries.filter(e => queryLower.includes(e.toLowerCase()) ||
    e.toLowerCase().includes(queryLower)).length]; [None] when an entry
    has no [toLowerCase] to call. *)
Fixpoint countMatches (queryLower : string) (entries : list jsval) : option nat :=
  match entries with
  | [] => Some 0
  | entry :: rest =>
      match JsValue.callToLowerCase entry with
      | None => None
      | Some entryLower =>
          match countMatches queryLower rest with
          | None => None
          | Some n =>
              Some (if includes queryLower entryLower
                       || includes entryLower queryLower
                    then S n else n)
          end
      end
  end.

Definition lengthBonus (query : string) : bool :=
  Nat.leb 20 (String.length query) && Nat.leb (String.length query) 80.

Definition wordBonus (queryLower : string) : bool :=
  let words := length (split SPACE queryLower) in
  Nat.leb 3 words && Nat.leb words 8.

Local Open Scope Z_scope.

Definition calculateQueryPriority (query : string) (analysis : ResultAnalysis)
  : option Z :=
  let priority := 0 in
  let queryLower := toLowerCase query in
  let gapTypesAddressed := 0 in
  let '(priority, gapTypesAddressed) :=
    if addresses (factual (gapCategories analysis)) factualKeywords queryLower
    then (priority + 40, gapTypesAddressed + 1)
    else (priority, gapTypesAddressed) in
  let '(priority, gapTypesAddressed) :=
    if addresses (verification (gapCategories analysis)) verificationKeywords queryLower
    then (priority + 35, gapTypesAddressed + 1)
    else (priority, gapTypesAddressed) in
  let '(priority, gapTypesAddressed) :=
    if addresses (depth (gapCategories analysis)) depthKeywords queryLower
    then (priority + 30, gapTypesAddressed + 1)
    else (priority, gapTypesAddressed) in
  let '(priority, gapTypesAddressed) :=
    if addresses (contextual (gapCategories analysis)) contextualKeywords queryLower
    then (priority + 25, gapTypesAddressed + 1)
    else (priority, gapTypesAddressed) in
  match countMatches queryLower (followupTopics analysis) with
  | None => None
  | Some topicMatches =>
      let priority := priority + Z.of_nat topicMatches * 15 in
      match countMatches queryLower (informationGaps analysis) with
      | None => None
      | Some gapMatches =>
          let priority := priority + Z.of_nat gapMatches * 10 in
          let priority :=
            if 1 <? gapTypesAddressed then priority + 20 else priority in
          let priority :=
            if lengthBonus query then priority + 5 else priority in
          let priority :=
            if wordBonus queryLower then priority + 5 else priority in
          Some (Z.max 0 priority)
      end
  end.

(** The contributions to the score other than the factual one, named one by
    one so that two queries can be compared on them. *)
Record Components : Type := {
  verificationHit : bool;
  depthHit : bool;
  contextualHit : bool;
  topicMatches : nat;
  gapMatches : nat;
  goodLength : bool;
  goodWordCount : bool
}.

Definition componentsOf (query : string) (analysis : ResultAnalysis)
  : option Components :=
  let queryLower := toLowerCase query in
  match countMatches queryLower (followupTopics analysis),
        countMatches queryLower (informationGaps analysis) with
  | Some topics, Some gaps =>
      Some {| verificationHit :=
                addresses (verification (gapCategories analysis))
                          verificationKeywords queryLower;
              depthHit :=
                addresses (depth (gapCategories analysis)) depthKeywords queryLower;
              contextualHit :=
                addresses (contextual (gapCategories analysis))
                          contextualKeywords queryLower;
              topicMatches := topics;
              gapMatches := gaps;
              goodLength := lengthBonus query;
              goodWordCount := wordBonus queryLower |}
  | _, _ => None
  end.


(** The score as a function of the factual hit and the other contributions. *)
Definition scoreOf (factualHit : bool) (c : Components) : Z :=
  let hits :=
    (if factualHit then 1 else 0) + (if verificationHit c then 1 else 0)
    + (if depthHit c then 1 else 0) + (if contextualHit c then 1 else 0) in
  (if factualHit then 40 else 0) + (if verificationHit c then 35 else 0)
  + (if depthHit c then 30 else 0) + (if contextualHit c then 25 else 0)
  + Z.of_nat (topicMatches c) * 15 + Z.of_nat (gapMatches c) * 10
  + (if 1 <? hits then 20 else 0)
  + (if goodLength c then 5 else 0) + (if goodWordCount c then 5 else 0).

(** An entry of the [queries] array of
    [parseAndPrioritizeFollowupQueries]. *)
Record Candidate : Type := {
  candidateQuery : string;
  priority : Z
}.

(** [Array.prototype.sort] with the comparator
    [(a, b) => b.priority - a.priority]: a stable sort, highest priority
    first. [insertByPriority] puts an entry in front of a sorted tail that
    followed it in the array, so it passes only strictly higher
    priorities. *)
Fixpoint insertByPriority (c : Candidate) (sorted : list Candidate) : list Candidate :=
  match sorted with
  | [] => [c]
  | d :: rest =>
      if priority c <? priority d then d :: insertByPriority c rest
      else c :: d :: rest
  end.

Definition sortByPriority (queries : list Candidate) : list Candidate :=
  foldr insertByPriority [] queries.

(** The order the sort establishes: no later entry has a higher priority. *)
Definition byPriority (x y : Candidate) : Prop := priority y <= priority x.

(** Scoring a list of texts in order; the first failing score aborts. *)
Fixpoint scoreAll (analysis : ResultAnalysis) (label : string -> string)
    (texts : list string) : option (list Candidate) :=
  match texts with
  | [] => Some []
  | text :: rest =>
      match calculateQueryPriority text analysis with
      | None => None
      | Some p =>
          match scoreAll analysis label rest with
          | None => None
          | Some cs => Some ({| candidateQuery := label text; priority := p |} :: cs)
          end
      end
  end.

(** The filter of the fallback of [parseAndPrioritizeFollowupQueries]. *)
Definition meaningfulFollowupLine (originalQuery line : string) : bool :=
  Nat.ltb 10 (String.length line)
  && negb (includes (toLowerCase line) "follow-up")
  && negb (includes (toLowerCase line) "search queries")
  && negb (includes (toLowerCase line) "generated")
  && negb (String.eqb line originalQuery).

(** The [queries] array just before it is sorted. *)
Definition followupCandidates (config : SearchOrchestrationConfig)
    (generatedText : string) (context : SearchContext)
    (analysis : ResultAnalysis) : option (list Candidate) :=
  let lines := ReplyParsing.replyLines generatedText in
  match scoreAll analysis (fun q => q)
          (omap (ReplyParsing.numberedQuery (query context)) lines) with
  | None => None
  | Some queries =>
      if Nat.eqb (length queries) 0
      then
        let meaningfulLines :=
          filter (fun line => meaningfulFollowupLine (query context) line = true)
                 lines in
        scoreAll analysis trim (take (maxFollowupQueries config) meaningfulLines)
      else Some queries
  end.

(** The sorted and truncated array, before [.map(item => item.query)]. *)
Definition rankedCandidates (config : SearchOrchestrationConfig)
    (queries : list Candidate) : list Candidate :=
  take (maxFollowupQueries config) (sortByPriority queries).

Definition parseAndPrioritizeFollowupQueries (config : SearchOrchestrationConfig)
    (generatedText : string) (context : SearchContext)
    (analysis : ResultAnalysis) : option (list string) :=
  match followupCandidates config generatedText context analysis with
  | None => None
  | Some queries => Some (candidateQuery <$> rankedCandidates config queries)
  end.

End Priority.

(** ** CompletenessAnalyzer: validation of the model's payload *)

Module Analysis.
Import JsValue.

Fixpoint throughLastBrace (s : string) : option string :=
  match s with
  | EmptyString => None
  | String c s' =>
      match throughLastBrace s' with
      | Some t => Some (String c t)
      | None => if Nat.eqb (JsString.code c) 125
                then Some (String c EmptyString) else None
      end
  end.

(** [generatedText.match(/\{[\s\S]*\}/)]: from the first opening brace to
    the last closing brace after it. *)
Definition jsonMatch (generatedText : string) : option string :=
  throughLastBrace
    (JsString.dropWhile (fun c => negb (Nat.eqb (JsString.code c) 123))
                        generatedText).

Definition arrayOrEmpty (v : jsval) : list jsval :=
  match v with JArr elems => elems | _ => [] end.

Section Validation.
Context `{JsBuiltins}.

(** [Math.max(0, Math.min(100, value || 0))] *)
Definition clampPercent (value : jsval) : option number :=
  match ToNumber (orElse value (JNum (JsNumber.ofZ 0))) with
  | Some n =>
      Some (JsNumber.max (JsNumber.ofZ 0) (JsNumber.min (JsNumber.ofZ 100) n))
  | None => None
  end.

(** The object literal of the [try] block; [None] when evaluating one of
    its fields throws. *)
Definition validateAnalysis (analysisData : jsval) : option ResultAnalysis :=
  completenessRaw ← getProp analysisData "completeness";
  completenessValue ← clampPercent completenessRaw;
  gapsRaw ← getProp analysisData "informationGaps";
  categories ← getProp analysisData "gapCategories";
  factualRaw ← getPropOpt categories "factual";
  contextualRaw ← getPropOpt categories "contextual";
  verificationRaw ← getPropOpt categories "verification";
  depthRaw ← getPropOpt categories "depth";
  topicsRaw ← getProp analysisData "followupTopics";
  confidenceRaw ← getProp analysisData "confidenceLevel";
  confidenceValue ← clampPercent confidenceRaw;
  needsRaw ← getProp analysisData "needsMoreSearch";
  reasoningRaw ← getProp analysisData "reasoning";
  reasoningText ← ToString (orElse reasoningRaw (JStr "Analysis completed"));
  Some {| completeness := completenessValue;
          informationGaps := arrayOrEmpty gapsRaw;
          gapCategories :=
            {| factual := arrayOrEmpty factualRaw;
               contextual := arrayOrEmpty contextualRaw;
               verification := arrayOrEmpty verificationRaw;
               depth := arrayOrEmpty depthRaw |};
          followupTopics := arrayOrEmpty topicsRaw;
          confidenceLevel := confidenceValue;
          needsMoreSearch := truthy needsRaw;
          reasoning := reasoningText |}.

(** The analysis of the [catch] block. *)
Definition fallbackAnalysis (context : SearchContext) : ResultAnalysis :=
  {| completeness := JsNumber.ofZ 50;
     informationGaps := [JStr "Unable to properly analyze search results"];
     gapCategories :=
       {| factual := [JStr "Analysis parsing failed - may need more factual information"];
          contextual := [JStr "Unable to assess contextual completeness"];
          verification := [];
          depth := [JStr "Cannot determine information depth"] |};
     followupTopics := [JStr (query context ++ " additional information")];
     confidenceLevel := JsNumber.ofZ 30;
     needsMoreSearch := true;
     reasoning := "Analysis parsing failed, recommending additional search as precaution" |}.

Definition parseAnalysisResponse (generatedText : string)
    (context : SearchContext) : ResultAnalysis :=
  match jsonMatch generatedText with
  | None => fallbackAnalysis context
  | Some matched =>
      match JSON_parse matched with
      | None => fallbackAnalysis context
      | Some analysisData =>
          match validateAnalysis analysisData with
          | Some analysis => analysis
          | None => fallbackAnalysis context
          end
      end
  end.

End Validation.

(** The two canned analyses of [analyzeSearchResults]. *)
Definition noResultsAnalysis : ResultAnalysis :=
  {| completeness := JsNumber.ofZ 0;
     informationGaps := [JStr "No search results available"];
     gapCategories :=
       {| factual := [JStr "No factual information found"];
          contextual := [JStr "No contextual information available"];
          verification := [];
          depth := [JStr "No detailed information available"] |};
     followupTopics := [];
     confidenceLevel := JsNumber.ofZ 0;
     needsMoreSearch := true;
     reasoning := "No search results were available for analysis" |}.

Definition noContentAnalysis : ResultAnalysis :=
  {| completeness := JsNumber.ofZ 10;
     informationGaps := [JStr "No meaningful content extracted from search results"];
     gapCategories :=
       {| factual := [JStr "Limited factual data available"];
          contextual := [JStr "Insufficient context provided"];
          verification := [];
          depth := [JStr "Surface-level information only"] |};
     followupTopics := [];
     confidenceLevel := JsNumber.ofZ 20;
     needsMoreSearch := true;
     reasoning := "Search results contained no meaningful extractable content" |}.

End Analysis.

(** ** Calls on the two service clients

    The orchestrator reaches the outside world only through
    [geminiClient.generateContent], [searchClient.search] (always under one
    [Promise.allSettled]) and [searchClient.searchWithFocus]. A program is
    the tree of these calls; [run] plays it against an environment and
    records what was called. *)

Record GenerationOptions : Type := {
  temperature : Q;
  maxOutputTokens : nat
}.

Record GeminiPart : Type := { text : string }.
Record GeminiContent : Type := { parts : list GeminiPart }.
Record GeminiCandidate : Type := { content : GeminiContent }.
Record GeminiResponse : Type := { candidates : list GeminiCandidate }.

(** [response.data?.candidates?.[0]?.content?.parts?.[0]?.text], with the
    empty text counted as missing, as the test [!generatedText] does. *)
Definition generatedTextOf (response : GeminiResponse) : option string :=
  match head (candidates response) with
  | Some candidate =>
      match head (parts (content candidate)) with
      | Some part => if JsString.isEmpty (text part) then None else Some (text part)
      | None => None
      end
  | None => None
  end.

Record SearchRequest : Type := {
  searchQuery : string;
  num : nat;
  searchLanguage : option string;
  searchRegion : option string
}.

(** The outcome of one promise handed to [Promise.allSettled], or of one
    awaited call into the search client. The reason of a rejection carries
    a message when it is an [Error]. *)
Inductive Settled (T : Type) : Type :=
| Fulfilled (value : T)
| Rejected (reason : option string).
Arguments Fulfilled {T} _.
Arguments Rejected {T} _.

Inductive Prog (A : Type) : Type :=
| Ret (a : A)
| GenerateContent (prompt : string) (options : GenerationOptions)
    (k : ApiResponse GeminiResponse -> Prog A)
| SearchAllSettled (requests : list SearchRequest)
    (k : list (Settled (ApiResponse SearchResponse)) -> Prog A)
| SearchWithFocus (context : SearchContext) (count : nat)
    (k : Settled (ApiResponse SearchResponse) -> Prog A).
Arguments Ret {A} _.
Arguments GenerateContent {A} _ _ _.
Arguments SearchAllSettled {A} _ _.
Arguments SearchWithFocus {A} _ _ _.

Fixpoint bind {A B : Type} (m : Prog A) (f : A -> Prog B) : Prog B :=
  match m with
  | Ret a => f a
  | GenerateContent prompt options k =>
      GenerateContent prompt options (fun r => bind (k r) f)
  | SearchAllSettled requests k =>
      SearchAllSettled requests (fun r => bind (k r) f)
  | SearchWithFocus context count k =>
      SearchWithFocus context count (fun r => bind (k r) f)
  end.

#[global] Instance Prog_ret : MRet Prog := fun A a => Ret a.
#[global] Instance Prog_bind : MBind Prog := fun A B f m => bind m f.

Definition generateContent (prompt : string) (options : GenerationOptions)
  : Prog (ApiResponse GeminiResponse) :=
  GenerateContent prompt options Ret.

Definition searchAllSettled (requests : list SearchRequest)
  : Prog (list (Settled (ApiResponse SearchResponse))) :=
  SearchAllSettled requests Ret.

Definition searchWithFocus (context : SearchContext) (count : nat)
  : Prog (Settled (ApiResponse SearchResponse)) :=
  SearchWithFocus context count Ret.

(** A call together with the answer it received. *)
Inductive Event : Type :=
| Generated (prompt : string) (options : GenerationOptions)
    (response : ApiResponse GeminiResponse)
| SearchedAll (requests : list SearchRequest)
    (outcomes : list (Settled (ApiResponse SearchResponse)))
| SearchedWithFocus (context : SearchContext) (count : nat)
    (outcome : Settled (ApiResponse SearchResponse)).

(** The outside world: each answer may depend on everything that happened
    before. [Promise.allSettled] settles every request, in order. *)
Record Environment : Type := {
  onGenerateContent :
    list Event -> string -> GenerationOptions -> ApiResponse GeminiResponse;
  onSearch :
    list Event -> nat -> SearchRequest -> Settled (ApiResponse SearchResponse);
  onSearchWithFocus :
    list Event -> SearchContext -> nat -> Settled (ApiResponse SearchResponse)
}.

Fixpoint run {A : Type} (env : Environment) (history : list Event) (m : Prog A)
  : A * list Event :=
  match m with
  | Ret a => (a, history)
  | GenerateContent prompt options k =>
      let response := onGenerateContent env history prompt options in
      run env (history ++ [Generated prompt options response]) (k response)
  | SearchAllSettled requests k =>
      let outcomes := imap (onSearch env history) requests in
      run env (history ++ [SearchedAll requests outcomes]) (k outcomes)
  | SearchWithFocus context count k =>
      let outcome := onSearchWithFocus env history context count in
      run env (history ++ [SearchedWithFocus context count outcome]) (k outcome)
  end.

(** What a program adds to the history it is started on. *)
Definition newEvents {A : Type} (env : Environment) (history : list Event)
    (m : Prog A) : list Event :=
  drop (length history) (snd (run env history m)).

Definition isGenerated (e : Event) : bool :=
  match e with Generated _ _ _ => true | _ => false end.

Definition isSearchedAll (e : Event) : bool :=
  match e with SearchedAll _ _ => true | _ => false end.

(** How many generation calls, and how many search rounds, a history holds. *)
Definition generationCalls (history : list Event) : nat :=
  length (filter (fun e => isGenerated e = true) history).

Definition searchRounds (history : list Event) : nat :=
  length (filter (fun e => isSearchedAll e = true) history).

(** ** SearchOrchestrator *)

(** The prompt texts, and the content extraction of the search client. No
    property below depends on what a prompt or an extracted text says, so
    they are parameters: every result holds for those of the source.
    [buildFollowupQueryPrompt] is [None] when interpolating an entry of the
    analysis throws. [extractContentForSynthesis] is the method of the
    search client (lib/api/search.ts), which builds one text per item from
    the item's title, URL and snippet; on items whose fields are the strings
    the interface declares, as those of [SearchItem] are, it returns. A
    payload item that came without title or snippet makes it throw; such
    items lie outside [SearchItem], and [Streaming.searchStream] accounts
    for them through [extractionFault]. *)
Class Collaborators : Type := {
  buildQueryGenerationPrompt : SearchOrchestrationConfig -> SearchContext -> string;
  buildAnalysisPrompt : SearchOrchestrationConfig -> SearchContext -> list string -> string;
  buildFollowupQueryPrompt :
    SearchOrchestrationConfig -> SearchContext -> ResultAnalysis -> option string;
  buildAnswerPrompt : SearchContext -> list string -> string;
  extractContentForSynthesis : SearchResponse -> list string
}.

Record SearchSource : Type := {
  sourceTitle : string;
  url : string;
  sourceSnippet : string;
  displayUrl : string;
  index : nat
}.

(** [SearchResult] without the wall-clock field [searchTime]. *)
Record SearchResult : Type := {
  resultQuery : string;
  resultFocusMode : SearchFocusMode;
  answer : string;
  sources : list SearchSource;
  tokensUsedTotal : nat;
  estimatedCost : nat
}.

Inductive LoopSignal : Type := Break | Continue.

(** The two variables the [while] loop of [search] updates. *)
Record LoopState : Type := {
  currentIteration : nat;
  allSearchResults : list SearchResponse
}.

Module Orchestrator.
Import JsValue.

Section WithCollaborators.
Context `{JsBuiltins} `{Collaborators}.
Variable config : SearchOrchestrationConfig.

Definition getTemperatureForFocus (mode : SearchFocusMode) : Q :=
  match mode with
  | general => 7 # 10
  | academic => 3 # 10
  | creative => 9 # 10
  | news => 5 # 10
  | technical => 2 # 10
  | medical => 1 # 10
  | legal => 1 # 10
  end.

Definition extractSources (searchResponse : SearchResponse) : list SearchSource :=
  imap (fun i item =>
          {| sourceTitle := title item;
             url := link item;
             sourceSnippet := snippet item;
             displayUrl := displayLink item;
             index := i + 1 |})
       (items searchResponse).

(** [GeminiClient.generateSearchAnswer], with the caller's options
    spread over its defaults. *)
Definition generateSearchAnswer (context : SearchContext)
    (searchResults : list string) (options : GenerationOptions)
  : Prog (ApiResponse string) :=
  response ← generateContent (buildAnswerPrompt context searchResults) options;
  match usable response with
  | None =>
      mret {| data := None;
              error := Some (default {| message := "Failed to generate content";
                                        code := "GENERATION_FAILED" |}
                                     (error response));
              success := false |}
  | Some body =>
      match generatedTextOf body with
      | None => mret (failWith "No content generated" "NO_CONTENT")
      | Some generatedText => mret (succeed generatedText)
      end
  end.

Definition generateSearchQueries (context : SearchContext)
  : Prog (ApiResponse (list string)) :=
  let prompt := buildQueryGenerationPrompt config context in
  response ← generateContent prompt
               {| temperature := 3 # 10; maxOutputTokens := 1024 |};
  match usable response with
  | None => mret (failWith "Query generation failed" "QUERY_GENERATION_FAILED")
  | Some body =>
      match generatedTextOf body with
      | None => mret (failWith "No queries generated" "NO_QUERIES_GENERATED")
      | Some generatedText =>
          mret (succeed (ReplyParsing.parseGeneratedQueries config generatedText
                                                            (query context)))
      end
  end.

(** [Math.ceil(a / b)] on counts, for [b > 0]. *)
Definition ceilDiv (a b : nat) : nat := (a + b - 1) / b.

Definition searchMultipleQueries (queries : list string) (context : SearchContext)
  : Prog (list (ApiResponse SearchResponse)) :=
  let requests :=
    (fun q => {| searchQuery := q;
                 num := ceilDiv (maxSearchResults config) (length queries);
                 searchLanguage := language context;
                 searchRegion := region context |}) <$> queries in
  results ← searchAllSettled requests;
  mret (imap (fun i result =>
                match result with
                | Fulfilled value => value
                | Rejected _ =>
                    failWith ("Search failed for query: "
                              ++ default "undefined" (queries !! i))
                             "INDIVIDUAL_SEARCH_FAILED"
                end) results).

Definition analyzeSearchResults (context : SearchContext)
    (searchResults : list SearchResponse) : Prog (ApiResponse ResultAnalysis) :=
  if Nat.eqb (length searchResults) 0
  then mret (succeed Analysis.noResultsAnalysis)
  else
    let allContent := flat_map extractContentForSynthesis searchResults in
    if Nat.eqb (length allContent) 0
    then mret (succeed Analysis.noContentAnalysis)
    else
      let analysisPrompt := buildAnalysisPrompt config context allContent in
      response ← generateContent analysisPrompt
                   {| temperature := 2 # 10; maxOutputTokens := 1024 |};
      match usable response with
      | None => mret (failWith "Analysis generation failed" "ANALYSIS_FAILED")
      | Some body =>
          match generatedTextOf body with
          | None => mret (failWith "No analysis generated" "NO_ANALYSIS_GENERATED")
          | Some generatedText =>
              mret (succeed (Analysis.parseAnalysisResponse generatedText context))
          end
      end.

Definition followupError : ApiResponse (list string) :=
  failWith "Follow-up query generation error" "FOLLOWUP_GENERATION_ERROR".

Definition generateFollowupQueries (context : SearchContext)
    (analysis : ResultAnalysis) : Prog (ApiResponse (list string)) :=
  if negb (needsMoreSearch analysis)
     || Nat.eqb (length (informationGaps analysis)) 0
  then mret (succeed [])
  else
    match buildFollowupQueryPrompt config context analysis with
    | None => mret followupError
    | Some followupPrompt =>
        response ← generateContent followupPrompt
                     {| temperature := 3 # 10; maxOutputTokens := 1024 |};
        match usable response with
        | None =>
            mret (failWith "Follow-up query generation failed"
                           "FOLLOWUP_GENERATION_FAILED")
        | Some body =>
            match generatedTextOf body with
            | None =>
                mret (failWith "No follow-up queries generated"
                               "NO_FOLLOWUP_QUERIES_GENERATED")
            | Some generatedText =>
                match Priority.parseAndPrioritizeFollowupQueries
                        config generatedText context analysis with
                | Some followupQueries => mret (succeed followupQueries)
                | None => mret followupError
                end
            end
        end
    end.

(** [responses.filter(r => r.success && r.data).map(r => r.data!)] *)
Definition successfulData (responses : list (ApiResponse SearchResponse))
  : list SearchResponse := omap usable responses.

(** [results.reduce((total, r) => total + r.items.length, 0)] *)
Definition countItems (results : list SearchResponse) : nat :=
  fold_left (fun total result => total + length (items result)) results 0.

(** The test guarding the "diminishing returns" [break], evaluated on
    the batches gathered so far and the batches of this round. *)
Definition diminishingReturns (previousResults newResults : list SearchResponse)
  : bool :=
  let newResultsCount := countItems newResults in
  let previousResultsCount := countItems previousResults in
  let allSearchResults := previousResults ++ newResults in
  let aggregatedCurrentResults := aggregateResults config allSearchResults in
  let uniqueResultsAfter := length (items aggregatedCurrentResults) in
  Nat.eqb newResultsCount 0 || Nat.leb uniqueResultsAfter previousResultsCount.

(** One turn of the [while] loop: [Break] for each [break], [Continue]
    when the end of the body is reached. *)
Definition iteration (context : SearchContext) (st : LoopState)
  : Prog (LoopSignal * LoopState) :=
  analysisResponse ← analyzeSearchResults context (allSearchResults st);
  match usable analysisResponse with
  | None => mret (Break, st)
  | Some analysis =>
      if negb (needsMoreSearch analysis)
         || JsNumber.geb (completeness analysis) (completenessThreshold config)
      then mret (Break, st)
      else if Nat.eqb (length (informationGaps analysis)) 0
      then mret (Break, st)
      else
        followupResponse ← generateFollowupQueries context analysis;
        match usable followupResponse with
        | None => mret (Break, st)
        | Some followupQueries =>
            if Nat.eqb (length followupQueries) 0 then mret (Break, st)
            else
              followupSearchResponses ←
                searchMultipleQueries followupQueries context;
              let newResults := successfulData followupSearchResponses in
              if Nat.eqb (length newResults) 0 then mret (Break, st)
              else
                let merged := allSearchResults st ++ newResults in
                if diminishingReturns (allSearchResults st) newResults
                then mret (Break,
                           {| currentIteration := currentIteration st;
                              allSearchResults := merged |})
                else mret (Continue,
                           {| currentIteration := currentIteration st + 1;
                              allSearchResults := merged |})
        end
  end.

(** [while (currentIteration < maxSearchIterations) { ... }]; [None]
    only if [fuel] turns of the loop were not enough. *)
Fixpoint iterate (fuel : nat) (context : SearchContext) (st : LoopState)
  : Prog (option LoopState) :=
  if Nat.ltb (currentIteration st) (maxSearchIterations config)
  then match fuel with
       | O => mret None
       | S fuel' =>
           '(signal, st') ← iteration context st;
           match signal with
           | Break => mret (Some st')
           | Continue => iterate fuel' context st'
           end
       end
  else mret (Some st).

(** Step 2 of [search]: the guarded loop, started at iteration 1 on the
    batches of the initial search. *)
Definition iterativeRefinement (context : SearchContext)
    (iterationResults : list SearchResponse) : Prog (option LoopState) :=
  let st := {| currentIteration := 1; allSearchResults := iterationResults |} in
  if enableIterativeSearch config && Nat.ltb 1 (maxSearchIterations config)
  then iterate (maxSearchIterations config) context st
  else mret (Some st).

(** Step 1 of [search]: the initial batches, or the error to return. A
    rejected call is caught by the [catch] of [search], which reports the
    message of the reason when that is an [Error]. *)
Definition initialSearch (context : SearchContext)
  : Prog (ApiResponse SearchResult + list SearchResponse) :=
  if enableQueryGeneration config
  then
    queryGenResponse ← generateSearchQueries context;
    let searchQueries :=
      match usable queryGenResponse with
      | None => [query context]
      | Some generated => generated
      end in
    searchResponses ← searchMultipleQueries searchQueries context;
    let iterationResults := successfulData searchResponses in
    if Nat.eqb (length iterationResults) 0
    then mret (inl (failWith "All initial search queries failed"
                             "INITIAL_SEARCH_FAILED"))
    else mret (inr iterationResults)
  else
    settled ← searchWithFocus context (maxSearchResults config);
    match settled with
    | Rejected reason =>
        mret (inl (failWith (default "Search orchestration failed" reason)
                            "ORCHESTRATION_ERROR"))
    | Fulfilled searchResponse =>
        match usable searchResponse with
        | None => mret (inl (failWith "Initial search failed" "INITIAL_SEARCH_FAILED"))
        | Some body => mret (inr [body])
        end
    end.

(** Steps 3 to 6 of [search]. *)
Definition synthesize (context : SearchContext)
    (gathered : list SearchResponse) : Prog (ApiResponse SearchResult) :=
  let aggregatedResults := aggregateResults config gathered in
  if Nat.eqb (length (items aggregatedResults)) 0
  then mret (failWith "No search results found after all iterations"
                      "NO_FINAL_RESULTS")
  else
    let searchContent := extractContentForSynthesis aggregatedResults in
    answerResponse ←
      generateSearchAnswer context searchContent
        {| temperature := getTemperatureForFocus (focusMode context);
           maxOutputTokens := 4096 |};
    match usable answerResponse with
    | None => mret (failWith "Final answer generation failed"
                             "FINAL_GENERATION_FAILED")
    | Some answerText =>
        mret (succeed {| resultQuery := query context;
                         resultFocusMode := focusMode context;
                         answer := answerText;
                         sources := extractSources aggregatedResults;
                         tokensUsedTotal := 0;
                         estimatedCost := 0 |})
    end.

(** [search]; [None] only if the loop ran out of fuel. *)
Definition search (context : SearchContext)
  : Prog (option (ApiResponse SearchResult)) :=
  initial ← initialSearch context;
  match initial with
  | inl failure => mret (Some failure)
  | inr iterationResults =>
      final ← iterativeRefinement context iterationResults;
      match final with
      | None => mret None
      | Some st =>
          result ← synthesize context (allSearchResults st);
          mret (Some result)
      end
  end.

End WithCollaborators.

End Orchestrator.

(** ** Provenance of the gathered batches *)

(** [batch] is the data of a usable response that the search client gave
    to one of the search calls recorded in [events]. *)
Definition returnedBy (events : list Event) (batch : SearchResponse) : Prop :=
  exists event, event ∈ events
    /\ match event with
       | SearchedAll _ outcomes =>
           exists response,
             Fulfilled response ∈ outcomes /\ usable response = Some batch
       | SearchedWithFocus _ _ (Fulfilled response) => usable response = Some batch
       | _ => False
       end.

(** ** Streaming

    [GeminiClient.streamContent] (lib/api/gemini.ts) and
    [SearchOrchestrator.searchStream]. An async generator is the list of the
    values it yields, in order, to a consumer that drains it, together with
    the way it ends. *)

(** The outcome of an awaited promise: its value, or the rejection, whose
    reason carries a message when it is an [Error]. *)
Inductive Awaited (T : Type) : Type :=
| Resolved (value : T)
| Threw (reason : option string).
Arguments Resolved {T} _.
Arguments Threw {T} _.

(** [v?.[0]]: the first element of an array, the first character of a
    string, the property ["0"] of an object. *)
Definition firstOpt (v : jsval) : jsval :=
  match v with
  | JArr elems => default JUndefined (head elems)
  | JStr (String c _) => JStr (String c EmptyString)
  | JObj props => JsValue.lookupProp props "0"
  | _ => JUndefined
  end.

Module Streaming.
Import JsString JsValue.

(** What the loop over the lines does with one line. *)
Inductive LineOutcome : Type :=
| Skipped
| Yielded (chunkText : jsval)
| Done.

(** How the reads of the response body end: [done], or a rejected read. *)
Inductive ReadEnd : Type := EndOfStream | ReadFailed.

(** What [fetch] gives [streamContent] to read: nothing (rejected), a
    response that is not [ok], a response without a body, or the decoded
    chunks of the body. *)
Inductive StreamSource : Type :=
| FetchRejected
| HttpError
| NoReader
| Reading (chunks : list string) (ending : ReadEnd).

(** The texts the generator yields, and whether it ends by throwing (always
    a [GeminiApiError]). *)
Record Streamed : Type := {
  yielded : list jsval;
  threw : bool
}.

Section WithBuiltins.
Context `{JsBuiltins}.

(** The body of [for (const line of lines)]: a line that is not blank and
    starts with ["data: "] ends the generator when it says [[DONE]], yields
    the text of the first part of the first candidate when that is truthy,
    and is skipped otherwise, also when [JSON.parse] or the access
    [data.candidates] throws. *)
Definition processLine (line : string) : LineOutcome :=
  if negb (isEmpty (trim line)) && startsWith line "data: "
  then
    let jsonStr := trim (dropN 6 line) in
    if String.eqb jsonStr "[DONE]" then Done
    else
      match JSON_parse jsonStr with
      | None => Skipped
      | Some payload =>
          match (candidateList ← getProp payload "candidates";
                 candidateContent ← getPropOpt (firstOpt candidateList) "content";
                 partList ← getPropOpt candidateContent "parts";
                 getPropOpt (firstOpt partList) "text") with
          | Some chunkText =>
              if truthy chunkText then Yielded chunkText else Skipped
          | None => Skipped
          end
      end
  else Skipped.

(** The loop over the complete lines of one read: the texts yielded, and
    whether [[DONE]] was met. *)
Fixpoint processLines (lines : list string) : list jsval * bool :=
  match lines with
  | [] => ([], false)
  | line :: rest =>
      match processLine line with
      | Done => ([], true)
      | Skipped => processLines rest
      | Yielded chunkText =>
          let '(texts, finished) := processLines rest in
          (chunkText :: texts, finished)
      end
  end.

(** [while (true)]: each read appends to the buffer, splits it at the line
    feeds, keeps the last piece as the new buffer ([lines.pop() || '']) and
    processes the others. *)
Fixpoint readLoop (buffer : string) (chunks : list string) (ending : ReadEnd)
  : Streamed :=
  match chunks with
  | [] => {| yielded := [];
             threw := match ending with EndOfStream => false | ReadFailed => true end |}
  | value :: rest =>
      let buffer := buffer +:+ value in
      let lines := split LF buffer in
      let buffer := default EmptyString (last lines) in
      let lines := removelast lines in
      let '(texts, finished) := processLines lines in
      if finished then {| yielded := texts; threw := false |}
      else
        let more := readLoop buffer rest ending in
        {| yielded := texts ++ yielded more; threw := threw more |}
  end.

Definition streamContent (source : StreamSource) : Streamed :=
  match source with
  | Reading chunks ending => readLoop EmptyString chunks ending
  | FetchRejected | HttpError | NoReader => {| yielded := []; threw := true |}
  end.

End WithBuiltins.

(** The events of [searchStream], without their [details] field. *)
Inductive StreamEvent : Type :=
| SearchStarted (searching : string)
| SourcesFound (found : list SearchSource)
| AnswerStart
| AnswerChunk (chunk : jsval)
| AnswerComplete
| StreamError (errorMessage errorCode : string).

(** What [searchStream] meets: the outcome of its search call, of the
    content extraction and of the streaming call. [extractionFault] is the
    message of the TypeError that [extractContentForSynthesis] raises on a
    response one of whose items came from the API without title or snippet
    ([cleanHtml] is then called on [undefined]), and [None] on a response
    whose items hold the strings the interface declares. *)
Record StreamEnvironment : Type := {
  onStreamSearch : SearchContext -> nat -> Awaited (ApiResponse SearchResponse);
  extractionFault : SearchResponse -> option string;
  onStreamContent : string -> GenerationOptions -> StreamSource
}.

Section SearchStream.
Context `{JsBuiltins} `{Collaborators}.

(** The prompt template of the orchestrator, a parameter like the others. *)
Variable buildSearchPrompt : SearchContext -> list string -> string.
Variable config : SearchOrchestrationConfig.

(** [searchStream]. Whatever is thrown outside the inner [try] reaches the
    outer [catch], which emits STREAM_ERROR with the message of the error:
    a rejected search call, and a content extraction that throws, which
    happens after the sources have been emitted. *)
Definition searchStream (context : SearchContext) (env : StreamEnvironment)
  : list StreamEvent :=
  SearchStarted (query context)
  :: match onStreamSearch env context (maxSearchResults config) with
     | Threw reason =>
         [StreamError (default "Streaming failed" reason) "STREAM_ERROR"]
     | Resolved searchResponse =>
         match usable searchResponse with
         | None => [StreamError "Search failed" "SEARCH_FAILED"]
         | Some body =>
             SourcesFound (Orchestrator.extractSources body)
             :: match extractionFault env body with
                | Some thrown => [StreamError thrown "STREAM_ERROR"]
                | None =>
                    let searchContent := extractContentForSynthesis body in
                    if Nat.eqb (length searchContent) 0
                    then [StreamError "No search results found" "NO_RESULTS"]
                    else
                      let prompt := buildSearchPrompt context searchContent in
                      let streamed :=
                        streamContent
                          (onStreamContent env prompt
                             {| temperature :=
                                  Orchestrator.getTemperatureForFocus
                                    (focusMode context);
                                maxOutputTokens := 4096 |}) in
                      AnswerStart
                      :: (AnswerChunk <$> yielded streamed)
                         ++ [if threw streamed
                             then StreamError "Answer generation failed"
                                              "GENERATION_FAILED"
                             else AnswerComplete]
                end
         end
     end.

End SearchStream.

(** The protocol a consumer of [searchStream] can rely on, as an automaton
    over the events: the phase the stream is in, and the events each phase
    admits. An error closes the stream with the code of its phase, or with
    STREAM_ERROR, the code of the outer [catch], in any phase. *)
Inductive Phase : Type := Idle | Searching | Sourced | Answering | Closed.

Definition advance (phase : Phase) (event : StreamEvent) : option Phase :=
  match phase, event with
  | Idle, SearchStarted _ => Some Searching
  | Searching, SourcesFound _ => Some Sourced
  | Searching, StreamError _ errorCode =>
      if bool_decide (errorCode ∈ ["SEARCH_FAILED"; "STREAM_ERROR"])
      then Some Closed else None
  | Sourced, AnswerStart => Some Answering
  | Sourced, StreamError _ errorCode =>
      if bool_decide (errorCode ∈ ["NO_RESULTS"; "STREAM_ERROR"])
      then Some Closed else None
  | Answering, AnswerChunk _ => Some Answering
  | Answering, AnswerComplete => Some Closed
  | Answering, StreamError _ errorCode =>
      if bool_decide (errorCode ∈ ["GENERATION_FAILED"; "STREAM_ERROR"])
      then Some Closed else None
  | _, _ => None
  end.

(** The events lead from [phase] to [Closed], and stop there. *)
Fixpoint accepts (phase : Phase) (events : list StreamEvent) : bool :=
  match events with
  | [] => match phase with Closed => true | _ => false end
  | event :: rest =>
      match advance phase event with
      | Some next => accepts next rest
      | None => false
      end
  end.

End Streaming.

(** ** Key utilities (lib/utils/encryption.ts, lib/utils/validation.ts) *)

Module KeyUtils.
Import JsString JsValue.


Record ValidationDetails : Type := {
  service : option string;
  quota : option number;
  model : option string
}.

(** [ValidationResult]; the [error] is whatever the API's error payload held
    when the message is taken from it. *)
Record ValidationResult : Type := {
  isValid : bool;
  validationError : option jsval;
  details : option ValidationDetails
}.

Definition invalid (reason : jsval) : ValidationResult :=
  {| isValid := false; validationError := Some reason; details := None |}.

(** The two requests the validators send, by what they carry; the URL
    encoding of the parameters is not modelled. *)
Inductive Request : Type :=
| GeminiTest (apiKey : string)
| CustomSearchTest (apiKey searchEngineId : string).

(** A [Response]: [json] is the outcome of [response.json()]. *)
Record HttpResponse : Type := {
  ok : bool;
  status : nat;
  json : Awaited jsval
}.

(** A validator: a result, or a [fetch] and what follows it. *)
Inductive Http (A : Type) : Type :=
| Return (a : A)
| Fetch (request : Request) (k : Awaited HttpResponse -> Http A).
Arguments Return {A} _.
Arguments Fetch {A} _ _.

Fixpoint andThen {A B : Type} (m : Http A) (f : A -> Http B) : Http B :=
  match m with
  | Return a => f a
  | Fetch request k => Fetch request (fun r => andThen (k r) f)
  end.

(** Running a validator against the network: the result and the requests
    sent, in order. *)
Fixpoint perform {A : Type} (network : Request -> Awaited HttpResponse)
    (m : Http A) : A * list Request :=
  match m with
  | Return a => (a, [])
  | Fetch request k =>
      let '(a, sent) := perform network (k (network request)) in
      (a, request :: sent)
  end.

Section Validators.
Context `{JsBuiltins}.

(** The message of the TypeError raised by reading the named property of
    [null], which is the engine's. *)
Variable typeErrorMessage : string -> string.

(** [parseInt], which throws when converting its argument to a string
    does. *)
Variable parseInt : jsval -> Awaited number.

(** [!apiKey || apiKey.trim().length === 0] *)
Definition blank (s : string) : bool :=
  isEmpty s || Nat.eqb (String.length (trim s)) 0.

(** [error instanceof Error ? error.message : 'Network error'] *)
Definition caught (reason : option string) : ValidationResult :=
  invalid (JStr (default "Network error" reason)).

(** [errorData.error?.message || `API request failed: ${response.status}`],
    where [errorData] is [await response.json().catch(() => ({}))]; [None]
    when [errorData.error] throws. *)
Definition requestError (response : HttpResponse) : option jsval :=
  let errorData :=
    match json response with Resolved v => v | Threw _ => JObj [] end in
  apiError ← getProp errorData "error";
  apiMessage ← getPropOpt apiError "message";
  Some (orElse apiMessage
          (JStr ("API request failed: "
                 ++ NumberToString (JsNumber.ofZ (Z.of_nat (status response)))))).

Definition validateGeminiKey (apiKey : string) : Http ValidationResult :=
  if blank apiKey then Return (invalid (JStr "API key is required"))
  else if negb (startsWith apiKey "AIza")
  then Return (invalid (JStr "Invalid Google API key format"))
  else
    Fetch (GeminiTest apiKey) (fun fetched =>
      match fetched with
      | Threw reason => Return (caught reason)
      | Resolved response =>
          if ok response
          then Return {| isValid := true;
                         validationError := None;
                         details := Some {| service := Some "Gemini API";
                                            quota := None;
                                            model := Some "gemini-1.5-flash-latest" |} |}
          else match requestError response with
               | Some reason => Return (invalid reason)
               | None => Return (caught (Some (typeErrorMessage "error")))
               end
      end).

(** [data.queries?.request?.[0]?.totalResults ? Math.min(100, parseInt(...))
    : 100], which throws when [data.queries] or [parseInt] does. *)
Definition quotaOf (payload : jsval) : Awaited number :=
  match (queries ← getProp payload "queries";
         requests ← getPropOpt queries "request";
         getPropOpt (firstOpt requests) "totalResults") with
  | None => Threw (Some (typeErrorMessage "queries"))
  | Some total =>
      if truthy total
      then match parseInt total with
           | Resolved parsed => Resolved (JsNumber.min (JsNumber.ofZ 100) parsed)
           | Threw reason => Threw reason
           end
      else Resolved (JsNumber.ofZ 100)
  end.

Definition validateCustomSearchKey (apiKey searchEngineId : string)
  : Http ValidationResult :=
  if blank apiKey then Return (invalid (JStr "Custom Search API key is required"))
  else if blank searchEngineId
  then Return (invalid (JStr "Search Engine ID is required"))
  else if negb (startsWith apiKey "AIza")
  then Return (invalid (JStr "Invalid Google API key format"))
  else
    Fetch (CustomSearchTest apiKey searchEngineId) (fun fetched =>
      match fetched with
      | Threw reason => Return (caught reason)
      | Resolved response =>
          if ok response
          then match json response with
               | Threw reason => Return (caught reason)
               | Resolved payload =>
                   match quotaOf payload with
                   | Resolved allowance =>
                       Return {| isValid := true;
                                 validationError := None;
                                 details :=
                                   Some {| service := Some "Custom Search API";
                                           quota := Some allowance;
                                           model := None |} |}
                   | Threw reason => Return (caught reason)
                   end
               end
          else if Nat.eqb (status response) 429
          then Return (invalid (JStr "Daily quota exceeded. Try again tomorrow or add another API key."))
          else match requestError response with
               | Some reason => Return (invalid reason)
               | None => Return (caught (Some (typeErrorMessage "error")))
               end
      end).

Record AllKeys : Type := {
  gemini : ValidationResult;
  customSearch : ValidationResult;
  overall : bool
}.

(** [validateAllKeys]: both validators are started, the Gemini one first,
    and neither ever rejects. *)
Definition validateAllKeys (geminiKey customSearchKey searchEngineId : string)
  : Http AllKeys :=
  andThen (validateGeminiKey geminiKey) (fun geminiResult =>
  andThen (validateCustomSearchKey customSearchKey searchEngineId)
          (fun customSearchResult =>
  Return {| gemini := geminiResult;
            customSearch := customSearchResult;
            overall := isValid geminiResult && isValid customSearchResult |})).

End Validators.

End KeyUtils.

(** ** Sample inputs

    Concrete values for the instances and counterexamples below. *)

Module Sample.

Definition item (u : string) : SearchItem :=
  {| title := "Result " ++ u; link := u; snippet := "Snippet " ++ u;
     displayLink := u; formattedUrl := u;
     htmlTitle := "Result " ++ u; htmlSnippet := "Snippet " ++ u;
     cacheId := None; metadata := None |}.

Definition batch (results : list SearchItem) : SearchResponse :=
  {| items := results;
     totalResults := length results;
     hasNextPage := false;
     nextPageStartIndex := None;
     searchInformation := None |}.

Definition context : SearchContext :=
  {| query := "How does climate change affect ocean ecosystems?";
     focusMode := academic;
     language := None;
     region := None |}.




(** An analysis that asks for more search but names no gap. *)
Definition gaplessAnalysis : ResultAnalysis :=
  {| completeness := JsNumber.ofZ 70;
     informationGaps := [];
     gapCategories :=
       {| factual := []; contextual := []; verification := []; depth := [] |};
     followupTopics := [];
     confidenceLevel := JsNumber.ofZ 70;
     needsMoreSearch := true;
     reasoning := "Nothing specific is missing" |}.


(** The reply [{"completeness":"85%"}]: a percentage written as a string. *)
Definition doubleQuote : string := String (ascii_of_nat 34) EmptyString.

Definition percentReply : string :=
  "{" ++ doubleQuote ++ "completeness" ++ doubleQuote ++ ":"
      ++ doubleQuote ++ "85%" ++ doubleQuote ++ "}".

Definition percentPayload : jsval := JObj [("completeness", JStr "85%")].

(** Built-ins that agree with JavaScript on the texts used here: the reply
    above parses to [percentPayload], and no text used here is numeric. *)
Definition builtins : JsBuiltins :=
  {| JSON_parse := fun s =>
       if String.eqb s percentReply then Some percentPayload else None;
     StringToNumber := fun _ => NaN;
     NumberToString := fun _ => "NaN" |}.

(** Prompts reduced to a tag, and the content of a batch taken to be the
    snippets of its items. *)
Definition collaborators : Collaborators :=
  {| buildQueryGenerationPrompt := fun _ _ => "generate queries";
     buildAnalysisPrompt := fun _ _ _ => "analyze";
     buildFollowupQueryPrompt := fun _ _ _ => Some "follow up";
     buildAnswerPrompt := fun _ _ => "answer";
     extractContentForSynthesis := fun response => snippet <$> items response |}.

Definition reply (generatedText : string) : ApiResponse GeminiResponse :=
  succeed {| candidates :=
               [{| content := {| parts := [{| text := generatedText |}] |} |}] |}.

(** The default configuration with iterative search switched on and the
    given ceiling. *)
Definition iterativeConfig (ceiling : nat) : SearchOrchestrationConfig :=
  {| maxSearchResults := maxSearchResults defaultConfig;
     enableQueryGeneration := enableQueryGeneration defaultConfig;
     maxGeneratedQueries := maxGeneratedQueries defaultConfig;
     enableIterativeSearch := true;
     maxSearchIterations := ceiling;
     completenessThreshold := completenessThreshold defaultConfig;
     maxFollowupQueries := maxFollowupQueries defaultConfig |}.

(** An environment whose model answers the analysis prompt with
    [analysisText] and any other prompt with [followupResponse]; each search
    returns the items [found] gives for its query. *)
Definition environmentReplying (analysisText : string)
    (followupResponse : ApiResponse GeminiResponse)
    (found : string -> list SearchItem) : Environment :=
  {| onGenerateContent := fun _ prompt _ =>
       if String.eqb prompt "analyze" then reply analysisText
       else followupResponse;
     onSearch := fun _ _ request =>
       Fulfilled (succeed (batch (found (searchQuery request))));
     onSearchWithFocus := fun _ context _ =>
       Fulfilled (succeed (batch (found (query context)))) |}.

(** The same with an analysis reply that holds no JSON, which the analyzer
    turns into its fallback analysis (completeness 50). *)
Definition environment (followupResponse : ApiResponse GeminiResponse)
    (found : string -> list SearchItem) : Environment :=
  environmentReplying "no json here" followupResponse found.




(** Iterative search with a completeness threshold of 10. *)
Definition lenientConfig : SearchOrchestrationConfig :=
  {| maxSearchResults := maxSearchResults defaultConfig;
     enableQueryGeneration := enableQueryGeneration defaultConfig;
     maxGeneratedQueries := maxGeneratedQueries defaultConfig;
     enableIterativeSearch := true;
     maxSearchIterations := 3;
     completenessThreshold := JsNumber.ofZ 10;
     maxFollowupQueries := maxFollowupQueries defaultConfig |}.

(** An environment in which no search ever returns data. *)
Definition barrenEnvironment : Environment :=
  {| onGenerateContent := fun _ _ _ => reply "1. tides";
     onSearch := fun _ _ _ => Rejected None;
     onSearchWithFocus := fun _ _ _ => Fulfilled (failWith "Quota exceeded" "429") |}.

End Sample.

(* ================================================================== *)
(** * Properties *)
(* ================================================================== *)

(** ** ResultAggregator *)

Section AggregateFacts.

Implicit Types (earlier later : list SearchItem) (seen : gset string).

Lemma dedup_fold_keepFirst later : forall earlier seen acc,
  (forall u, u ∈ seen <-> u ∈ link <$> earlier) ->
  snd (fold_left dedupStep later (seen, acc))
  = acc ++ keepFirstAfter earlier later.
Proof.
  induction later as [|item rest IH]; intros earlier seen acc Hseen; simpl.
  - by rewrite app_nil_r.
  - assert (Hnext : forall u,
              u ∈ ({[ link item ]} ∪ seen : gset string)
              <-> u ∈ link <$> (earlier ++ [item])).
    { intros u. rewrite fmap_app, elem_of_app, elem_of_union, Hseen.
      simpl. rewrite list_elem_of_singleton, elem_of_singleton. tauto. }
    destruct (bool_decide (link item ∈ seen)) eqn:Hin.
    + apply bool_decide_eq_true in Hin.
      rewrite (bool_decide_eq_true_2 (link item ∈ link <$> earlier))
        by (by apply Hseen).
      simpl. apply IH. intros u.
      rewrite <- Hnext, elem_of_union, elem_of_singleton.
      split; [tauto|]. by intros [->|].
    + apply bool_decide_eq_false in Hin.
      rewrite (bool_decide_eq_false_2 (link item ∈ link <$> earlier))
        by (by rewrite <- Hseen).
      rewrite (IH (earlier ++ [item]) _ _ Hnext).
      by rewrite <- app_assoc.
Qed.

Lemma keepFirstAfter_elem later : forall earlier item,
  item ∈ keepFirstAfter earlier later ->
  item ∈ later /\ link item ∉ link <$> earlier.
Proof.
  induction later as [|x rest IH]; intros earlier item; simpl.
  - by intros ?%elem_of_nil.
  - rewrite elem_of_app. intros [Hhd|Htl].
    + case_bool_decide; [by apply elem_of_nil in Hhd|].
      apply list_elem_of_singleton in Hhd as ->. split; [left|done].
    + apply IH in Htl as [Hin Hnot]. split; [by right|].
      intros Hbad. apply Hnot. rewrite fmap_app. apply elem_of_app. by left.
Qed.

Lemma keepFirstAfter_NoDup later : forall earlier,
  NoDup (link <$> keepFirstAfter earlier later).
Proof.
  induction later as [|x rest IH]; intros earlier; simpl; [constructor|].
  rewrite fmap_app. apply NoDup_app. split; [|split].
  - case_bool_decide; simpl; [constructor|].
    apply NoDup_singleton.
  - intros u Hu Hu'. case_bool_decide; simpl in Hu; [by apply elem_of_nil in Hu|].
    apply list_elem_of_singleton in Hu as ->.
    apply list_elem_of_fmap in Hu' as (y & Hy & Hin).
    apply keepFirstAfter_elem in Hin as [_ Hnot]. apply Hnot.
    rewrite fmap_app, <- Hy. apply elem_of_app. right. simpl. left.
  - apply IH.
Qed.

(** A list that is already URL-unique, and whose URLs are all new, is kept
    whole. *)
Lemma keepFirstAfter_unique later : forall earlier,
  NoDup (link <$> later) ->
  (forall item, item ∈ later -> link item ∉ link <$> earlier) ->
  keepFirstAfter earlier later = later.
Proof.
  induction later as [|x rest IH]; intros earlier Hnd Hnew; simpl; [done|].
  apply NoDup_cons in Hnd as [Hx Hnd].
  rewrite bool_decide_eq_false_2 by (apply Hnew; left).
  simpl. f_equal. apply IH; [done|].
  intros item Hitem. rewrite fmap_app, elem_of_app. intros [Hbad|Hbad].
  - by apply (Hnew item); [right|].
  - simpl in Hbad. apply list_elem_of_singleton in Hbad.
    apply Hx. rewrite <- Hbad. apply list_elem_of_fmap. by exists item.
Qed.

Lemma aggregateResults_items config searchResponses :
  items (aggregateResults config searchResponses)
  = take (maxSearchResults config)
      (keepFirstByUrl (flat_map items searchResponses)).
Proof.
  unfold aggregateResults, keepFirstByUrl; simpl.
  rewrite (dedup_fold_keepFirst _ [] ∅ []); [done|].
  intros u. simpl. set_solver.
Qed.

Lemma NoDup_take_links (l : list SearchItem) n :
  NoDup (link <$> l) -> NoDup (link <$> take n l).
Proof.
  intros Hnd. rewrite fmap_take.
  apply (sublist_NoDup _ (link <$> l)); [exact Hnd|apply sublist_take].
Qed.

Lemma aggregateResults_NoDup config searchResponses :
  NoDup (link <$> items (aggregateResults config searchResponses)).
Proof.
  rewrite aggregateResults_items.
  apply NoDup_take_links, keepFirstAfter_NoDup.
Qed.

(** The kept items stand in their original order. *)
Lemma keepFirstAfter_sublist later : forall earlier,
  keepFirstAfter earlier later `sublist_of` later.
Proof.
  induction later as [|x rest IH]; intros earlier; simpl; [done|].
  case_bool_decide; simpl.
  - apply sublist_cons, IH.
  - apply sublist_skip, IH.
Qed.

(** For every URL not seen earlier, the kept item carrying it is the first
    item that carries it. *)
Lemma keepFirstAfter_find later : forall earlier u,
  u ∉ link <$> earlier ->
  find (fun item => String.eqb (link item) u) (keepFirstAfter earlier later)
  = find (fun item => String.eqb (link item) u) later.
Proof.
  induction later as [|x rest IH]; intros earlier u Hnew; simpl; [done|].
  destruct (String.eqb_spec (link x) u) as [Heq|Hneq].
  - rewrite bool_decide_eq_false_2 by (by rewrite Heq).
    simpl. by rewrite (proj2 (String.eqb_eq _ _) Heq).
  - assert (Hnext : u ∉ link <$> (earlier ++ [x])).
    { rewrite fmap_app, elem_of_app. simpl. rewrite list_elem_of_singleton.
      intros [?|?]; [done|]. by apply Hneq. }
    case_bool_decide; simpl.
    + by apply IH.
    + rewrite (proj2 (String.eqb_neq _ _) Hneq). by apply IH.
Qed.

Lemma aggregateResults_length config searchResponses :
  length (items (aggregateResults config searchResponses))
  <= maxSearchResults config.
Proof. rewrite aggregateResults_items, length_take. lia. Qed.

End AggregateFacts.

(** C1. For a non-empty sequence of batches, [aggregateResults] returns the
    flattened items (batch order, then item order), with only the first
    occurrence of each URL kept (in order, and for each URL the first item
    that carries it), cut to [maxSearchResults]; hence no two
    output items share a URL and the output has at most [maxSearchResults]
    items; and two batches with URLs [a, b] and [b, c] aggregate to
    [a, b, c] in that order (the limit being at least 3, as the default 10
    is). *)
Theorem aggregateResults_flatten_dedup_truncate
    (config : SearchOrchestrationConfig) (batches : list SearchResponse)
    (Hnonempty : batches <> []) :
  let allItems := flat_map items batches in
  let out := items (aggregateResults config batches) in
  out = take (maxSearchResults config) (keepFirstByUrl allItems)
  /\ keepFirstByUrl allItems `sublist_of` allItems
  /\ (forall u, find (fun item => String.eqb (link item) u) (keepFirstByUrl allItems)
                = find (fun item => String.eqb (link item) u) allItems)
  /\ NoDup (link <$> out)
  /\ length out <= maxSearchResults config
  /\ (forall (first second : SearchResponse) (a b b' c : SearchItem),
        items first = [a; b] -> items second = [b'; c] ->
        link a = "a" -> link b = "b" -> link b' = "b" -> link c = "c" ->
        3 <= maxSearchResults config ->
        items (aggregateResults config [first; second]) = [a; b; c]).
Proof.
  cbv zeta. split; [apply aggregateResults_items|].
  split; [apply keepFirstAfter_sublist|].
  split; [intros u; apply keepFirstAfter_find, not_elem_of_nil|].
  split; [apply aggregateResults_NoDup|].
  split; [apply aggregateResults_length|].
  intros first second a b b' c Hfirst Hsecond Ha Hb Hb' Hc Hmax.
  rewrite aggregateResults_items. simpl. rewrite Hfirst, Hsecond. simpl.
  unfold keepFirstByUrl. simpl. rewrite Ha, Hb, Hb', Hc.
  rewrite (bool_decide_eq_false_2 ("b" ∈ ["a"])) by (by intros ?%list_elem_of_singleton).
  rewrite (bool_decide_eq_true_2 ("b" ∈ ["a"; "b"])) by (right; left).
  rewrite (bool_decide_eq_false_2 ("c" ∈ ["a"; "b"; "b"])).
  2:{ rewrite !elem_of_cons. intros [?|[?|[?|?%elem_of_nil]]]; done. }
  simpl. apply take_ge. simpl. lia.
Qed.

Lemma aggregateResults_flatten_dedup_truncate_witness :
  [Sample.batch [Sample.item "a"; Sample.item "b"];
   Sample.batch [Sample.item "b"; Sample.item "c"]] <> []
  /\ items (aggregateResults defaultConfig
              [Sample.batch [Sample.item "a"; Sample.item "b"];
               Sample.batch [Sample.item "b"; Sample.item "c"]])
     = [Sample.item "a"; Sample.item "b"; Sample.item "c"].
Proof.
  assert (Hne : [Sample.batch [Sample.item "a"; Sample.item "b"];
                 Sample.batch [Sample.item "b"; Sample.item "c"]] <> [])
    by discriminate.
  split; [exact Hne|].
  destruct (aggregateResults_flatten_dedup_truncate defaultConfig _ Hne)
    as (_ & _ & _ & _ & _ & Hexample).
  apply (Hexample _ _ _ _ (Sample.item "b") _); try reflexivity.
  simpl. lia.
Defined.

(** C2. Aggregation is idempotent: aggregating the single batch made of an
    aggregate yields the same item sequence as that aggregate. *)
Theorem aggregateResults_idempotent
    (config : SearchOrchestrationConfig) (batches : list SearchResponse) :
  items (aggregateResults config [aggregateResults config batches])
  = items (aggregateResults config batches).
Proof.
  rewrite (aggregateResults_items config [_]). simpl. rewrite app_nil_r.
  unfold keepFirstByUrl. rewrite keepFirstAfter_unique.
  - apply take_ge, aggregateResults_length.
  - apply aggregateResults_NoDup.
  - intros item _. simpl. apply not_elem_of_nil.
Qed.

(** C10. On the empty sequence of batches [aggregateResults] returns a
    response with no items, [totalResults] 0 and [hasNextPage] false; the
    missing first batch contributes nothing and raises nothing. *)
Theorem aggregateResults_no_batches (config : SearchOrchestrationConfig) :
  aggregateResults config []
  = {| items := [];
       totalResults := 0;
       hasNextPage := false;
       nextPageStartIndex := None;
       searchInformation := None |}.
Proof.
  unfold aggregateResults. simpl. by rewrite take_nil.
Qed.

(** ** QueryGenerator *)

Section ReplyParsingFacts.
Import ReplyParsing.

Lemma take_nonempty {A : Type} (n : nat) (l : list A) :
  1 <= n -> l <> [] -> take n l <> [].
Proof. destruct n, l; simpl; intros; (lia || done). Qed.

Lemma length_zero_nil {A : Type} (l : list A) :
  Nat.eqb (length l) 0 = true -> l = [].
Proof. by destruct l. Qed.

Lemma length_nonzero_cons {A : Type} (l : list A) :
  Nat.eqb (length l) 0 = false -> l <> [].
Proof. by destruct l. Qed.

Lemma nonempty_length_nonzero {A : Type} (l : list A) :
  l <> [] -> Nat.eqb (length l) 0 = false.
Proof. by destruct l. Qed.

(** The three stages of [parseGeneratedQueries], one equation each. *)
Lemma parseGeneratedQueries_numbered config generatedText originalQuery :
  omap (numberedQuery originalQuery) (replyLines generatedText) <> [] ->
  parseGeneratedQueries config generatedText originalQuery
  = take (maxGeneratedQueries config)
      (omap (numberedQuery originalQuery) (replyLines generatedText)).
Proof.
  intros Hsome. unfold parseGeneratedQueries. cbv zeta.
  destruct (omap _ _) as [|q qs] eqn:Hq; [done|]. reflexivity.
Qed.

Lemma parseGeneratedQueries_fallback config generatedText originalQuery :
  omap (numberedQuery originalQuery) (replyLines generatedText) = [] ->
  filter (fun line => meaningfulLine originalQuery line = true)
         (replyLines generatedText) <> [] ->
  parseGeneratedQueries config generatedText originalQuery
  = take (maxGeneratedQueries config)
      (filter (fun line => meaningfulLine originalQuery line = true)
              (replyLines generatedText)).
Proof.
  intros Hnone Hsome. unfold parseGeneratedQueries. cbv zeta.
  rewrite Hnone. simpl.
  destruct (maxGeneratedQueries config) as [|n].
  - reflexivity.
  - destruct (filter _ _) as [|l ls] eqn:Hf; [done|]. simpl.
    by rewrite take_take, Nat.min_id.
Qed.

Lemma parseGeneratedQueries_original config generatedText originalQuery :
  omap (numberedQuery originalQuery) (replyLines generatedText) = [] ->
  filter (fun line => meaningfulLine originalQuery line = true)
         (replyLines generatedText) = [] ->
  parseGeneratedQueries config generatedText originalQuery
  = take (maxGeneratedQueries config) [originalQuery].
Proof.
  intros Hnone Hnothing. unfold parseGeneratedQueries. cbv zeta.
  rewrite Hnone, Hnothing. simpl. by rewrite take_nil.
Qed.

End ReplyParsingFacts.

(** C6. With [maxGeneratedQueries >= 1], [parseGeneratedQueries] returns at
    least one and at most [maxGeneratedQueries] queries for every reply text
    and original query, and returns the original query alone when neither
    the numbered lines nor the fallback yield anything. *)
Theorem parseGeneratedQueries_never_empty
    (config : SearchOrchestrationConfig) (generatedText originalQuery : string)
    (Hmax : 1 <= maxGeneratedQueries config) :
  let queries :=
    ReplyParsing.parseGeneratedQueries config generatedText originalQuery in
  1 <= length queries
  /\ length queries <= maxGeneratedQueries config
  /\ (omap (ReplyParsing.numberedQuery originalQuery)
           (ReplyParsing.replyLines generatedText) = [] ->
      filter (fun line => ReplyParsing.meaningfulLine originalQuery line = true)
             (ReplyParsing.replyLines generatedText) = [] ->
      queries = [originalQuery]).
Proof.
  cbv zeta.
  assert (Hpos : forall l : list string, l <> [] ->
            1 <= length (take (maxGeneratedQueries config) l)
            /\ length (take (maxGeneratedQueries config) l)
               <= maxGeneratedQueries config).
  { intros l Hl. rewrite length_take. destruct l; [done|]. simpl. lia. }
  destruct (omap (ReplyParsing.numberedQuery originalQuery)
                 (ReplyParsing.replyLines generatedText)) as [|q qs] eqn:Hnum.
  - destruct (filter (fun line => ReplyParsing.meaningfulLine originalQuery line = true)
                     (ReplyParsing.replyLines generatedText)) as [|l ls] eqn:Hfb.
    + rewrite parseGeneratedQueries_original by done.
      destruct (Hpos [originalQuery]) as [H1 H2]; [done|].
      repeat split; [exact H1|exact H2|].
      intros _ _. destruct (maxGeneratedQueries config); [lia|].
      simpl. by rewrite take_nil.
    + rewrite parseGeneratedQueries_fallback by (by rewrite ?Hfb).
      rewrite Hfb. destruct (Hpos (l :: ls)) as [H1 H2]; [done|].
      repeat split; [exact H1|exact H2|]. by intros _ ?.
  - rewrite parseGeneratedQueries_numbered by (by rewrite Hnum).
    rewrite Hnum. destruct (Hpos (q :: qs)) as [H1 H2]; [done|].
    repeat split; [exact H1|exact H2|]. by intros ?.
Qed.

Lemma parseGeneratedQueries_never_empty_witness :
  1 <= maxGeneratedQueries defaultConfig
  /\ 1 <= length (ReplyParsing.parseGeneratedQueries defaultConfig
                    EmptyString "climate change")
  /\ ReplyParsing.parseGeneratedQueries defaultConfig EmptyString "climate change"
     = ["climate change"].
Proof.
  assert (Hmax : 1 <= maxGeneratedQueries defaultConfig) by (simpl; lia).
  destruct (parseGeneratedQueries_never_empty defaultConfig EmptyString
              "climate change" Hmax) as (Hlow & _ & Honly).
  split; [exact Hmax|]. split; [exact Hlow|].
  apply Honly; reflexivity.
Defined.

Lemma omap_none_nil {A B : Type} (f : A -> option B) (l : list A) :
  (forall x, x ∈ l -> f x = None) -> omap f l = [].
Proof.
  induction l as [|x l IH]; intros Hall; simpl; [done|].
  rewrite (Hall x) by left. apply IH. intros y Hy. apply Hall. by right.
Qed.

Lemma numberedQuery_unmatched originalQuery line :
  ReplyParsing.matchNumbered line = None ->
  ReplyParsing.numberedQuery originalQuery line = None.
Proof. unfold ReplyParsing.numberedQuery. by intros ->. Qed.

Lemma meaningfulLine_needs_six originalQuery line :
  String.length line <= 5 -> ReplyParsing.meaningfulLine originalQuery line = false.
Proof.
  intros Hshort. unfold ReplyParsing.meaningfulLine.
  destruct (Nat.ltb_spec 5 (String.length line)); [lia|reflexivity].
Qed.

(** C9, as the code has it. When no line of the reply matches the numbered
    pattern, every non-blank line of more than 5 characters (6 or more) whose
    lower-cased text contains none of "here are", "search queries" and
    "cannot generate", and which is not the original query, is accepted by
    the fallback, and the result is the first [maxGeneratedQueries] accepted
    lines; a line of 5 characters or fewer is never accepted. *)
Theorem fallback_accepts_lines_over_five
    (config : SearchOrchestrationConfig)
    (generatedText originalQuery line : string)
    (Hunnumbered : forall l, l ∈ JsString.split JsString.LF generatedText ->
                     ReplyParsing.matchNumbered l = None)
    (Hline : line ∈ JsString.split JsString.LF generatedText)
    (Hnonblank : JsString.isEmpty (JsString.trim line) = false)
    (Hlong : 5 < String.length line)
    (Hmeta1 : JsString.includes (JsString.toLowerCase line) "here are" = false)
    (Hmeta2 : JsString.includes (JsString.toLowerCase line) "search queries" = false)
    (Hmeta3 : JsString.includes (JsString.toLowerCase line) "cannot generate" = false)
    (Hother : line <> originalQuery) :
  let accepted :=
    filter (fun l => ReplyParsing.meaningfulLine originalQuery l = true)
           (ReplyParsing.replyLines generatedText) in
  line ∈ accepted
  /\ ReplyParsing.parseGeneratedQueries config generatedText originalQuery
     = take (maxGeneratedQueries config) accepted
  /\ (forall short, String.length short <= 5 -> short ∉ accepted).
Proof.
  cbv zeta.
  assert (Hin : line ∈ filter
                  (fun l => ReplyParsing.meaningfulLine originalQuery l = true)
                  (ReplyParsing.replyLines generatedText)).
  { apply list_elem_of_filter. split.
    - unfold ReplyParsing.meaningfulLine.
      rewrite Hmeta1, Hmeta2, Hmeta3. simpl.
      rewrite (proj2 (Nat.ltb_lt _ _) Hlong). simpl.
      apply negb_true_iff, String.eqb_neq. exact Hother.
    - unfold ReplyParsing.replyLines. apply list_elem_of_filter.
      split; [by rewrite Hnonblank|exact Hline]. }
  split; [exact Hin|]. split.
  - apply parseGeneratedQueries_fallback.
    + apply omap_none_nil. intros l Hl. apply numberedQuery_unmatched, Hunnumbered.
      unfold ReplyParsing.replyLines in Hl.
      by apply list_elem_of_filter in Hl as [_ ?].
    + intros Hnil. rewrite Hnil in Hin. by apply elem_of_nil in Hin.
  - intros short Hshort [Hok _]%list_elem_of_filter.
    by rewrite meaningfulLine_needs_six in Hok.
Qed.

Lemma fallback_accepts_lines_over_five_witness :
  "oceans" ∈ filter (fun l => ReplyParsing.meaningfulLine "tides" l = true)
                    (ReplyParsing.replyLines "oceans")
  /\ ReplyParsing.parseGeneratedQueries defaultConfig "oceans" "tides" = ["oceans"].
Proof.
  assert (Hall : forall l, l ∈ JsString.split JsString.LF "oceans" ->
                   ReplyParsing.matchNumbered l = None).
  { intros l Hl. vm_compute in Hl. apply list_elem_of_singleton in Hl as ->.
    reflexivity. }
  assert (Hline : "oceans" ∈ JsString.split JsString.LF "oceans")
    by (vm_compute; left).
  assert (Hlong : 5 < String.length "oceans") by (simpl; lia).
  destruct (fallback_accepts_lines_over_five defaultConfig "oceans" "tides"
              "oceans" Hall Hline eq_refl Hlong eq_refl eq_refl eq_refl
              ltac:(discriminate)) as (Hin & Heq & _).
  split; [exact Hin|]. rewrite Heq. reflexivity.
Defined.

(** C9 as stated fails on a line of exactly 5 characters: the reply "hello"
    has no numbered line, and its only line is non-blank, free of the three
    meta phrases and different from the original query, yet the fallback
    rejects it and the original query is returned instead. It fails on a
    blank line too: a reply of six spaces is dropped before the fallback
    looks at it. *)
Lemma fallback_rejects_five_characters :
  (JsString.split JsString.LF "hello" = ["hello"]
   /\ ReplyParsing.matchNumbered "hello" = None
   /\ String.length "hello" = 5
   /\ JsString.includes (JsString.toLowerCase "hello") "here are" = false
   /\ JsString.includes (JsString.toLowerCase "hello") "search queries" = false
   /\ JsString.includes (JsString.toLowerCase "hello") "cannot generate" = false
   /\ "hello" <> "ocean warming"
   /\ ReplyParsing.parseGeneratedQueries defaultConfig "hello" "ocean warming"
      = ["ocean warming"])
  /\ (JsString.split JsString.LF "      " = ["      "]
      /\ ReplyParsing.matchNumbered "      " = None
      /\ String.length "      " = 6
      /\ ReplyParsing.meaningfulLine "ocean warming" "      " = true
      /\ ReplyParsing.parseGeneratedQueries defaultConfig "      " "ocean warming"
         = ["ocean warming"]).
Proof. repeat split; try reflexivity. discriminate. Qed.

(** ** FollowupQueryGenerator: the priority heuristic *)

Section PriorityFacts.
Import Priority.
Local Open Scope Z_scope.

Lemma calculateQueryPriority_scoreOf query analysis :
  calculateQueryPriority query analysis
  = match componentsOf query analysis with
    | Some c =>
        Some (scoreOf (addresses (factual (gapCategories analysis))
                                 factualKeywords (JsString.toLowerCase query)) c)
    | None => None
    end.
Proof.
  unfold calculateQueryPriority, componentsOf, scoreOf. cbv zeta.
  destruct (countMatches _ (followupTopics analysis)) as [topics|]; simpl.
  2:{ repeat (destruct (addresses _ _ _); simpl); reflexivity. }
  destruct (countMatches _ (informationGaps analysis)) as [gaps|]; simpl.
  2:{ repeat (destruct (addresses _ _ _); simpl); reflexivity. }
  repeat (destruct (addresses _ _ _); simpl);
    destruct (lengthBonus query); destruct (wordBonus _); simpl;
    f_equal; lia.
Qed.


Lemma insertByPriority_elem c sorted x :
  x ∈ insertByPriority c sorted <-> x = c \/ x ∈ sorted.
Proof.
  induction sorted as [|d rest IH]; simpl.
  - rewrite list_elem_of_singleton, elem_of_nil. tauto.
  - destruct (priority c <? priority d); rewrite !elem_of_cons, ?IH; tauto.
Qed.

Lemma insertByPriority_sorted c sorted :
  StronglySorted byPriority sorted ->
  StronglySorted byPriority (insertByPriority c sorted).
Proof.
  induction 1 as [|d rest Hsorted IH Hd]; simpl.
  - repeat constructor.
  - destruct (Z.ltb_spec (priority c) (priority d)).
    + constructor; [exact IH|].
      apply Forall_forall. intros x [->|Hx]%insertByPriority_elem.
      * unfold byPriority. lia.
      * by eapply Forall_forall in Hd.
    + constructor; [by constructor|].
      constructor; [unfold byPriority; lia|].
      eapply Forall_impl; [exact Hd|]. unfold byPriority. intros; lia.
Qed.

Lemma sortByPriority_sorted queries :
  StronglySorted byPriority (sortByPriority queries).
Proof.
  induction queries as [|c rest IH]; simpl; [constructor|].
  by apply insertByPriority_sorted.
Qed.

Lemma insertByPriority_Permutation c sorted :
  insertByPriority c sorted ≡ₚ c :: sorted.
Proof.
  induction sorted as [|d rest IH]; simpl; [done|].
  destruct (priority c <? priority d); [|done].
  rewrite IH. apply Permutation_swap.
Qed.

(** The sort only reorders the candidates. *)
Lemma sortByPriority_Permutation queries : sortByPriority queries ≡ₚ queries.
Proof.
  induction queries as [|c rest IH]; simpl; [done|].
  by rewrite insertByPriority_Permutation, IH.
Qed.








(** Entries of the analysis that are all strings never make scoring fail. *)
Lemma countMatches_strings queryLower entries :
  Forall (fun entry => exists s, entry = JStr s) entries ->
  is_Some (countMatches queryLower entries).
Proof.
  induction 1 as [|entry rest [s ->] _ IH]; simpl; [by eexists|].
  destruct IH as [n ->]. by eexists.
Qed.

Lemma componentsOf_strings query analysis :
  Forall (fun entry => exists s, entry = JStr s) (followupTopics analysis) ->
  Forall (fun entry => exists s, entry = JStr s) (informationGaps analysis) ->
  is_Some (componentsOf query analysis).
Proof.
  intros Htopics Hgaps. unfold componentsOf. cbv zeta.
  destruct (countMatches_strings (JsString.toLowerCase query) _ Htopics) as [t ->].
  destruct (countMatches_strings (JsString.toLowerCase query) _ Hgaps) as [g ->].
  by eexists.
Qed.

End PriorityFacts.




(** ** FollowupQueryGenerator: the stop signal *)

(** C7. When [needsMoreSearch] is false, and likewise when
    [informationGaps] is empty, [generateFollowupQueries] is the program
    that returns a successful empty sequence at once: it holds no call to a
    service, and run in any environment it leaves the history of calls as it
    found it. *)
Theorem generateFollowupQueries_short_circuit `{Collaborators}
    (config : SearchOrchestrationConfig) (context : SearchContext)
    (analysis : ResultAnalysis)
    (Hstop : needsMoreSearch analysis = false \/ informationGaps analysis = []) :
  Orchestrator.generateFollowupQueries config context analysis
  = Ret (succeed [])
  /\ forall (env : Environment) (history : list Event),
       run env history
           (Orchestrator.generateFollowupQueries config context analysis)
       = (succeed [], history).
Proof.
  assert (Hprog : Orchestrator.generateFollowupQueries config context analysis
                  = Ret (succeed [])).
  { unfold Orchestrator.generateFollowupQueries.
    destruct Hstop as [-> | ->]; [reflexivity|].
    simpl. by rewrite orb_true_r. }
  split; [exact Hprog|]. intros env history. by rewrite Hprog.
Qed.

Lemma generateFollowupQueries_short_circuit_witness :
  (needsMoreSearch Sample.gaplessAnalysis = false
   \/ informationGaps Sample.gaplessAnalysis = [])
  /\ @Orchestrator.generateFollowupQueries Sample.collaborators
       defaultConfig Sample.context Sample.gaplessAnalysis
     = Ret (succeed [])
  /\ run (Sample.environment (Sample.reply "1. unused") (fun q => [Sample.item q]))
         []
         (@Orchestrator.generateFollowupQueries Sample.collaborators
            defaultConfig Sample.context Sample.gaplessAnalysis)
     = (succeed [], []).
Proof.
  assert (Hstop : needsMoreSearch Sample.gaplessAnalysis = false
                  \/ informationGaps Sample.gaplessAnalysis = [])
    by (right; reflexivity).
  destruct (@generateFollowupQueries_short_circuit Sample.collaborators
              defaultConfig Sample.context Sample.gaplessAnalysis Hstop)
    as [Hprogram Hrun].
  split; [exact Hstop|]. split; [exact Hprogram|]. apply Hrun.
Defined.

(** ** CompletenessAnalyzer: the validated payload *)

Section AnalysisFacts.
Context `{JsBuiltins}.
Import Analysis JsValue.




(** Every sequence field of a validated payload is the payload's array, or
    empty when the payload holds no array there. *)
Lemma validateAnalysis_arrays (analysisData : jsval) (analysis : ResultAnalysis) :
  validateAnalysis analysisData = Some analysis ->
  exists gaps categories topics,
    getProp analysisData "informationGaps" = Some gaps
    /\ getProp analysisData "gapCategories" = Some categories
    /\ getProp analysisData "followupTopics" = Some topics
    /\ informationGaps analysis = arrayOrEmpty gaps
    /\ followupTopics analysis = arrayOrEmpty topics
    /\ (isArray gaps = false -> informationGaps analysis = [])
    /\ (isArray topics = false -> followupTopics analysis = []).
Proof.
  unfold validateAnalysis. intros Hv.
  repeat match type of Hv with
         | (?m ≫= _) = Some _ =>
             let E := fresh "E" in destruct m eqn:E; simpl in Hv; [|done]
         end.
  injection Hv as <-. simpl.
  do 3 eexists. repeat split; try reflexivity;
    intros Hnot; match goal with |- arrayOrEmpty ?v = [] => by destruct v end.
Qed.

End AnalysisFacts.


(** ** Running programs *)

Section RunFacts.
Context {A B : Type}.
Implicit Types (env : Environment) (history : list Event).

Lemma run_history env (m : Prog A) : forall history,
  exists added, snd (run env history m) = history ++ added.
Proof.
  induction m as [a|prompt options k IH|requests k IH|context count k IH];
    intros history; simpl.
  - exists []. by rewrite app_nil_r.
  - destruct (IH (onGenerateContent env history prompt options)
                 (history ++ [Generated prompt options
                                (onGenerateContent env history prompt options)]))
      as [added Hadded].
    eexists. rewrite Hadded, <- app_assoc. reflexivity.
  - destruct (IH (imap (onSearch env history) requests)
                 (history ++ [SearchedAll requests
                                (imap (onSearch env history) requests)]))
      as [added Hadded].
    eexists. rewrite Hadded, <- app_assoc. reflexivity.
  - destruct (IH (onSearchWithFocus env history context count)
                 (history ++ [SearchedWithFocus context count
                                (onSearchWithFocus env history context count)]))
      as [added Hadded].
    eexists. rewrite Hadded, <- app_assoc. reflexivity.
Qed.

Lemma run_newEvents env history (m : Prog A) :
  snd (run env history m) = history ++ newEvents env history m.
Proof.
  unfold newEvents. destruct (run_history env m history) as [added ->].
  by rewrite drop_app_length.
Qed.

Lemma run_bind env (m : Prog A) (f : A -> Prog B) : forall history,
  run env history (m ≫= f)
  = run env (snd (run env history m)) (f (fst (run env history m))).
Proof.
  unfold mbind, Prog_bind.
  induction m as [a|prompt options k IH|requests k IH|context count k IH];
    intros history; simpl; [reflexivity| | |]; apply IH.
Qed.

End RunFacts.

Lemma newEvents_bind {A B : Type} env history (m : Prog A) (f : A -> Prog B) :
  newEvents env history (m ≫= f)
  = newEvents env history m
    ++ newEvents env (snd (run env history m)) (f (fst (run env history m))).
Proof.
  unfold newEvents at 1. rewrite run_bind, run_newEvents.
  rewrite (run_newEvents env history m) at 1.
  by rewrite <- app_assoc, drop_app_length.
Qed.

Lemma newEvents_ret {A : Type} env history (a : A) :
  newEvents env history (mret a) = [].
Proof. unfold newEvents. simpl. apply drop_all. Qed.

Lemma searchRounds_app (l k : list Event) :
  searchRounds (l ++ k) = searchRounds l + searchRounds k.
Proof. unfold searchRounds. by rewrite filter_app, length_app. Qed.

Lemma generationCalls_app (l k : list Event) :
  generationCalls (l ++ k) = generationCalls l + generationCalls k.
Proof. unfold generationCalls. by rewrite filter_app, length_app. Qed.

(** ** The calls each operation makes *)

Section CallFacts.
Context `{JsBuiltins} `{Collaborators}.
Variable config : SearchOrchestrationConfig.
Implicit Types (env : Environment) (history : list Event).

Lemma newEvents_generateContent env history prompt options :
  newEvents env history (generateContent prompt options)
  = [Generated prompt options (onGenerateContent env history prompt options)].
Proof. unfold newEvents. simpl. by rewrite drop_app_length. Qed.

Lemma newEvents_searchAllSettled env history requests :
  newEvents env history (searchAllSettled requests)
  = [SearchedAll requests (imap (onSearch env history) requests)].
Proof. unfold newEvents. simpl. by rewrite drop_app_length. Qed.

Lemma fst_run_generateContent env history prompt options :
  fst (run env history (generateContent prompt options))
  = onGenerateContent env history prompt options.
Proof. reflexivity. Qed.

Lemma fst_run_searchAllSettled env history requests :
  fst (run env history (searchAllSettled requests))
  = imap (onSearch env history) requests.
Proof. reflexivity. Qed.

(** The analyzer makes at most one generation call and no search. *)
Lemma analyzeSearchResults_calls env history context searchResults :
  searchRounds (newEvents env history
                  (Orchestrator.analyzeSearchResults config context searchResults)) = 0
  /\ generationCalls (newEvents env history
                        (Orchestrator.analyzeSearchResults config context searchResults)) <= 1.
Proof.
  unfold Orchestrator.analyzeSearchResults.
  destruct (Nat.eqb (length searchResults) 0);
    [rewrite ?newEvents_ret; cbv; lia|].
  destruct (Nat.eqb (length (flat_map extractContentForSynthesis searchResults)) 0);
    [rewrite ?newEvents_ret; cbv; lia|].
  rewrite newEvents_bind, newEvents_generateContent.
  destruct (usable _); [destruct (generatedTextOf _)|];
    rewrite ?newEvents_ret; cbv; lia.
Qed.

(** When there is content to analyze and the model replies with a text,
    the analyzer succeeds with that text as [parseAnalysisResponse] reads
    it. *)
Lemma analyzeSearchResults_parsed env history context searchResults body generatedText :
  searchResults <> [] ->
  flat_map extractContentForSynthesis searchResults <> [] ->
  usable (onGenerateContent env history
            (buildAnalysisPrompt config context
               (flat_map extractContentForSynthesis searchResults))
            {| temperature := 2 # 10; maxOutputTokens := 1024 |})
  = Some body ->
  generatedTextOf body = Some generatedText ->
  fst (run env history
         (Orchestrator.analyzeSearchResults config context searchResults))
  = succeed (Analysis.parseAnalysisResponse generatedText context).
Proof.
  intros Hresults Hcontent Hbody Htext.
  unfold Orchestrator.analyzeSearchResults.
  rewrite (nonempty_length_nonzero _ Hresults), (nonempty_length_nonzero _ Hcontent).
  rewrite run_bind, fst_run_generateContent, Hbody, Htext. reflexivity.
Qed.

(** The follow-up generator makes at most one generation call and no
    search. *)
Lemma generateFollowupQueries_calls env history context analysis :
  searchRounds (newEvents env history
                  (Orchestrator.generateFollowupQueries config context analysis)) = 0
  /\ generationCalls (newEvents env history
                        (Orchestrator.generateFollowupQueries config context analysis)) <= 1.
Proof.
  unfold Orchestrator.generateFollowupQueries.
  destruct (_ || _); [rewrite ?newEvents_ret; cbv; lia|].
  destruct (buildFollowupQueryPrompt _ _ _); [|rewrite ?newEvents_ret; cbv; lia].
  rewrite newEvents_bind, newEvents_generateContent.
  destruct (usable _);
    [destruct (generatedTextOf _);
       [destruct (Priority.parseAndPrioritizeFollowupQueries _ _ _ _)|]|];
    rewrite ?newEvents_ret; cbv; lia.
Qed.

(** One fan-out is one search round and nothing else. *)
Lemma searchMultipleQueries_calls env history queries context :
  exists requests outcomes,
    newEvents env history (Orchestrator.searchMultipleQueries config queries context)
    = [SearchedAll requests outcomes].
Proof.
  unfold Orchestrator.searchMultipleQueries.
  rewrite newEvents_bind, newEvents_searchAllSettled, newEvents_ret.
  do 2 eexists. reflexivity.
Qed.

End CallFacts.

(** C5 at the reply [{"completeness":"85%"}]. Wherever [JSON.parse] reads
    that text as the object it denotes and the string "85%" converts to NaN,
    as both do in JavaScript, [parseAnalysisResponse] returns an analysis
    whose completeness is NaN, outside [[0,100]]; and [analyzeSearchResults]
    returns that analysis with success whenever there is content to analyze
    and the model replies with that text. *)
Theorem parseAnalysisResponse_percent_string_is_NaN
    `{JsBuiltins} (context : SearchContext)
    (Hparse : JSON_parse Sample.percentReply = Some Sample.percentPayload)
    (Hconvert : StringToNumber "85%" = NaN) :
  completeness (Analysis.parseAnalysisResponse Sample.percentReply context) = NaN
  /\ ~ JsNumber.inPercentRange
         (completeness (Analysis.parseAnalysisResponse Sample.percentReply context))
  /\ forall `{Collaborators} (config : SearchOrchestrationConfig)
            (env : Environment) (history : list Event)
            (searchResults : list SearchResponse) (body : GeminiResponse),
       searchResults <> [] ->
       flat_map extractContentForSynthesis searchResults <> [] ->
       usable (onGenerateContent env history
                 (buildAnalysisPrompt config context
                    (flat_map extractContentForSynthesis searchResults))
                 {| temperature := 2 # 10; maxOutputTokens := 1024 |})
       = Some body ->
       generatedTextOf body = Some Sample.percentReply ->
       exists analysis,
         fst (run env history
                (Orchestrator.analyzeSearchResults config context searchResults))
         = succeed analysis
         /\ completeness analysis = NaN.
Proof.
  assert (Hvalue : completeness
                     (Analysis.parseAnalysisResponse Sample.percentReply context)
                   = NaN).
  { unfold Analysis.parseAnalysisResponse.
    replace (Analysis.jsonMatch Sample.percentReply)
      with (Some Sample.percentReply) by reflexivity.
    rewrite Hparse. unfold Analysis.validateAnalysis, Sample.percentPayload.
    cbn [JsValue.getProp JsValue.lookupProp String.eqb Ascii.eqb Bool.eqb
         mbind option_bind].
    assert (Hclamp : Analysis.clampPercent (JStr "85%") = Some NaN).
    { unfold Analysis.clampPercent. simpl. by rewrite Hconvert. }
    rewrite Hclamp. reflexivity. }
  split; [exact Hvalue|]. split; [rewrite Hvalue; simpl; tauto|].
  intros collaborators config env history searchResults body
         Hresults Hcontent Hbody Htext.
  eexists. split; [|exact Hvalue].
  by eapply analyzeSearchResults_parsed.
Qed.

Lemma parseAnalysisResponse_percent_string_is_NaN_witness :
  @JSON_parse Sample.builtins Sample.percentReply = Some Sample.percentPayload
  /\ @StringToNumber Sample.builtins "85%" = NaN
  /\ completeness (@Analysis.parseAnalysisResponse Sample.builtins
                     Sample.percentReply Sample.context) = NaN
  /\ exists analysis,
       fst (run (Sample.environmentReplying Sample.percentReply
                   (Sample.reply "1. unused") (fun q => [Sample.item q]))
                []
                (@Orchestrator.analyzeSearchResults Sample.builtins
                   Sample.collaborators defaultConfig Sample.context
                   [Sample.batch [Sample.item "a"]]))
       = succeed analysis
       /\ completeness analysis = NaN.
Proof.
  destruct (@parseAnalysisResponse_percent_string_is_NaN Sample.builtins
              Sample.context eq_refl eq_refl) as (Hvalue & _ & Hanalyze).
  split; [reflexivity|]. split; [reflexivity|]. split; [exact Hvalue|].
  eapply (Hanalyze Sample.collaborators defaultConfig); try reflexivity;
    discriminate.
Defined.


(** ** IterationController *)

Section LoopFacts.
Context `{JsBuiltins} `{Collaborators}.
Variable config : SearchOrchestrationConfig.
Variable context : SearchContext.
Implicit Types (env : Environment) (history : list Event) (st : LoopState).

(** One turn of the loop: at most one search round and two generation
    calls; the counter moves by one exactly when the turn does not break. *)
Lemma iteration_step env history st :
  searchRounds (newEvents env history (Orchestrator.iteration config context st)) <= 1
  /\ generationCalls (newEvents env history (Orchestrator.iteration config context st)) <= 2
  /\ currentIteration (snd (fst (run env history (Orchestrator.iteration config context st))))
     = match fst (fst (run env history (Orchestrator.iteration config context st))) with
       | Continue => currentIteration st + 1
       | Break => currentIteration st
       end.
Proof.
  unfold Orchestrator.iteration.
  rewrite newEvents_bind, run_bind.
  destruct (analyzeSearchResults_calls config env history context (allSearchResults st))
    as [Hrounds1 Hcalls1].
  set (analysisResponse := fst (run env history _)) in *.
  set (history1 := snd (run env history _)) in *.
  set (events1 := newEvents env history _) in *.
  destruct (usable analysisResponse) as [analysis|];
    [|rewrite newEvents_ret, app_nil_r; simpl; lia].
  destruct (negb (needsMoreSearch analysis) || _);
    [rewrite newEvents_ret, app_nil_r; simpl; lia|].
  destruct (Nat.eqb (length (informationGaps analysis)) 0);
    [rewrite newEvents_ret, app_nil_r; simpl; lia|].
  rewrite newEvents_bind, run_bind.
  destruct (generateFollowupQueries_calls config env history1 context analysis)
    as [Hrounds2 Hcalls2].
  set (followupResponse := fst (run env history1 _)) in *.
  set (history2 := snd (run env history1 _)) in *.
  set (events2 := newEvents env history1 _) in *.
  rewrite !searchRounds_app, !generationCalls_app.
  destruct (usable followupResponse) as [followupQueries|];
    [|rewrite newEvents_ret; simpl; cbv [searchRounds generationCalls] in *; simpl; lia].
  destruct (Nat.eqb (length followupQueries) 0);
    [rewrite newEvents_ret; simpl; cbv [searchRounds generationCalls] in *; simpl; lia|].
  rewrite newEvents_bind, run_bind.
  destruct (searchMultipleQueries_calls config env history2 followupQueries context)
    as (requests & outcomes & Hsearch).
  rewrite Hsearch.
  set (followupSearchResponses := fst (run env history2 _)) in *.
  set (history3 := snd (run env history2 _)) in *.
  rewrite !searchRounds_app, !generationCalls_app.
  destruct (Nat.eqb (length (Orchestrator.successfulData followupSearchResponses)) 0);
    [rewrite newEvents_ret; simpl; cbv [searchRounds generationCalls] in *; simpl; lia|].
  destruct (Orchestrator.diminishingReturns _ _ _);
    rewrite newEvents_ret; simpl; cbv [searchRounds generationCalls] in *; simpl; lia.
Qed.

(** The loop: it ends within [maxSearchIterations - currentIteration]
    turns, so that much fuel always suffices; the counter stays within the
    ceiling; and each turn adds at most one search round and two generation
    calls. *)
Lemma iterate_bounded (fuel : nat) : forall env history st,
  currentIteration st <= maxSearchIterations config ->
  maxSearchIterations config - currentIteration st <= fuel ->
  exists final,
    fst (run env history (Orchestrator.iterate config fuel context st)) = Some final
    /\ currentIteration final <= maxSearchIterations config
    /\ searchRounds (newEvents env history (Orchestrator.iterate config fuel context st))
       <= maxSearchIterations config - currentIteration st
    /\ generationCalls (newEvents env history (Orchestrator.iterate config fuel context st))
       <= 2 * (maxSearchIterations config - currentIteration st).
Proof.
  induction fuel as [|fuel IH]; intros env history st Hceiling Hfuel; simpl;
    destruct (Nat.ltb_spec (currentIteration st) (maxSearchIterations config))
      as [Hlt|Hge]; try lia;
    try (exists st; rewrite newEvents_ret; cbv [searchRounds generationCalls];
         simpl; repeat split; lia).
  rewrite run_bind, newEvents_bind.
  destruct (iteration_step env history st) as (Hrounds & Hcalls & Hcounter).
  destruct (fst (run env history (Orchestrator.iteration config context st)))
    as [signal next] eqn:Hturn.
  simpl in Hcounter.
  rewrite searchRounds_app, generationCalls_app.
  destruct signal.
  - exists next. rewrite newEvents_ret. cbv [searchRounds generationCalls] in *.
    simpl. repeat split; lia.
  - destruct (IH env (snd (run env history (Orchestrator.iteration config context st)))
                next) as (final & Hfinal & Hbound & Hr & Hc); [lia|lia|].
    exists final. repeat split; [exact Hfinal|exact Hbound| |]; lia.
Qed.

(** Step 2 of [search] always returns, with the counter within the ceiling
    when the ceiling is at least 1. *)
Lemma iterativeRefinement_bounded env history iterationResults :
  1 <= maxSearchIterations config ->
  exists final,
    fst (run env history
           (Orchestrator.iterativeRefinement config context iterationResults))
    = Some final
    /\ currentIteration final <= maxSearchIterations config
    /\ searchRounds (newEvents env history
                       (Orchestrator.iterativeRefinement config context iterationResults))
       <= maxSearchIterations config - 1
    /\ generationCalls (newEvents env history
                          (Orchestrator.iterativeRefinement config context iterationResults))
       <= 2 * (maxSearchIterations config - 1).
Proof.
  intros Hmax. unfold Orchestrator.iterativeRefinement.
  destruct (enableIterativeSearch config && _).
  - apply (iterate_bounded (maxSearchIterations config) env history
             {| currentIteration := 1; allSearchResults := iterationResults |});
      simpl; lia.
  - eexists. rewrite newEvents_ret. cbv [searchRounds generationCalls]. simpl.
    repeat split; [|lia|lia]. simpl. lia.
Qed.

(** Step 2 of [search] returns whatever the configuration. *)
Lemma iterativeRefinement_returns env history iterationResults :
  is_Some (fst (run env history
                  (Orchestrator.iterativeRefinement config context iterationResults))).
Proof.
  unfold Orchestrator.iterativeRefinement.
  destruct (enableIterativeSearch config) eqn:Henabled; simpl; [|by eexists].
  destruct (Nat.ltb_spec 1 (maxSearchIterations config)) as [Hmany|Hfew];
    [|by eexists].
  destruct (iterate_bounded (maxSearchIterations config) env history
              {| currentIteration := 1; allSearchResults := iterationResults |})
    as (final & Hfinal & _); simpl; [lia|lia|].
  rewrite Hfinal. by eexists.
Qed.

(** [search] always returns a response: the fuel given to its loop is
    never exhausted. *)
Lemma search_returns env history :
  is_Some (fst (run env history (Orchestrator.search config context))).
Proof.
  unfold Orchestrator.search. rewrite run_bind.
  destruct (fst (run env history (Orchestrator.initialSearch config context)))
    as [failure|iterationResults]; [by eexists|].
  rewrite run_bind.
  destruct (iterativeRefinement_returns env
              (snd (run env history (Orchestrator.initialSearch config context)))
              iterationResults) as [final ->].
  rewrite run_bind. by eexists.
Qed.

(** The calls of the last permitted turn are all the calls of the loop. *)
Lemma iterate_last_turn (fuel : nat) env history st :
  maxSearchIterations config = currentIteration st + 1 ->
  newEvents env history (Orchestrator.iterate config (S fuel) context st)
  = newEvents env history (Orchestrator.iteration config context st).
Proof.
  intros Hlast. simpl.
  rewrite (proj2 (Nat.ltb_lt _ _)) by lia.
  rewrite newEvents_bind.
  destruct (iteration_step env history st) as (_ & _ & Hcounter).
  destruct (fst (run env history (Orchestrator.iteration config context st)))
    as [signal next] eqn:Hturn.
  simpl in Hcounter. destruct signal.
  - by rewrite newEvents_ret, app_nil_r.
  - assert (Hstop : Nat.ltb (currentIteration next) (maxSearchIterations config) = false)
      by (apply Nat.ltb_ge; lia).
    destruct fuel; simpl; rewrite Hstop; by rewrite newEvents_ret, app_nil_r.
Qed.

(** A turn whose analysis asks for more and whose follow-up generation
    yields a query performs exactly one search round. *)
Lemma iteration_searches_once env history st analysis followupQueries :
  usable (fst (run env history
                 (Orchestrator.analyzeSearchResults config context (allSearchResults st))))
  = Some analysis ->
  needsMoreSearch analysis = true ->
  JsNumber.geb (completeness analysis) (completenessThreshold config) = false ->
  informationGaps analysis <> [] ->
  usable (fst (run env
                 (snd (run env history
                         (Orchestrator.analyzeSearchResults config context
                            (allSearchResults st))))
                 (Orchestrator.generateFollowupQueries config context analysis)))
  = Some followupQueries ->
  followupQueries <> [] ->
  searchRounds (newEvents env history (Orchestrator.iteration config context st)) = 1.
Proof.
  intros Hanalysis Hneeds Hbelow Hgaps Hfollowup Hsome.
  unfold Orchestrator.iteration.
  rewrite newEvents_bind.
  destruct (analyzeSearchResults_calls config env history context (allSearchResults st))
    as [Hrounds1 _].
  rewrite Hanalysis, Hneeds, Hbelow. cbn [negb orb].
  rewrite (nonempty_length_nonzero _ Hgaps).
  rewrite newEvents_bind.
  destruct (generateFollowupQueries_calls config env
              (snd (run env history
                      (Orchestrator.analyzeSearchResults config context
                         (allSearchResults st))))
              context analysis) as [Hrounds2 _].
  rewrite Hfollowup, (nonempty_length_nonzero _ Hsome).
  rewrite newEvents_bind.
  match goal with
  | |- context [newEvents ?env' ?h' (Orchestrator.searchMultipleQueries config ?qs' context)] =>
      destruct (searchMultipleQueries_calls config env' h' qs' context)
        as (requests & outcomes & Hsearch)
  end.
  rewrite Hsearch, !searchRounds_app, Hrounds1, Hrounds2.
  destruct (Nat.eqb (length (Orchestrator.successfulData _)) 0);
    [rewrite newEvents_ret; reflexivity|].
  destruct (Orchestrator.diminishingReturns _ _ _);
    rewrite newEvents_ret; reflexivity.
Qed.

(** A turn whose follow-up generation fails, or yields no query, performs
    no search round. *)
Lemma iteration_without_followups env history st analysis :
  usable (fst (run env history
                 (Orchestrator.analyzeSearchResults config context (allSearchResults st))))
  = Some analysis ->
  match usable (fst (run env
                       (snd (run env history
                               (Orchestrator.analyzeSearchResults config context
                                  (allSearchResults st))))
                       (Orchestrator.generateFollowupQueries config context analysis))) with
  | Some (_ :: _) => False
  | _ => True
  end ->
  searchRounds (newEvents env history (Orchestrator.iteration config context st)) = 0.
Proof.
  intros Hanalysis Hnone.
  unfold Orchestrator.iteration.
  rewrite newEvents_bind.
  destruct (analyzeSearchResults_calls config env history context (allSearchResults st))
    as [Hrounds1 _].
  rewrite Hanalysis, searchRounds_app, Hrounds1.
  destruct (negb (needsMoreSearch analysis) || _);
    [by rewrite newEvents_ret|].
  destruct (Nat.eqb (length (informationGaps analysis)) 0);
    [by rewrite newEvents_ret|].
  rewrite newEvents_bind, searchRounds_app.
  destruct (generateFollowupQueries_calls config env
              (snd (run env history
                      (Orchestrator.analyzeSearchResults config context
                         (allSearchResults st))))
              context analysis) as [Hrounds2 _].
  rewrite Hrounds2.
  destruct (usable (fst (run env _
                           (Orchestrator.generateFollowupQueries config context analysis))))
    as [[|q qs]|] eqn:Hresponse.
  - cbn [length Nat.eqb]. by rewrite newEvents_ret.
  - exfalso. exact Hnone.
  - by rewrite newEvents_ret.
Qed.

End LoopFacts.

(** C4, as the code has it. With [maxSearchIterations >= 1], the loop of
    [search] always ends with its iteration counter within
    [maxSearchIterations], after at most [maxSearchIterations - 1] follow-up
    search rounds. With [maxSearchIterations = 2] and a first analysis
    reporting completeness 50, [needsMoreSearch] true and non-empty gaps,
    the loop makes at most two generation calls (that analysis and one
    follow-up generation, never a second analysis); it performs exactly one
    follow-up search round when the threshold is above 50 and the follow-up
    generation returns at least one query, and none when that generation
    fails or returns no query. *)
Theorem iteration_ceiling
    `{JsBuiltins} `{Collaborators}
    (config : SearchOrchestrationConfig) (context : SearchContext)
    (iterationResults : list SearchResponse)
    (env : Environment) (history : list Event)
    (Hceiling : 1 <= maxSearchIterations config) :
  let loop := Orchestrator.iterativeRefinement config context iterationResults in
  let analysisRun :=
    run env history
        (Orchestrator.analyzeSearchResults config context iterationResults) in
  (exists final,
     fst (run env history loop) = Some final
     /\ currentIteration final <= maxSearchIterations config)
  /\ searchRounds (newEvents env history loop) <= maxSearchIterations config - 1
  /\ (enableIterativeSearch config = true ->
      maxSearchIterations config = 2 ->
      forall analysis,
        usable (fst analysisRun) = Some analysis ->
        completeness analysis = JsNumber.ofZ 50 ->
        needsMoreSearch analysis = true ->
        informationGaps analysis <> [] ->
        generationCalls (newEvents env history loop) <= 2
        /\ (JsNumber.geb (JsNumber.ofZ 50) (completenessThreshold config) = false ->
            forall followupQueries,
              usable (fst (run env (snd analysisRun)
                             (Orchestrator.generateFollowupQueries
                                config context analysis)))
              = Some followupQueries ->
              followupQueries <> [] ->
              searchRounds (newEvents env history loop) = 1)
        /\ (match usable (fst (run env (snd analysisRun)
                                 (Orchestrator.generateFollowupQueries
                                    config context analysis))) with
            | Some (_ :: _) => False
            | _ => True
            end ->
            searchRounds (newEvents env history loop) = 0)).
Proof.
  cbv zeta.
  destruct (iterativeRefinement_bounded config context env history
              iterationResults Hceiling)
    as (final & Hfinal & Hbound & Hrounds & Hcalls).
  split; [by exists final|]. split; [exact Hrounds|].
  intros Henabled Htwo analysis Hanalysis Hfifty Hneeds Hgaps.
  split; [lia|].
  assert (Hloop : newEvents env history
                    (Orchestrator.iterativeRefinement config context iterationResults)
                  = newEvents env history
                      (Orchestrator.iteration config context
                         {| currentIteration := 1;
                            allSearchResults := iterationResults |})).
  { unfold Orchestrator.iterativeRefinement. rewrite Henabled, Htwo.
    cbn [andb Nat.ltb Nat.leb]. apply iterate_last_turn. simpl. lia. }
  rewrite Hloop. split.
  - intros Hbelow followupQueries Hfollowup Hsome.
    eapply iteration_searches_once; eauto. by rewrite Hfifty.
  - intros Hnone. eapply iteration_without_followups; eauto.
Qed.

Lemma iteration_ceiling_witness :
  1 <= maxSearchIterations (Sample.iterativeConfig 2)
  /\ (exists final,
        fst (run (Sample.environment (Sample.reply "1. ocean acidification data")
                                     (fun q => [Sample.item q]))
                 []
                 (@Orchestrator.iterativeRefinement Sample.builtins
                    Sample.collaborators (Sample.iterativeConfig 2) Sample.context
                    [Sample.batch [Sample.item "a"]]))
        = Some final
        /\ currentIteration final <= 2)
  /\ searchRounds
       (newEvents (Sample.environment (Sample.reply "1. ocean acidification data")
                                      (fun q => [Sample.item q]))
                  []
                  (@Orchestrator.iterativeRefinement Sample.builtins
                     Sample.collaborators (Sample.iterativeConfig 2) Sample.context
                     [Sample.batch [Sample.item "a"]]))
     = 1.
Proof.
  assert (Hceiling : 1 <= maxSearchIterations (Sample.iterativeConfig 2))
    by (simpl; lia).
  destruct (@iteration_ceiling Sample.builtins Sample.collaborators
              (Sample.iterativeConfig 2) Sample.context
              [Sample.batch [Sample.item "a"]]
              (Sample.environment (Sample.reply "1. ocean acidification data")
                                  (fun q => [Sample.item q]))
              [] Hceiling) as (Hfinal & _ & Hscenario).
  split; [exact Hceiling|]. split; [exact Hfinal|].
  destruct (Hscenario eq_refl eq_refl
              (@Analysis.fallbackAnalysis Sample.context)
              eq_refl eq_refl eq_refl ltac:(discriminate))
    as (_ & Honce & _).
  apply (Honce eq_refl ["ocean acidification data"]); [reflexivity|discriminate].
Defined.

(** C4 as stated fails in two ways. With [maxSearchIterations = 2], a first
    analysis of completeness 50 that asks for more search and names a gap,
    and a follow-up generation that fails, the loop performs no follow-up
    search round at all; and with [maxSearchIterations = 0] the counter
    reported as the number of iterations is 1. *)
Lemma iteration_ceiling_counterexample :
  (exists analysis,
     usable (fst (run (Sample.environment (failWith "Quota exceeded" "429")
                                          (fun q => [Sample.item q]))
                      []
                      (@Orchestrator.analyzeSearchResults Sample.builtins
                         Sample.collaborators (Sample.iterativeConfig 2)
                         Sample.context [Sample.batch [Sample.item "a"]])))
     = Some analysis
     /\ completeness analysis = JsNumber.ofZ 50
     /\ needsMoreSearch analysis = true
     /\ informationGaps analysis <> [])
  /\ searchRounds
       (newEvents (Sample.environment (failWith "Quota exceeded" "429")
                                      (fun q => [Sample.item q]))
                  []
                  (@Orchestrator.iterativeRefinement Sample.builtins
                     Sample.collaborators (Sample.iterativeConfig 2) Sample.context
                     [Sample.batch [Sample.item "a"]]))
     = 0
  /\ (exists final,
        fst (run (Sample.environment (failWith "Quota exceeded" "429")
                                     (fun q => [Sample.item q]))
                 []
                 (@Orchestrator.iterativeRefinement Sample.builtins
                    Sample.collaborators (Sample.iterativeConfig 0) Sample.context
                    [Sample.batch [Sample.item "a"]]))
        = Some final
        /\ currentIteration final = 1
        /\ maxSearchIterations (Sample.iterativeConfig 0) = 0).
Proof.
  split; [|split].
  - exists (@Analysis.fallbackAnalysis Sample.context).
    repeat split; try reflexivity. discriminate.
  - reflexivity.
  - eexists. repeat split; reflexivity.
Qed.

(** ** The diminishing-returns test *)

Section DiminishingFacts.
Variable config : SearchOrchestrationConfig.

Lemma countItems_flat (results : list SearchResponse) :
  Orchestrator.countItems results = length (flat_map items results).
Proof.
  unfold Orchestrator.countItems.
  assert (Hgen : forall start,
            fold_left (fun total result => total + length (items result)) results start
            = start + length (flat_map items results)).
  { induction results as [|r rest IH]; intros start; simpl; [lia|].
    rewrite IH, length_app. lia. }
  apply (Hgen 0).
Qed.

Lemma keepFirstAfter_length later : forall earlier,
  length (keepFirstAfter earlier later) <= length later.
Proof.
  induction later as [|x rest IH]; intros earlier; simpl; [lia|].
  rewrite length_app. specialize (IH (earlier ++ [x])).
  case_bool_decide; simpl; lia.
Qed.

Lemma uniqueCount_le_items (results : list SearchResponse) :
  length (items (aggregateResults config results))
  <= length (flat_map items results).
Proof.
  rewrite aggregateResults_items, length_take.
  pose proof (keepFirstAfter_length (flat_map items results) []).
  unfold keepFirstByUrl. lia.
Qed.

Lemma flat_map_no_items (results : list SearchResponse) :
  length (flat_map items results) = 0 -> flat_map items results = [].
Proof. by destruct (flat_map items results). Qed.

(** What the code compares: the unique count after the merge against the
    number of items, duplicates included, gathered before it. The test on
    the number of new items adds nothing. *)
Lemma diminishingReturns_raw_count (previousResults newResults : list SearchResponse) :
  Orchestrator.diminishingReturns config previousResults newResults
  = Nat.leb (length (items (aggregateResults config (previousResults ++ newResults))))
            (length (flat_map items previousResults)).
Proof.
  unfold Orchestrator.diminishingReturns. cbv zeta.
  rewrite !countItems_flat.
  destruct (Nat.eqb_spec (length (flat_map items newResults)) 0) as [Hnone|_];
    [|reflexivity].
  cbn [orb]. symmetry. apply Nat.leb_le.
  rewrite aggregateResults_items, flat_map_app, (flat_map_no_items _ Hnone),
    app_nil_r, <- aggregateResults_items.
  apply uniqueCount_le_items.
Qed.

End DiminishingFacts.

(** C3 at accumulated batches [[a], [a]] and a follow-up batch [[b]]: the
    unique count grows from 1 to 2, yet the test fires, because 2 does not
    exceed the 2 items gathered before the merge; with three iterations
    allowed the loop stops in its first turn, after the analysis and the
    follow-up generation, without a second analysis. *)
Theorem diminishingReturns_fires_despite_new_item :
  length (items (aggregateResults (Sample.iterativeConfig 3)
                   [Sample.batch [Sample.item "a"]; Sample.batch [Sample.item "a"]]))
  = 1
  /\ length (items (aggregateResults (Sample.iterativeConfig 3)
                      ([Sample.batch [Sample.item "a"]; Sample.batch [Sample.item "a"]]
                       ++ [Sample.batch [Sample.item "b"]])))
     = 2
  /\ Orchestrator.diminishingReturns (Sample.iterativeConfig 3)
       [Sample.batch [Sample.item "a"]; Sample.batch [Sample.item "a"]]
       [Sample.batch [Sample.item "b"]]
     = true
  /\ fst (run (Sample.environment (Sample.reply "1. b") (fun q => [Sample.item q]))
              []
              (@Orchestrator.iterativeRefinement Sample.builtins
                 Sample.collaborators (Sample.iterativeConfig 3) Sample.context
                 [Sample.batch [Sample.item "a"]; Sample.batch [Sample.item "a"]]))
     = Some {| currentIteration := 1;
               allSearchResults :=
                 [Sample.batch [Sample.item "a"]; Sample.batch [Sample.item "a"];
                  Sample.batch [Sample.item "b"]] |}
  /\ generationCalls
       (newEvents (Sample.environment (Sample.reply "1. b") (fun q => [Sample.item q]))
                  []
                  (@Orchestrator.iterativeRefinement Sample.builtins
                     Sample.collaborators (Sample.iterativeConfig 3) Sample.context
                     [Sample.batch [Sample.item "a"]; Sample.batch [Sample.item "a"]]))
     = 2.
Proof. repeat split; vm_compute; reflexivity. Qed.

(* ================================================================== *)
(** * Further properties of the code *)
(* ================================================================== *)

(** ** The fan-out of [searchMultipleQueries] *)

Lemma ceilDiv_covers (total parts : nat) :
  1 <= parts -> total <= parts * Orchestrator.ceilDiv total parts.
Proof.
  intros Hparts. unfold Orchestrator.ceilDiv.
  pose proof (Nat.div_mod_eq (total + parts - 1) parts) as Hsplit.
  pose proof (Nat.mod_upper_bound (total + parts - 1) parts) as Hrest.
  lia.
Qed.

Lemma run_mret {A : Type} env history (a : A) :
  run env history (mret a) = (a, history).
Proof. reflexivity. Qed.

(** X1. [searchMultipleQueries] issues, in one round, one request per query,
    in query order, each asking for [ceil(maxSearchResults / n)] results in
    the language and region of the context; together the requests cover
    [maxSearchResults]. It returns one response per query, in the same
    order: the response of the search client when the promise is fulfilled,
    and a failure with code INDIVIDUAL_SEARCH_FAILED naming the query when it
    is rejected, so that one failing query never hides the others. *)
Theorem searchMultipleQueries_one_response_per_query
    (config : SearchOrchestrationConfig) (env : Environment)
    (history : list Event) (queries : list string) (context : SearchContext) :
  let budget := Orchestrator.ceilDiv (maxSearchResults config) (length queries) in
  let request := fun q =>
    {| searchQuery := q; num := budget;
       searchLanguage := language context; searchRegion := region context |} in
  let responses :=
    fst (run env history (Orchestrator.searchMultipleQueries config queries context)) in
  length responses = length queries
  /\ (forall i q, queries !! i = Some q ->
        responses !! i
        = Some (match onSearch env history i (request q) with
                | Fulfilled value => value
                | Rejected _ =>
                    failWith ("Search failed for query: " ++ q)
                             "INDIVIDUAL_SEARCH_FAILED"
                end))
  /\ (queries <> [] -> maxSearchResults config <= length queries * budget)
  /\ newEvents env history (Orchestrator.searchMultipleQueries config queries context)
     = [SearchedAll (request <$> queries)
                    (imap (onSearch env history) (request <$> queries))].
Proof.
  cbv zeta. unfold Orchestrator.searchMultipleQueries.
  rewrite run_bind, newEvents_bind, newEvents_searchAllSettled, newEvents_ret,
    fst_run_searchAllSettled.
  rewrite run_mret. cbn [fst]. rewrite !length_imap, length_fmap.
  split; [reflexivity|]. split; [|split; [|reflexivity]].
  - intros i q Hq.
    rewrite !list_lookup_imap, list_lookup_fmap, Hq. cbn [fmap option_fmap option_map].
    reflexivity.
  - intros Hsome. apply ceilDiv_covers. destruct queries; [done|simpl; lia].
Qed.

(** ** Replies of the query generator *)

Lemma take_elem {A : Type} (x : A) (n : nat) (l : list A) :
  x ∈ take n l -> x ∈ l.
Proof. intros (i & Hi & _)%elem_of_take. by eapply list_elem_of_lookup_2. Qed.

(** X2. The original query is returned only as the last resort: if it occurs in
    the result of [parseGeneratedQueries] at all, it is the whole result.
    Every other returned query is a non-empty text. *)
Theorem parseGeneratedQueries_original_only_alone
    (config : SearchOrchestrationConfig) (generatedText originalQuery : string) :
  let queries :=
    ReplyParsing.parseGeneratedQueries config generatedText originalQuery in
  (originalQuery ∈ queries -> queries = [originalQuery])
  /\ (forall q, q ∈ queries -> q <> originalQuery -> q <> EmptyString).
Proof.
  cbv zeta.
  assert (Hnumbered : forall q,
            q ∈ omap (ReplyParsing.numberedQuery originalQuery)
                     (ReplyParsing.replyLines generatedText) ->
            q <> originalQuery /\ q <> EmptyString).
  { intros q (line & _ & Hline)%list_elem_of_omap.
    unfold ReplyParsing.numberedQuery in Hline.
    destruct (ReplyParsing.matchNumbered line) as [captured|]; [|done].
    destruct (JsString.isEmpty _) eqn:Hempty; [done|].
    destruct (String.eqb_spec (ReplyParsing.stripQuotes (JsString.trim captured))
                originalQuery) as [|Hother]; [done|].
    simpl in Hline. injection Hline as <-. split; [exact Hother|].
    intros Hnil. by rewrite Hnil in Hempty. }
  assert (Hfallback : forall q,
            q ∈ filter (fun line =>
                          ReplyParsing.meaningfulLine originalQuery line = true)
                       (ReplyParsing.replyLines generatedText) ->
            q <> originalQuery /\ q <> EmptyString).
  { intros q [Hok _]%list_elem_of_filter.
    unfold ReplyParsing.meaningfulLine in Hok.
    repeat (apply andb_true_iff in Hok as [Hok ?]).
    split.
    - by apply String.eqb_neq, negb_true_iff.
    - intros ->. done. }
  destruct (omap (ReplyParsing.numberedQuery originalQuery)
                 (ReplyParsing.replyLines generatedText)) as [|q0 qs0] eqn:Hnum.
  - destruct (filter (fun line => ReplyParsing.meaningfulLine originalQuery line = true)
                     (ReplyParsing.replyLines generatedText)) as [|l ls] eqn:Hfb.
    + rewrite parseGeneratedQueries_original by done.
      destruct (maxGeneratedQueries config) as [|n]; simpl.
      * split; [by intros ?%elem_of_nil|by intros q ?%elem_of_nil].
      * rewrite take_nil. split; [done|].
        by intros q ->%list_elem_of_singleton.
    + rewrite parseGeneratedQueries_fallback by (by rewrite ?Hfb).
      rewrite Hfb. split.
      * intros Hin%take_elem. by apply Hfallback in Hin as [? _].
      * intros q Hin%take_elem _. by apply Hfallback in Hin as [_ ?].
  - rewrite parseGeneratedQueries_numbered by (by rewrite Hnum).
    rewrite Hnum. split.
    + intros Hin%take_elem. by apply Hnumbered in Hin as [? _].
    + intros q Hin%take_elem _. by apply Hnumbered in Hin as [_ ?].
Qed.

(** ** The ranking of follow-up queries *)

Section RankingFacts.
Import Priority.
Local Open Scope Z_scope.

Lemma insertByPriority_ties (p : Z) c sorted :
  filter (fun d => priority d = p) (insertByPriority c sorted)
  = filter (fun d => priority d = p) (c :: sorted).
Proof.
  induction sorted as [|d rest IH]; simpl; [reflexivity|].
  destruct (Z.ltb_spec (priority c) (priority d)) as [Hlt|Hge]; [|reflexivity].
  rewrite !filter_cons in *.
  destruct (decide (priority d = p)) as [Hd|Hd];
    destruct (decide (priority c = p)) as [Hc|Hc]; try lia;
    rewrite IH; reflexivity.
Qed.

Lemma countMatches_bound queryLower entries n :
  countMatches queryLower entries = Some n -> (n <= length entries)%nat.
Proof.
  revert n. induction entries as [|entry rest IH]; intros n; simpl.
  - intros [= <-]. lia.
  - destruct (JsValue.callToLowerCase entry); [|done].
    destruct (countMatches queryLower rest) as [m|]; [|done].
    specialize (IH m eq_refl). intros [= <-].
    destruct (_ || _); lia.
Qed.

Lemma countMatches_fails queryLower entries :
  countMatches queryLower entries = None ->
  exists entry, entry ∈ entries /\ forall s, entry <> JStr s.
Proof.
  induction entries as [|entry rest IH]; simpl; [done|].
  destruct entry as [| |b|n|s|elems|props]; simpl;
    try (intros _; eexists; split; [left|done]).
  destruct (countMatches queryLower rest) as [m|]; [done|].
  intros _. destruct (IH eq_refl) as (entry & Hin & Hnot).
  exists entry. split; [by right|exact Hnot].
Qed.

End RankingFacts.

(** X3. The sort of the follow-up candidates is stable: candidates of equal
    priority keep the order in which they were parsed. *)
Theorem sortByPriority_keeps_parse_order_among_ties
    (queries : list Priority.Candidate) (p : Z) :
  filter (fun c => Priority.priority c = p) (Priority.sortByPriority queries)
  = filter (fun c => Priority.priority c = p) queries.
Proof.
  induction queries as [|c rest IH]; simpl; [reflexivity|].
  rewrite insertByPriority_ties, !filter_cons, IH. reflexivity.
Qed.

(** X4. The ranked list holds the [maxFollowupQueries] best candidates (all of
    them when there are fewer), highest priority first: it is sorted, it has
    [min maxFollowupQueries n] entries, and together with the candidates it
    leaves out, none of which has a higher priority than any it keeps, it is
    a rearrangement of the candidates. *)
Theorem rankedCandidates_keeps_highest
    (config : SearchOrchestrationConfig) (queries : list Priority.Candidate) :
  let ranked := Priority.rankedCandidates config queries in
  StronglySorted Priority.byPriority ranked
  /\ length ranked = Nat.min (maxFollowupQueries config) (length queries)
  /\ exists dropped,
       ranked ++ dropped ≡ₚ queries
       /\ forall kept left,
            kept ∈ ranked -> left ∈ dropped ->
            (Priority.priority left <= Priority.priority kept)%Z.
Proof.
  cbv zeta. unfold Priority.rankedCandidates.
  pose proof (sortByPriority_sorted queries) as Hsorted.
  pose proof (sortByPriority_Permutation queries) as Hperm.
  split; [|split].
  - rewrite <- (take_drop (maxFollowupQueries config)) in Hsorted.
    by apply StronglySorted_app_1_l in Hsorted.
  - by rewrite length_take, Hperm.
  - exists (drop (maxFollowupQueries config) (Priority.sortByPriority queries)).
    split; [by rewrite take_drop|].
    intros kept left Hkept Hleft.
    rewrite <- (take_drop (maxFollowupQueries config)) in Hsorted.
    apply (StronglySorted_app_1_elem_of _ _ _ _ _ Hsorted Hkept Hleft).
Qed.

(** X5. The score of a query is never negative and never above 160 (the four
    category weights, the multi-category bonus and the two quality bonuses)
    plus 15 for each follow-up topic and 10 for each information gap; and
    scoring fails only when one of those entries is not a string. *)
Theorem calculateQueryPriority_bounds (query : string) (analysis : ResultAnalysis) :
  match Priority.calculateQueryPriority query analysis with
  | Some score =>
      (0 <= score
       <= 160 + 15 * Z.of_nat (length (followupTopics analysis))
          + 10 * Z.of_nat (length (informationGaps analysis)))%Z
  | None =>
      exists entry,
        entry ∈ followupTopics analysis ++ informationGaps analysis
        /\ forall s, entry <> JStr s
  end.
Proof.
  rewrite calculateQueryPriority_scoreOf. unfold Priority.componentsOf. cbv zeta.
  destruct (Priority.countMatches _ (followupTopics analysis)) as [topics|] eqn:Ht.
  - destruct (Priority.countMatches _ (informationGaps analysis)) as [gaps|] eqn:Hg.
    + apply countMatches_bound in Ht, Hg. unfold Priority.scoreOf.
      cbn [Priority.verificationHit Priority.depthHit Priority.contextualHit
           Priority.topicMatches Priority.gapMatches Priority.goodLength
           Priority.goodWordCount].
      generalize (Priority.addresses (factual (gapCategories analysis))
                    Priority.factualKeywords (JsString.toLowerCase query)),
        (Priority.addresses (verification (gapCategories analysis))
           Priority.verificationKeywords (JsString.toLowerCase query)),
        (Priority.addresses (depth (gapCategories analysis))
           Priority.depthKeywords (JsString.toLowerCase query)),
        (Priority.addresses (contextual (gapCategories analysis))
           Priority.contextualKeywords (JsString.toLowerCase query)),
        (Priority.lengthBonus query),
        (Priority.wordBonus (JsString.toLowerCase query)).
      intros [] [] [] [] [] []; destruct (1 <? _)%Z; lia.
    + destruct (countMatches_fails _ _ Hg) as (entry & Hin & Hnot).
      exists entry. split; [apply elem_of_app; by right|exact Hnot].
  - destruct (countMatches_fails _ _ Ht) as (entry & Hin & Hnot).
    exists entry. split; [apply elem_of_app; by left|exact Hnot].
Qed.

(** X6. [generateFollowupQueries] never returns more than [maxFollowupQueries]
    queries, whichever path builds them; and when it fails, the error code is
    one of FOLLOWUP_GENERATION_FAILED, NO_FOLLOWUP_QUERIES_GENERATED and
    FOLLOWUP_GENERATION_ERROR, with no data. *)
Theorem generateFollowupQueries_within_limit
    `{Collaborators} (config : SearchOrchestrationConfig) (env : Environment)
    (history : list Event) (context : SearchContext) (analysis : ResultAnalysis) :
  let response :=
    fst (run env history
           (Orchestrator.generateFollowupQueries config context analysis)) in
  match usable response with
  | Some followupQueries => length followupQueries <= maxFollowupQueries config
  | None =>
      data response = None
      /\ exists msg errorCode,
           error response = Some {| message := msg; code := errorCode |}
           /\ errorCode ∈ ["FOLLOWUP_GENERATION_FAILED";
                           "NO_FOLLOWUP_QUERIES_GENERATED";
                           "FOLLOWUP_GENERATION_ERROR"]
  end.
Proof.
  cbv zeta. unfold Orchestrator.generateFollowupQueries.
  destruct (_ || _); [rewrite run_mret; simpl; lia|].
  destruct (buildFollowupQueryPrompt _ _ _) as [followupPrompt|].
  2:{ rewrite run_mret. simpl. split; [done|]. do 2 eexists.
      split; [reflexivity|]. set_solver. }
  rewrite run_bind, fst_run_generateContent.
  destruct (usable (onGenerateContent _ _ _ _)) as [body|].
  2:{ rewrite run_mret. simpl. split; [done|]. do 2 eexists.
      split; [reflexivity|]. set_solver. }
  destruct (generatedTextOf body) as [generatedText|].
  2:{ rewrite run_mret. simpl. split; [done|]. do 2 eexists.
      split; [reflexivity|]. set_solver. }
  unfold Priority.parseAndPrioritizeFollowupQueries.
  destruct (Priority.followupCandidates _ _ _ _) as [queries|].
  - rewrite run_mret. simpl.
    rewrite length_fmap. unfold Priority.rankedCandidates.
    rewrite length_take. lia.
  - rewrite run_mret. simpl. split; [done|]. do 2 eexists.
    split; [reflexivity|]. set_solver.
Qed.

(** ** Replies of the completeness analyzer *)

Section StringFacts.
Import JsString.

Lemma append_cons (c : ascii) (s t : string) :
  String c s +:+ t = String c (s +:+ t).
Proof. reflexivity. Qed.

Lemma append_nil (t : string) : EmptyString +:+ t = t.
Proof. reflexivity. Qed.

Lemma append_assoc (s t u : string) : (s +:+ t) +:+ u = s +:+ (t +:+ u).
Proof.
  induction s as [|c s IH]; [reflexivity|].
  by rewrite !append_cons, IH.
Qed.

Lemma append_empty_r (s : string) : s +:+ EmptyString = s.
Proof.
  induction s as [|c s IH]; [reflexivity|]. by rewrite append_cons, IH.
Qed.

Lemma all_app (p : ascii -> bool) (s t : string) :
  all p (s +:+ t) = all p s && all p t.
Proof.
  induction s as [|c s IH]; [reflexivity|].
  rewrite append_cons. simpl. by rewrite IH, andb_assoc.
Qed.

Lemma takeWhile_dropWhile (p : ascii -> bool) (s : string) :
  s = takeWhile p s +:+ dropWhile p s.
Proof.
  induction s as [|c s IH]; simpl; [reflexivity|].
  destruct (p c); [by rewrite append_cons, <- IH|reflexivity].
Qed.

Lemma all_takeWhile (p : ascii -> bool) (s : string) :
  all p (takeWhile p s) = true.
Proof.
  induction s as [|c s IH]; simpl; [reflexivity|].
  destruct (p c) eqn:Hc; simpl; [by rewrite Hc|reflexivity].
Qed.

Lemma dropWhile_head (p : ascii -> bool) (s : string) c rest :
  dropWhile p s = String c rest -> p c = false.
Proof.
  induction s as [|d s IH]; simpl; [done|].
  destruct (p d) eqn:Hd; [exact IH|]. by intros [= <- _].
Qed.

Lemma code_inj (c : ascii) (n : nat) :
  Nat.eqb (code c) n = true -> c = ascii_of_nat n.
Proof.
  intros Heq%Nat.eqb_eq. unfold code in Heq.
  by rewrite <- Heq, ascii_nat_embedding.
Qed.

End StringFacts.

Section JsonMatchFacts.
Import JsString Analysis.

Local Abbreviation notOpeningBrace :=
  (fun c : ascii => negb (Nat.eqb (code c) 123)).
Local Abbreviation notClosingBrace :=
  (fun c : ascii => negb (Nat.eqb (code c) 125)).

Lemma throughLastBrace_none (s : string) :
  throughLastBrace s = None -> all notClosingBrace s = true.
Proof.
  induction s as [|c s IH]; simpl; [reflexivity|].
  destruct (throughLastBrace s); [done|].
  destruct (Nat.eqb (code c) 125); [done|]. intros _. by apply IH.
Qed.

Lemma throughLastBrace_some (s t : string) :
  throughLastBrace s = Some t ->
  exists inner after,
    t = inner +:+ "}" /\ s = t +:+ after /\ all notClosingBrace after = true.
Proof.
  revert t. induction s as [|c s IH]; intros t; simpl; [done|].
  destruct (throughLastBrace s) as [t'|] eqn:Hrest.
  - intros [= <-]. destruct (IH t' eq_refl) as (inner & after & -> & Hs & Hafter).
    exists (String c inner), after. repeat split; [|exact Hafter].
    rewrite !append_cons. f_equal. exact Hs.
  - destruct (Nat.eqb (code c) 125) eqn:Hc; [|done].
    intros [= <-]. exists EmptyString, s.
    rewrite (code_inj _ _ Hc). repeat split.
    by apply throughLastBrace_none.
Qed.

Lemma dropWhile_keeps_after_brace (before rest : string) :
  all notClosingBrace (dropWhile notOpeningBrace (before +:+ String "{" rest)) = true ->
  all notClosingBrace rest = true.
Proof.
  induction before as [|c before IH].
  - rewrite append_nil. simpl. done.
  - rewrite append_cons. simpl.
    destruct (negb (Nat.eqb (code c) 123)); [exact IH|].
    simpl. rewrite all_app. simpl. intros Hall.
    destruct (negb (Nat.eqb (code c) 125)); simpl in Hall; [|done].
    destruct (all _ before); simpl in Hall; [exact Hall|done].
Qed.

End JsonMatchFacts.

(** X7. The regex [/\{[\s\S]*\}/] of [parseAnalysisResponse] picks the text from
    the first opening brace to the last closing brace after it: prose around
    the JSON object is dropped, and a reply holding no opening brace
    followed by a closing brace has no match at all. *)
Theorem jsonMatch_first_to_last_brace (generatedText : string) :
  match Analysis.jsonMatch generatedText with
  | Some matched =>
      exists before inner after,
        generatedText = before +:+ matched +:+ after
        /\ matched = "{" +:+ inner +:+ "}"
        /\ JsString.all (fun c => negb (Nat.eqb (JsString.code c) 123)) before = true
        /\ JsString.all (fun c => negb (Nat.eqb (JsString.code c) 125)) after = true
  | None =>
      forall before inner after,
        generatedText <> before +:+ "{" +:+ inner +:+ "}" +:+ after
  end.
Proof.
  unfold Analysis.jsonMatch.
  destruct (Analysis.throughLastBrace _) as [matched|] eqn:Hmatch.
  - destruct (throughLastBrace_some _ _ Hmatch) as (inner & after & -> & Hs & Hafter).
    destruct (JsString.dropWhile _ generatedText) as [|c rest] eqn:Hdrop;
      [done|].
    pose proof (dropWhile_head _ _ _ _ Hdrop) as Hc.
    apply negb_false_iff, code_inj in Hc. subst c.
    destruct inner as [|c inner].
    { rewrite append_nil in Hs. simpl in Hmatch.
      destruct (Analysis.throughLastBrace rest); [|done].
      injection Hmatch as Hm. destruct s; discriminate. }
    rewrite !append_cons in Hs. injection Hs as <- Hrest.
    exists (JsString.takeWhile (fun c => negb (Nat.eqb (JsString.code c) 123))
              generatedText), inner, after.
    repeat split; [|apply all_takeWhile|exact Hafter].
    rewrite (takeWhile_dropWhile (fun c => negb (Nat.eqb (JsString.code c) 123))
               generatedText) at 1.
    rewrite Hdrop, Hrest. f_equal.
  - intros before inner after Heq.
    apply throughLastBrace_none in Hmatch. rewrite Heq in Hmatch.
    change ("{" +:+ inner +:+ "}" +:+ after)
      with (String "{" (inner +:+ "}" +:+ after)) in Hmatch.
    apply dropWhile_keeps_after_brace in Hmatch.
    rewrite all_app in Hmatch. by apply andb_true_iff in Hmatch as [_ Hmatch].
Qed.

(** X8. When there is nothing to analyze, because no batch was gathered or
    because no content can be extracted from the batches, the analyzer
    answers without calling the model: it succeeds with a canned analysis
    of completeness 0 (no batch) or 10 (no content) that asks for more
    search and names exactly one gap. *)
Theorem analyzeSearchResults_without_content
    `{JsBuiltins} `{Collaborators} (config : SearchOrchestrationConfig)
    (env : Environment) (history : list Event) (context : SearchContext)
    (searchResults : list SearchResponse)
    (Hnothing : flat_map extractContentForSynthesis searchResults = []) :
  exists analysis,
    run env history (Orchestrator.analyzeSearchResults config context searchResults)
    = (succeed analysis, history)
    /\ completeness analysis
       = JsNumber.ofZ (match searchResults with [] => 0 | _ => 10 end)
    /\ confidenceLevel analysis
       = JsNumber.ofZ (match searchResults with [] => 0 | _ => 20 end)
    /\ needsMoreSearch analysis = true
    /\ length (informationGaps analysis) = 1
    /\ followupTopics analysis = [].
Proof.
  unfold Orchestrator.analyzeSearchResults.
  destruct searchResults as [|r rest].
  - eexists. repeat split; reflexivity.
  - rewrite Hnothing. eexists. repeat split; reflexivity.
Qed.

Lemma analyzeSearchResults_without_content_witness :
  exists analysis,
    run (Sample.environment (Sample.reply "1. unused") (fun q => [Sample.item q]))
        []
        (@Orchestrator.analyzeSearchResults Sample.builtins Sample.collaborators
           defaultConfig Sample.context [Sample.batch []])
    = (succeed analysis, [])
    /\ completeness analysis = JsNumber.ofZ 10.
Proof.
  destruct (@analyzeSearchResults_without_content Sample.builtins
              Sample.collaborators defaultConfig
              (Sample.environment (Sample.reply "1. unused")
                                  (fun q => [Sample.item q]))
              [] Sample.context [Sample.batch []] eq_refl)
    as (analysis & Hrun & Hcompleteness & _).
  exists analysis. split; [exact Hrun|exact Hcompleteness].
Defined.



(** ** The whole of [search] *)

Section SearchFacts.
Context `{JsBuiltins} `{Collaborators}.
Variable config : SearchOrchestrationConfig.
Variable context : SearchContext.
Implicit Types (env : Environment) (history : list Event).

Lemma generatedTextOf_nonempty (body : GeminiResponse) (generatedText : string) :
  generatedTextOf body = Some generatedText -> generatedText <> EmptyString.
Proof.
  unfold generatedTextOf.
  destruct (head (candidates body)) as [candidate|]; [|done].
  destruct (head (parts (content candidate))) as [part|]; [|done].
  destruct (text part) eqn:Htext; simpl; [done|]. by intros [= <-].
Qed.

Lemma generateSearchAnswer_calls env history searchResults options :
  newEvents env history
    (Orchestrator.generateSearchAnswer context searchResults options)
  = [Generated (buildAnswerPrompt context searchResults) options
       (onGenerateContent env history (buildAnswerPrompt context searchResults)
          options)].
Proof.
  unfold Orchestrator.generateSearchAnswer.
  rewrite newEvents_bind, newEvents_generateContent, fst_run_generateContent.
  destruct (usable _); [destruct (generatedTextOf _)|];
    by rewrite newEvents_ret.
Qed.

Lemma generateSearchAnswer_text env history searchResults options answerText :
  usable (fst (run env history
                 (Orchestrator.generateSearchAnswer context searchResults options)))
  = Some answerText ->
  answerText <> EmptyString.
Proof.
  unfold Orchestrator.generateSearchAnswer.
  rewrite run_bind, fst_run_generateContent.
  destruct (usable (onGenerateContent _ _ _ _)) as [body|]; [|done].
  destruct (generatedTextOf body) as [generatedText|] eqn:Htext; [|done].
  rewrite run_mret. intros [= <-]. by eapply generatedTextOf_nonempty.
Qed.

(** What steps 3 to 6 return, and the calls they make. *)
Lemma synthesize_outcome env history gathered :
  let aggregated := aggregateResults config gathered in
  let response :=
    fst (run env history (Orchestrator.synthesize config context gathered)) in
  let events :=
    newEvents env history (Orchestrator.synthesize config context gathered) in
  searchRounds events = 0
  /\ generationCalls events <= 1
  /\ match usable response with
     | Some result =>
         response = succeed result
         /\ items aggregated <> []
         /\ sources result = Orchestrator.extractSources aggregated
         /\ resultQuery result = query context
         /\ resultFocusMode result = focusMode context
         /\ answer result <> EmptyString
     | None =>
         (response = failWith "No search results found after all iterations"
                              "NO_FINAL_RESULTS"
          /\ events = [])
         \/ response = failWith "Final answer generation failed"
                                "FINAL_GENERATION_FAILED"
     end.
Proof.
  cbv zeta. unfold Orchestrator.synthesize. cbv zeta.
  destruct (Nat.eqb (length (items (aggregateResults config gathered))) 0)
    eqn:Hitems.
  - rewrite newEvents_ret, run_mret. cbv [searchRounds generationCalls]. simpl.
    repeat split; [lia|]. by left.
  - rewrite newEvents_bind, run_bind, generateSearchAnswer_calls.
    match goal with
    | |- context [usable (fst (run env history
                                 (Orchestrator.generateSearchAnswer ?c ?r ?o)))] =>
        pose proof (generateSearchAnswer_text env history r o) as Htext;
        destruct (usable (fst (run env history
                                 (Orchestrator.generateSearchAnswer c r o))))
          as [answerText|]
    end.
    + rewrite newEvents_ret, run_mret. cbv [searchRounds generationCalls]. simpl.
      repeat split; [lia| |by apply Htext].
      by apply length_nonzero_cons.
    + rewrite newEvents_ret, run_mret. cbv [searchRounds generationCalls]. simpl.
      repeat split; [lia|]. by right.
Qed.

Lemma generateSearchQueries_calls env history :
  searchRounds (newEvents env history
                  (Orchestrator.generateSearchQueries config context)) = 0
  /\ generationCalls (newEvents env history
                        (Orchestrator.generateSearchQueries config context)) = 1.
Proof.
  unfold Orchestrator.generateSearchQueries. cbv zeta.
  rewrite newEvents_bind, newEvents_generateContent.
  destruct (usable _); [destruct (generatedTextOf _)|];
    rewrite newEvents_ret; by cbv.
Qed.

Lemma newEvents_searchWithFocus env history count :
  newEvents env history (searchWithFocus context count)
  = [SearchedWithFocus context count (onSearchWithFocus env history context count)].
Proof. unfold newEvents. simpl. by rewrite drop_app_length. Qed.

Lemma fst_run_searchWithFocus env history count :
  fst (run env history (searchWithFocus context count))
  = onSearchWithFocus env history context count.
Proof. reflexivity. Qed.

(** What step 1 returns, and the calls it makes. *)
Lemma initialSearch_outcome env history :
  let events :=
    newEvents env history (Orchestrator.initialSearch config context) in
  searchRounds events = (if enableQueryGeneration config then 1 else 0)
  /\ generationCalls events = (if enableQueryGeneration config then 1 else 0)
  /\ match fst (run env history (Orchestrator.initialSearch config context)) with
     | inl failure =>
         failure = failWith "All initial search queries failed" "INITIAL_SEARCH_FAILED"
         \/ failure = failWith "Initial search failed" "INITIAL_SEARCH_FAILED"
         \/ exists msg, failure = failWith msg "ORCHESTRATION_ERROR"
     | inr iterationResults => iterationResults <> []
     end.
Proof.
  cbv zeta. unfold Orchestrator.initialSearch.
  destruct (enableQueryGeneration config).
  - rewrite !newEvents_bind, !run_bind.
    destruct (generateSearchQueries_calls env history) as [Hrounds Hcalls].
    match goal with
    | |- context [newEvents ?env' ?h' (Orchestrator.searchMultipleQueries config ?qs context)] =>
        destruct (searchMultipleQueries_calls config env' h' qs context)
          as (requests & outcomes & Hsearch)
    end.
    rewrite Hsearch, !searchRounds_app, !generationCalls_app, Hrounds, Hcalls.
    destruct (Nat.eqb (length (Orchestrator.successfulData _)) 0) eqn:Hnone;
      rewrite newEvents_ret, run_mret; cbv [searchRounds generationCalls]; simpl;
      repeat split; auto.
    by apply length_nonzero_cons.
  - rewrite newEvents_bind, run_bind, newEvents_searchWithFocus,
      fst_run_searchWithFocus.
    destruct (onSearchWithFocus env history context (maxSearchResults config))
      as [searchResponse|].
    + destruct (usable searchResponse);
        rewrite newEvents_ret, run_mret; cbv [searchRounds generationCalls];
        simpl; repeat split; auto.
    + rewrite newEvents_ret, run_mret. cbv [searchRounds generationCalls].
      simpl. repeat split; eauto.
Qed.

(** The calls of step 2, whatever the configuration. *)
Lemma iterativeRefinement_calls env history iterationResults :
  let turns :=
    if enableIterativeSearch config then maxSearchIterations config - 1 else 0 in
  searchRounds (newEvents env history
                  (Orchestrator.iterativeRefinement config context iterationResults))
  <= turns
  /\ generationCalls (newEvents env history
                        (Orchestrator.iterativeRefinement config context
                           iterationResults))
     <= 2 * turns.
Proof.
  cbv zeta. unfold Orchestrator.iterativeRefinement.
  destruct (enableIterativeSearch config); simpl.
  - destruct (Nat.ltb_spec 1 (maxSearchIterations config)) as [Hmany|Hfew].
    + destruct (iterate_bounded config context (maxSearchIterations config)
                  env history
                  {| currentIteration := 1; allSearchResults := iterationResults |})
        as (final & _ & _ & Hrounds & Hcalls); simpl in *; [lia|lia|].
      split; lia.
    + rewrite newEvents_ret. cbv [searchRounds generationCalls]. simpl. lia.
  - rewrite newEvents_ret. cbv [searchRounds generationCalls]. simpl. lia.
Qed.

(** [search] is its three steps in sequence. *)
Lemma search_steps env history :
  exists initial history1,
    run env history (Orchestrator.initialSearch config context) = (initial, history1)
    /\ match initial with
       | inl failure =>
           run env history (Orchestrator.search config context)
           = (Some failure, history1)
       | inr iterationResults =>
           exists final history2,
             run env history1
               (Orchestrator.iterativeRefinement config context iterationResults)
             = (Some final, history2)
             /\ run env history (Orchestrator.search config context)
                = (Some (fst (run env history2
                                (Orchestrator.synthesize config context
                                   (allSearchResults final)))),
                   snd (run env history2
                          (Orchestrator.synthesize config context
                             (allSearchResults final))))
       end.
Proof.
  destruct (run env history (Orchestrator.initialSearch config context))
    as [initial history1] eqn:Hinitial.
  exists initial, history1. split; [reflexivity|].
  unfold Orchestrator.search. rewrite run_bind, Hinitial. cbn [fst snd].
  destruct initial as [failure|iterationResults]; [reflexivity|].
  destruct (run env history1
              (Orchestrator.iterativeRefinement config context iterationResults))
    as [final history2] eqn:Hloop.
  pose proof (iterativeRefinement_returns config context env history1
                iterationResults) as [st Hst].
  rewrite Hloop in Hst. simpl in Hst. subst final.
  exists st, history2. split; [reflexivity|].
  rewrite run_bind, Hloop. cbn [fst snd].
  rewrite run_bind, run_mret. reflexivity.
Qed.

End SearchFacts.

Lemma extractSources_urls (searchResponse : SearchResponse) :
  url <$> Orchestrator.extractSources searchResponse
  = link <$> items searchResponse.
Proof.
  unfold Orchestrator.extractSources. rewrite fmap_imap.
  rewrite <- (imap_const link). reflexivity.
Qed.

(** X10. Every response of [search] is well formed: either a success carrying the
    result and no error, or a failure carrying no data and an error whose
    code is one of INITIAL_SEARCH_FAILED, ORCHESTRATION_ERROR,
    NO_FINAL_RESULTS and FINAL_GENERATION_FAILED. A response is always
    returned: the loop cannot run forever. *)
Theorem search_response_well_formed
    `{JsBuiltins} `{Collaborators} (config : SearchOrchestrationConfig)
    (context : SearchContext) (env : Environment) (history : list Event) :
  match fst (run env history (Orchestrator.search config context)) with
  | Some response =>
      match usable response with
      | Some result => response = succeed result
      | None =>
          success response = false
          /\ data response = None
          /\ exists msg errorCode,
               error response = Some {| message := msg; code := errorCode |}
               /\ errorCode ∈ ["INITIAL_SEARCH_FAILED"; "ORCHESTRATION_ERROR";
                               "NO_FINAL_RESULTS"; "FINAL_GENERATION_FAILED"]
      end
  | None => False
  end.
Proof.
  destruct (search_steps config context env history)
    as (initial & history1 & Hinitial & Hrest).
  pose proof (initialSearch_outcome config context env history) as (_ & _ & Hfirst).
  rewrite Hinitial in Hfirst. cbn [fst] in Hfirst.
  destruct initial as [failure|iterationResults].
  - rewrite Hrest. cbn [fst].
    destruct Hfirst as [->|[->|[msg ->]]]; simpl;
      (repeat split; do 2 eexists; split; [reflexivity|set_solver]).
  - destruct Hrest as (final & history2 & _ & ->). cbn [fst].
    pose proof (synthesize_outcome config context env history2
                  (allSearchResults final)) as (_ & _ & Hlast).
    cbv zeta in Hlast.
    destruct (usable (fst (run env history2 _))) as [result|] eqn:Husable.
    + by destruct Hlast as [-> _].
    + destruct Hlast as [[-> _]| ->]; simpl;
        (repeat split; do 2 eexists; split; [reflexivity|set_solver]).
Qed.

(** X11. A successful [search] never answers without sources: the result cites
    at least one source and at most [maxSearchResults], no two of them share
    a URL, they are numbered 1, 2, 3, ... in order, the answer text is not
    empty, and the result echoes the query and focus mode of the request. *)
Theorem search_success_cites_sources
    `{JsBuiltins} `{Collaborators} (config : SearchOrchestrationConfig)
    (context : SearchContext) (env : Environment) (history : list Event) :
  match fst (run env history (Orchestrator.search config context)) with
  | Some response =>
      match usable response with
      | Some result =>
          1 <= length (sources result) <= maxSearchResults config
          /\ NoDup (url <$> sources result)
          /\ (forall k source,
                sources result !! k = Some source -> index source = k + 1)
          /\ answer result <> EmptyString
          /\ resultQuery result = query context
          /\ resultFocusMode result = focusMode context
      | None => True
      end
  | None => False
  end.
Proof.
  destruct (search_steps config context env history)
    as (initial & history1 & Hinitial & Hrest).
  pose proof (initialSearch_outcome config context env history) as (_ & _ & Hfirst).
  rewrite Hinitial in Hfirst. cbn [fst] in Hfirst.
  destruct initial as [failure|iterationResults].
  - rewrite Hrest. cbn [fst]. by destruct Hfirst as [->|[->|[msg ->]]].
  - destruct Hrest as (final & history2 & _ & ->). cbn [fst].
    pose proof (synthesize_outcome config context env history2
                  (allSearchResults final)) as (_ & _ & Hlast).
    cbv zeta in Hlast.
    destruct (usable (fst (run env history2 _))) as [result|]; [|done].
    destruct Hlast as (_ & Hitems & -> & Hquery & Hmode & Hanswer).
    split; [|split; [|split; [|done]]].
    + unfold Orchestrator.extractSources. rewrite length_imap.
      pose proof (aggregateResults_length config (allSearchResults final)).
      destruct (items (aggregateResults config (allSearchResults final)));
        [done|simpl in *; lia].
    + rewrite extractSources_urls. apply aggregateResults_NoDup.
    + intros k source. unfold Orchestrator.extractSources.
      rewrite list_lookup_imap.
      destruct (items _ !! k); simpl; [|done]. by intros [= <-].
Qed.

(** X12. The call budget of one [search]: at most one generation call for the
    queries, two per turn of the loop and one for the answer; at most one
    fan-out for the initial queries and one per turn of the loop; the
    loop has at most [maxSearchIterations - 1] turns, and none when iterative
    search is switched off. *)
Theorem search_call_budget
    `{JsBuiltins} `{Collaborators} (config : SearchOrchestrationConfig)
    (context : SearchContext) (env : Environment) (history : list Event) :
  let turns :=
    if enableIterativeSearch config then maxSearchIterations config - 1 else 0 in
  let initial := if enableQueryGeneration config then 1 else 0 in
  let events := newEvents env history (Orchestrator.search config context) in
  generationCalls events <= initial + 2 * turns + 1
  /\ searchRounds events <= initial + turns.
Proof.
  cbv zeta. unfold Orchestrator.search.
  rewrite newEvents_bind, generationCalls_app, searchRounds_app.
  pose proof (initialSearch_outcome config context env history)
    as (Hrounds1 & Hcalls1 & _).
  cbv zeta in Hrounds1, Hcalls1. rewrite Hrounds1, Hcalls1.
  destruct (fst (run env history (Orchestrator.initialSearch config context)))
    as [failure|iterationResults].
  { rewrite newEvents_ret. cbv [generationCalls searchRounds]. simpl. lia. }
  rewrite newEvents_bind, generationCalls_app, searchRounds_app.
  pose proof (iterativeRefinement_calls config context env
                (snd (run env history (Orchestrator.initialSearch config context)))
                iterationResults) as [Hrounds2 Hcalls2].
  cbv zeta in Hrounds2, Hcalls2.
  destruct (fst (run env _ (Orchestrator.iterativeRefinement config context
                              iterationResults))) as [final|].
  2:{ rewrite newEvents_ret. cbv [generationCalls searchRounds] in *. simpl. lia. }
  rewrite newEvents_bind, generationCalls_app, searchRounds_app, newEvents_ret.
  match goal with
  | |- context [newEvents ?env' ?h' (Orchestrator.synthesize config context ?g)] =>
      pose proof (synthesize_outcome config context env' h' g)
        as (Hrounds3 & Hcalls3 & _)
  end.
  cbv zeta in Hrounds3, Hcalls3.
  cbv [generationCalls searchRounds] in *. simpl. lia.
Qed.

Section FailureFacts.
Context `{JsBuiltins} `{Collaborators}.
Variable config : SearchOrchestrationConfig.
Variable context : SearchContext.
Implicit Types (env : Environment) (history : list Event).

Lemma searchMultipleQueries_barren env history queries :
  (forall i request,
     match onSearch env history i request with
     | Fulfilled response => usable response = None
     | Rejected _ => True
     end) ->
  Orchestrator.successfulData
    (fst (run env history (Orchestrator.searchMultipleQueries config queries context)))
  = [].
Proof.
  intros Hbarren. unfold Orchestrator.searchMultipleQueries, Orchestrator.successfulData.
  rewrite run_bind, fst_run_searchAllSettled, run_mret. cbn [fst].
  apply omap_none_nil. intros response (i & outcome & -> & Hi)%elem_of_lookup_imap.
  apply list_lookup_imap_Some in Hi as (request & _ & ->).
  specialize (Hbarren i request).
  destruct (onSearch env history i request); [exact Hbarren|reflexivity].
Qed.

End FailureFacts.

(** X13. When no search returns usable data, [search] fails with
    INITIAL_SEARCH_FAILED (or ORCHESTRATION_ERROR when the search client
    throws) straight after the initial search: apart from the query
    generation, no call is made to the model, so no analysis is run and no
    answer is generated. *)
Theorem search_fails_without_search_data
    `{JsBuiltins} `{Collaborators} (config : SearchOrchestrationConfig)
    (context : SearchContext) (env : Environment) (history : list Event)
    (Hsearch : forall h i request,
        match onSearch env h i request with
        | Fulfilled response => usable response = None
        | Rejected _ => True
        end)
    (Hfocus : forall h c n,
        match onSearchWithFocus env h c n with
        | Fulfilled response => usable response = None
        | Rejected _ => True
        end) :
  let events := newEvents env history (Orchestrator.search config context) in
  (exists msg errorCode,
     fst (run env history (Orchestrator.search config context))
     = Some (failWith msg errorCode)
     /\ errorCode ∈ ["INITIAL_SEARCH_FAILED"; "ORCHESTRATION_ERROR"])
  /\ generationCalls events = (if enableQueryGeneration config then 1 else 0)
  /\ length events = (if enableQueryGeneration config then 2 else 1).
Proof.
  cbv zeta.
  assert (Hinitial :
            exists msg errorCode,
              fst (run env history (Orchestrator.initialSearch config context))
              = inl (failWith msg errorCode)
              /\ errorCode ∈ ["INITIAL_SEARCH_FAILED"; "ORCHESTRATION_ERROR"]
              /\ generationCalls
                   (newEvents env history (Orchestrator.initialSearch config context))
                 = (if enableQueryGeneration config then 1 else 0)
              /\ length (newEvents env history
                           (Orchestrator.initialSearch config context))
                 = (if enableQueryGeneration config then 2 else 1)).
  { unfold Orchestrator.initialSearch.
    destruct (enableQueryGeneration config).
    - rewrite !run_bind, !newEvents_bind.
      rewrite (searchMultipleQueries_barren config context) by apply Hsearch.
      cbn [length Nat.eqb]. rewrite run_mret, newEvents_ret. cbn [fst].
      do 2 eexists. split; [reflexivity|]. split; [set_solver|].
      match goal with
      | |- context [newEvents ?env' ?h' (Orchestrator.searchMultipleQueries config ?qs context)] =>
          destruct (searchMultipleQueries_calls config env' h' qs context)
            as (requests & outcomes & ->)
      end.
      unfold Orchestrator.generateSearchQueries. cbv zeta.
      rewrite newEvents_bind, newEvents_generateContent.
      destruct (usable _); [destruct (generatedTextOf _)|];
        rewrite newEvents_ret; by cbv.
    - rewrite run_bind, newEvents_bind, newEvents_searchWithFocus,
        fst_run_searchWithFocus.
      specialize (Hfocus history context (maxSearchResults config)).
      destruct (onSearchWithFocus env history context (maxSearchResults config))
        as [searchResponse|].
      + rewrite Hfocus, run_mret, newEvents_ret. cbn [fst].
        do 2 eexists. split; [reflexivity|]. split; [set_solver|by cbv].
      + rewrite run_mret, newEvents_ret. cbn [fst].
        do 2 eexists. split; [reflexivity|]. split; [set_solver|by cbv]. }
  destruct Hinitial as (msg & errorCode & Hfailure & Hcode & Hcalls & Hlength).
  unfold Orchestrator.search. rewrite run_bind, newEvents_bind, Hfailure.
  rewrite run_mret, newEvents_ret, app_nil_r. cbn [fst].
  split; [by exists msg, errorCode|]. split; [exact Hcalls|exact Hlength].
Qed.

Lemma search_fails_without_search_data_witness :
  fst (run Sample.barrenEnvironment []
         (@Orchestrator.search Sample.builtins Sample.collaborators
            defaultConfig Sample.context))
  = Some (failWith "All initial search queries failed" "INITIAL_SEARCH_FAILED")
  /\ generationCalls
       (newEvents Sample.barrenEnvironment []
          (@Orchestrator.search Sample.builtins Sample.collaborators
             defaultConfig Sample.context))
     = 1.
Proof.
  split; [reflexivity|].
  refine (proj1 (proj2 (@search_fails_without_search_data Sample.builtins
                          Sample.collaborators defaultConfig Sample.context
                          Sample.barrenEnvironment [] _ _))).
  - intros h i request. exact I.
  - intros h c n. reflexivity.
Defined.

(** X14. When the query generation fails or yields no text, [search] falls back
    to the user's own query: its initial fan-out is a single request for that
    query, asking for all [maxSearchResults] results. *)
Theorem search_falls_back_to_original_query
    `{JsBuiltins} `{Collaborators} (config : SearchOrchestrationConfig)
    (context : SearchContext) (env : Environment) (history : list Event)
    (Henabled : enableQueryGeneration config = true)
    (Hfailed :
       usable (onGenerateContent env history
                 (buildQueryGenerationPrompt config context)
                 {| temperature := 3 # 10; maxOutputTokens := 1024 |})
       ≫= generatedTextOf = None) :
  exists generated outcomes rest,
    newEvents env history (Orchestrator.search config context)
    = generated
      :: SearchedAll [{| searchQuery := query context;
                         num := maxSearchResults config;
                         searchLanguage := language context;
                         searchRegion := region context |}]
                     outcomes
      :: rest
    /\ isGenerated generated = true.
Proof.
  assert (Hevents :
            newEvents env history (Orchestrator.generateSearchQueries config context)
            = [Generated (buildQueryGenerationPrompt config context)
                 {| temperature := 3 # 10; maxOutputTokens := 1024 |}
                 (onGenerateContent env history
                    (buildQueryGenerationPrompt config context)
                    {| temperature := 3 # 10; maxOutputTokens := 1024 |})]).
  { unfold Orchestrator.generateSearchQueries. cbv zeta.
    rewrite newEvents_bind, newEvents_generateContent.
    destruct (usable _); [destruct (generatedTextOf _)|];
      by rewrite newEvents_ret. }
  assert (Hnone :
            usable (fst (run env history
                           (Orchestrator.generateSearchQueries config context)))
            = None).
  { unfold Orchestrator.generateSearchQueries. cbv zeta.
    rewrite run_bind, fst_run_generateContent.
    destruct (usable (onGenerateContent _ _ _ _)) as [body|]; [|reflexivity].
    simpl in Hfailed. by rewrite Hfailed. }
  unfold Orchestrator.search. rewrite newEvents_bind.
  unfold Orchestrator.initialSearch at 1. rewrite Henabled.
  rewrite newEvents_bind, Hevents, Hnone, newEvents_bind.
  unfold Orchestrator.searchMultipleQueries at 1.
  rewrite newEvents_bind, newEvents_searchAllSettled.
  cbn [length fmap list_fmap]. unfold Orchestrator.ceilDiv.
  rewrite Nat.add_sub, Nat.div_1_r. cbn [app].
  do 3 eexists. split; reflexivity.
Qed.

Lemma search_falls_back_to_original_query_witness :
  exists generated outcomes rest,
    newEvents (Sample.environment (failWith "Quota exceeded" "429")
                                  (fun q => [Sample.item q]))
              []
              (@Orchestrator.search Sample.builtins Sample.collaborators
                 defaultConfig Sample.context)
    = generated
      :: SearchedAll [{| searchQuery := query Sample.context;
                         num := 10;
                         searchLanguage := None;
                         searchRegion := None |}]
                     outcomes
      :: rest
    /\ isGenerated generated = true.
Proof.
  exact (@search_falls_back_to_original_query Sample.builtins
           Sample.collaborators defaultConfig Sample.context
           (Sample.environment (failWith "Quota exceeded" "429")
                               (fun q => [Sample.item q]))
           [] eq_refl eq_refl).
Defined.

(** ** What the loop keeps and when it must stop *)

Section GatheringFacts.
Context `{JsBuiltins} `{Collaborators}.
Variable config : SearchOrchestrationConfig.
Variable context : SearchContext.
Implicit Types (env : Environment) (history : list Event) (st : LoopState).

(** A turn of the loop leaves the gathered batches alone or appends the
    data of this round's successful searches. *)
Lemma iteration_appends env history st :
  exists newResults,
    allSearchResults (snd (fst (run env history
                                  (Orchestrator.iteration config context st))))
    = allSearchResults st ++ newResults.
Proof.
  unfold Orchestrator.iteration. rewrite run_bind.
  destruct (usable (fst (run env history _))) as [analysis|];
    [|exists []; by rewrite run_mret, app_nil_r].
  destruct (negb (needsMoreSearch analysis) || _);
    [exists []; by rewrite run_mret, app_nil_r|].
  destruct (Nat.eqb (length (informationGaps analysis)) 0);
    [exists []; by rewrite run_mret, app_nil_r|].
  rewrite run_bind.
  destruct (usable (fst (run env _ (Orchestrator.generateFollowupQueries _ _ _))))
    as [followupQueries|];
    [|exists []; by rewrite run_mret, app_nil_r].
  destruct (Nat.eqb (length followupQueries) 0);
    [exists []; by rewrite run_mret, app_nil_r|].
  rewrite run_bind.
  destruct (Nat.eqb (length (Orchestrator.successfulData _)) 0);
    [exists []; by rewrite run_mret, app_nil_r|].
  destruct (Orchestrator.diminishingReturns _ _ _);
    rewrite run_mret; eexists; reflexivity.
Qed.

Lemma iterate_appends (fuel : nat) : forall env history st final,
  fst (run env history (Orchestrator.iterate config fuel context st)) = Some final ->
  allSearchResults st `prefix_of` allSearchResults final.
Proof.
  induction fuel as [|fuel IH]; intros env history st final; simpl;
    destruct (Nat.ltb (currentIteration st) (maxSearchIterations config));
    try (rewrite run_mret; by intros [= <-]).
  rewrite run_bind.
  destruct (iteration_appends env history st) as [newResults Hnew].
  destruct (fst (run env history (Orchestrator.iteration config context st)))
    as [signal next].
  simpl in Hnew. destruct signal.
  - rewrite run_mret. intros [= <-]. rewrite Hnew. by apply prefix_app_r.
  - intros Hfinal%IH. rewrite Hnew in Hfinal.
    etrans; [|exact Hfinal]. by apply prefix_app_r.
Qed.

(** A turn that starts with at least [maxSearchResults] gathered items,
    duplicates included, always ends the loop: the diminishing-returns test
    compares the capped unique count with that raw count. *)
Lemma iteration_breaks_when_full env history st :
  maxSearchResults config <= Orchestrator.countItems (allSearchResults st) ->
  fst (fst (run env history (Orchestrator.iteration config context st))) = Break.
Proof.
  intros Hfull. unfold Orchestrator.iteration. rewrite run_bind.
  destruct (usable (fst (run env history _))) as [analysis|];
    [|by rewrite run_mret].
  destruct (negb (needsMoreSearch analysis) || _); [by rewrite run_mret|].
  destruct (Nat.eqb (length (informationGaps analysis)) 0); [by rewrite run_mret|].
  rewrite run_bind.
  destruct (usable (fst (run env _ (Orchestrator.generateFollowupQueries _ _ _))))
    as [followupQueries|]; [|by rewrite run_mret].
  destruct (Nat.eqb (length followupQueries) 0); [by rewrite run_mret|].
  rewrite run_bind.
  destruct (Nat.eqb (length (Orchestrator.successfulData _)) 0);
    [by rewrite run_mret|].
  rewrite diminishingReturns_raw_count, <- countItems_flat.
  rewrite (proj2 (Nat.leb_le _ _)); [by rewrite run_mret|].
  etrans; [apply aggregateResults_length|exact Hfull].
Qed.

End GatheringFacts.

(** X15. The loop never loses a batch: the batches of the initial search are a
    prefix of the batches the loop hands to the final aggregation. *)
Theorem iterativeRefinement_keeps_gathered_batches
    `{JsBuiltins} `{Collaborators} (config : SearchOrchestrationConfig)
    (context : SearchContext) (env : Environment) (history : list Event)
    (iterationResults : list SearchResponse) :
  match fst (run env history
               (Orchestrator.iterativeRefinement config context iterationResults)) with
  | Some final => iterationResults `prefix_of` allSearchResults final
  | None => False
  end.
Proof.
  destruct (iterativeRefinement_returns config context env history iterationResults)
    as [final Hfinal].
  rewrite Hfinal. revert Hfinal. unfold Orchestrator.iterativeRefinement.
  destruct (enableIterativeSearch config && _).
  - intros Hfinal%iterate_appends. exact Hfinal.
  - rewrite run_mret. by intros [= <-].
Qed.

(** X16. Once the gathered batches hold [maxSearchResults] items or more,
    duplicates included, the loop cannot go on: whatever
    [maxSearchIterations] allows, it performs at most one follow-up search
    round and two generation calls, and it ends with its counter still at 1.
    With the default limit of 10 this is the case as soon as the initial
    queries return ten items between them. *)
Theorem full_batches_end_refinement
    `{JsBuiltins} `{Collaborators} (config : SearchOrchestrationConfig)
    (context : SearchContext) (env : Environment) (history : list Event)
    (iterationResults : list SearchResponse)
    (Hfull : maxSearchResults config <= Orchestrator.countItems iterationResults) :
  let events :=
    newEvents env history
      (Orchestrator.iterativeRefinement config context iterationResults) in
  searchRounds events <= 1
  /\ generationCalls events <= 2
  /\ exists final,
       fst (run env history
              (Orchestrator.iterativeRefinement config context iterationResults))
       = Some final
       /\ currentIteration final = 1.
Proof.
  cbv zeta. unfold Orchestrator.iterativeRefinement.
  destruct (enableIterativeSearch config && _) eqn:Hloop.
  2:{ rewrite newEvents_ret, run_mret. cbv [searchRounds generationCalls]. simpl.
      repeat split; [lia|lia|]. by eexists. }
  apply andb_true_iff in Hloop as [_ Hmany%Nat.ltb_lt].
  destruct (maxSearchIterations config) as [|fuel] eqn:Hmax; [lia|].
  cbn [Orchestrator.iterate]. rewrite Hmax.
  cbn [currentIteration]. rewrite (proj2 (Nat.ltb_lt 1 (S fuel))) by lia.
  rewrite newEvents_bind, run_bind.
  set (st := {| currentIteration := 1; allSearchResults := iterationResults |}).
  pose proof (iteration_step config context env history st)
    as (Hrounds & Hcalls & Hcounter).
  pose proof (iteration_breaks_when_full config context env history st Hfull)
    as Hbreak.
  destruct (fst (run env history (Orchestrator.iteration config context st)))
    as [signal next].
  simpl in Hbreak, Hcounter. subst signal.
  rewrite newEvents_ret, app_nil_r, run_mret. cbn [fst].
  split; [exact Hrounds|]. split; [exact Hcalls|].
  exists next. split; [reflexivity|exact Hcounter].
Qed.

Lemma full_batches_end_refinement_witness :
  maxSearchResults (Sample.iterativeConfig 5)
  <= Orchestrator.countItems
       [Sample.batch (Sample.item <$> ["a"; "b"; "c"; "d"; "e"]);
        Sample.batch (Sample.item <$> ["f"; "g"; "h"; "i"; "j"])]
  /\ searchRounds
       (newEvents (Sample.environment (Sample.reply "1. tides")
                                      (fun q => [Sample.item q]))
                  []
                  (@Orchestrator.iterativeRefinement Sample.builtins
                     Sample.collaborators (Sample.iterativeConfig 5) Sample.context
                     [Sample.batch (Sample.item <$> ["a"; "b"; "c"; "d"; "e"]);
                      Sample.batch (Sample.item <$> ["f"; "g"; "h"; "i"; "j"])]))
     <= 1.
Proof.
  assert (Hfull : maxSearchResults (Sample.iterativeConfig 5)
                  <= Orchestrator.countItems
                       [Sample.batch (Sample.item <$> ["a"; "b"; "c"; "d"; "e"]);
                        Sample.batch (Sample.item <$> ["f"; "g"; "h"; "i"; "j"])])
    by (vm_compute; lia).
  split; [exact Hfull|].
  exact (proj1 (@full_batches_end_refinement Sample.builtins Sample.collaborators
                  (Sample.iterativeConfig 5) Sample.context
                  (Sample.environment (Sample.reply "1. tides")
                                      (fun q => [Sample.item q]))
                  [] _ Hfull)).
Defined.

(** ** GeminiClient.generateSearchAnswer *)

(** X17. [generateSearchAnswer] makes exactly one generation call. It succeeds
    only with a non-empty text, the first part of the first candidate of the
    model's response; otherwise it fails without data, passing on the error
    of the generation call when there is one, with GENERATION_FAILED when the
    call failed without one and with NO_CONTENT when the response holds no
    text. *)
Theorem generateSearchAnswer_outcomes
    `{Collaborators} (context : SearchContext) (searchResults : list string)
    (options : GenerationOptions) (env : Environment) (history : list Event) :
  let prompt := buildAnswerPrompt context searchResults in
  let reply := onGenerateContent env history prompt options in
  let response :=
    fst (run env history
           (Orchestrator.generateSearchAnswer context searchResults options)) in
  newEvents env history
    (Orchestrator.generateSearchAnswer context searchResults options)
  = [Generated prompt options reply]
  /\ match usable response with
     | Some answerText =>
         response = succeed answerText
         /\ answerText <> EmptyString
         /\ exists body, usable reply = Some body
                         /\ generatedTextOf body = Some answerText
     | None =>
         success response = false
         /\ data response = None
         /\ match usable reply with
            | Some _ => error response
                        = Some {| message := "No content generated";
                                  code := "NO_CONTENT" |}
            | None =>
                error response
                = Some (default {| message := "Failed to generate content";
                                   code := "GENERATION_FAILED" |}
                                (error reply))
            end
     end.
Proof.
  cbv zeta. split.
  - unfold Orchestrator.generateSearchAnswer.
    rewrite newEvents_bind, newEvents_generateContent, fst_run_generateContent.
    destruct (usable _); [destruct (generatedTextOf _)|];
      by rewrite newEvents_ret.
  - unfold Orchestrator.generateSearchAnswer.
    rewrite run_bind, fst_run_generateContent.
    destruct (usable (onGenerateContent _ _ _ _)) as [body|] eqn:Hbody.
    + destruct (generatedTextOf body) as [generatedText|] eqn:Htext;
        rewrite run_mret; simpl.
      * split; [reflexivity|]. split; [|by exists body].
        unfold generatedTextOf in Htext.
        destruct (head (candidates body)) as [candidate|]; [|done].
        destruct (head (parts (content candidate))) as [part|]; [|done].
        destruct (text part) eqn:Hpart; simpl in Htext; [done|].
        by injection Htext as <-.
      * done.
    + rewrite run_mret. simpl. done.
Qed.

(** ** Streaming: the reader of [streamContent] *)

Section StreamFacts.
Context `{JsBuiltins}.
Import JsString Streaming.

Lemma split_nonempty (sep : ascii) (s : string) : split sep s <> [].
Proof.
  destruct s as [|c s]; simpl; [done|].
  destruct (Ascii.eqb c sep); [done|]. by destruct (split sep s).
Qed.

(** Splitting a text that continues: the complete pieces of the first part
    stay as they are, and its last piece is continued. *)
Lemma split_app (sep : ascii) (s v : string) :
  split sep (s +:+ v)
  = removelast (split sep s)
    ++ split sep (default EmptyString (last (split sep s)) +:+ v).
Proof.
  induction s as [|c s IH]; [reflexivity|].
  rewrite append_cons. cbn [split].
  pose proof (split_nonempty sep s) as Hne.
  destruct (split sep s) as [|p ps] eqn:Hs; [done|]. clear Hne.
  destruct (Ascii.eqb c sep) eqn:Hc.
  - rewrite IH. reflexivity.
  - rewrite IH. destruct ps as [|q qs].
    + simpl. by rewrite Hc.
    + reflexivity.
Qed.

(** The last piece of a split holds no separator. *)
Lemma split_last_clean (sep : ascii) (s b : string) :
  last (split sep s) = Some b -> split sep b = [b].
Proof.
  revert b. induction s as [|c s IH]; intros b; cbn [split].
  - by intros [= <-].
  - pose proof (split_nonempty sep s) as Hne.
    destruct (split sep s) as [|p ps] eqn:Hs; [done|]. clear Hne.
    destruct (Ascii.eqb c sep) eqn:Hc.
    + intros Hb. apply IH. exact Hb.
    + destruct ps as [|q qs].
      * intros [= <-]. cbn [split]. rewrite Hc, (IH p eq_refl). reflexivity.
      * intros Hb. apply IH. exact Hb.
Qed.

Lemma processLines_app (l1 l2 : list string) :
  processLines (l1 ++ l2)
  = if snd (processLines l1) then (fst (processLines l1), true)
    else (fst (processLines l1) ++ fst (processLines l2),
          snd (processLines l2)).
Proof.
  induction l1 as [|line l1 IH]; simpl.
  - by destruct (processLines l2).
  - destruct (processLine line); [exact IH|..|reflexivity].
    rewrite IH. destruct (processLines l1) as [texts finished]. simpl.
    destruct finished; [reflexivity|]. by destruct (processLines l2).
Qed.

(** The reader, read off the whole stream: with a buffer that holds no
    line feed, it processes the complete lines of the buffer followed by all
    the chunks. *)
Lemma readLoop_whole_stream (ending : ReadEnd) (chunks : list string) :
  forall buffer,
    split LF buffer = [buffer] ->
    readLoop buffer chunks ending
    = let complete :=
        removelast (split LF (buffer +:+ foldr append EmptyString chunks)) in
      {| yielded := fst (processLines complete);
         threw := negb (snd (processLines complete))
                  && match ending with EndOfStream => false | ReadFailed => true end |}.
Proof.
  induction chunks as [|value rest IH]; intros buffer Hclean; cbv zeta.
  - cbn [foldr readLoop]. rewrite append_empty_r, Hclean. reflexivity.
  - cbn [foldr readLoop].
    rewrite <- append_assoc, (split_app LF (buffer +:+ value)).
    pose proof (split_nonempty LF (buffer +:+ value)) as Hne.
    destruct (last (split LF (buffer +:+ value))) as [kept|] eqn:Hlast.
    2:{ apply last_None in Hlast. done. }
    change (default EmptyString (Some kept)) with kept.
    rewrite removelast_app by apply split_nonempty.
    rewrite processLines_app.
    rewrite (IH kept (split_last_clean _ _ _ Hlast)). cbv zeta.
    destruct (processLines (removelast (split LF (buffer +:+ value))))
      as [texts finished].
    cbn [fst snd]. destruct finished; reflexivity.
Qed.

End StreamFacts.

(** X18. What [streamContent] yields does not depend on how the network cuts the
    response into chunks: it is what the complete lines of the whole stream
    yield, in order, up to the first [[DONE]] line. The last line counts
    only if a line feed ends it, so a stream without a line feed yields
    nothing; and the generator throws exactly when a read fails before
    [[DONE]] was met. *)
Theorem streamContent_independent_of_chunking
    `{JsBuiltins} (chunks : list string) (ending : Streaming.ReadEnd) :
  let whole := foldr append EmptyString chunks in
  let complete := removelast (JsString.split JsString.LF whole) in
  Streaming.streamContent (Streaming.Reading chunks ending)
  = {| Streaming.yielded := fst (Streaming.processLines complete);
       Streaming.threw :=
         negb (snd (Streaming.processLines complete))
         && match ending with
            | Streaming.EndOfStream => false
            | Streaming.ReadFailed => true
            end |}
  /\ (forall chunks',
        foldr append EmptyString chunks' = whole ->
        Streaming.streamContent (Streaming.Reading chunks' ending)
        = Streaming.streamContent (Streaming.Reading chunks ending))
  /\ (JsString.split JsString.LF whole = [whole] ->
      Streaming.yielded (Streaming.streamContent (Streaming.Reading chunks ending))
      = []).
Proof.
  cbv zeta.
  assert (Hspec : forall l,
            Streaming.streamContent (Streaming.Reading l ending)
            = {| Streaming.yielded :=
                   fst (Streaming.processLines
                          (removelast (JsString.split JsString.LF
                                         (foldr append EmptyString l))));
                 Streaming.threw :=
                   negb (snd (Streaming.processLines
                                (removelast (JsString.split JsString.LF
                                               (foldr append EmptyString l)))))
                   && match ending with
                      | Streaming.EndOfStream => false
                      | Streaming.ReadFailed => true
                      end |}).
  { intros l. unfold Streaming.streamContent.
    by rewrite readLoop_whole_stream. }
  split; [apply Hspec|]. split.
  - intros chunks' Hsame. by rewrite !Hspec, Hsame.
  - intros Hclean. by rewrite Hspec, Hclean.
Qed.

(** ** Streaming: the events of [searchStream] *)

Section ProtocolFacts.
Import Streaming.

Lemma accepts_chunks (texts : list jsval) (final : StreamEvent) :
  accepts Answering [final] = true ->
  accepts Answering ((AnswerChunk <$> texts) ++ [final]) = true.
Proof. intros Hfinal. induction texts as [|t texts IH]; [exact Hfinal|exact IH]. Qed.

(** A sequence of events the protocol accepts ends with its only terminal
    event. *)
Lemma accepts_ends_closed (events : list StreamEvent) : forall phase,
  accepts phase events = true ->
  phase <> Closed ->
  exists body final,
    events = body ++ [final]
    /\ match final with AnswerComplete | StreamError _ _ => True | _ => False end
    /\ Forall (fun event =>
                 match event with
                 | AnswerComplete | StreamError _ _ => False
                 | _ => True
                 end) body.
Proof.
  induction events as [|event rest IH]; intros phase Haccepts Hopen.
  - by destruct phase.
  - cbn [accepts] in Haccepts.
    destruct (advance phase event) as [next|] eqn:Hnext; [|done].
    assert (Hcases : next = Closed \/ next <> Closed)
      by (destruct next; auto; right; discriminate).
    destruct Hcases as [->|Hstill].
    + destruct rest as [|event' rest]; [|by destruct event'].
      exists [], event. split; [reflexivity|]. split; [|constructor].
      destruct phase, event; try done.
    + destruct (IH next Haccepts Hstill) as (body & final & -> & Hfinal & Hbody).
      exists (event :: body), final. split; [reflexivity|]. split; [exact Hfinal|].
      constructor; [|exact Hbody].
      destruct phase, event; try done; simpl in Hnext;
        repeat case_match; by simplify_eq.
Qed.

End ProtocolFacts.

(** X19. [searchStream] keeps to its protocol whatever the search client and the
    model do, also when the search call is rejected or the content
    extraction throws: the first event announces the search of the query;
    sources come next, the answer start after them and answer chunks only
    after that; the stream ends with exactly one terminal event,
    [answer_complete] or an error, after which nothing is emitted; and an
    error carries STREAM_ERROR or the code of the phase it ends:
    SEARCH_FAILED before the sources, NO_RESULTS after them,
    GENERATION_FAILED once the answer has started. When the extraction
    throws, the events are the search, the sources and a STREAM_ERROR with
    the message of the error. *)
Theorem searchStream_follows_protocol
    `{JsBuiltins} `{Collaborators}
    (buildSearchPrompt : SearchContext -> list string -> string)
    (config : SearchOrchestrationConfig) (context : SearchContext)
    (env : Streaming.StreamEnvironment) :
  let events := Streaming.searchStream buildSearchPrompt config context env in
  Streaming.accepts Streaming.Idle events = true
  /\ head events = Some (Streaming.SearchStarted (query context))
  /\ (exists body final,
       events = body ++ [final]
       /\ match final with
          | Streaming.AnswerComplete | Streaming.StreamError _ _ => True
          | _ => False
          end
       /\ Forall (fun event =>
                    match event with
                    | Streaming.AnswerComplete | Streaming.StreamError _ _ => False
                    | _ => True
                    end) body)
  /\ (forall searchResponse body thrown,
        Streaming.onStreamSearch env context (maxSearchResults config)
        = Resolved searchResponse ->
        usable searchResponse = Some body ->
        Streaming.extractionFault env body = Some thrown ->
        events = [Streaming.SearchStarted (query context);
                  Streaming.SourcesFound (Orchestrator.extractSources body);
                  Streaming.StreamError thrown "STREAM_ERROR"]).
Proof.
  cbv zeta.
  assert (Haccepts :
            Streaming.accepts Streaming.Idle
              (Streaming.searchStream buildSearchPrompt config context env) = true).
  { unfold Streaming.searchStream. cbn [Streaming.accepts Streaming.advance].
    destruct (Streaming.onStreamSearch env context (maxSearchResults config))
      as [searchResponse|reason]; [|reflexivity].
    destruct (usable searchResponse) as [body|]; [|reflexivity].
    cbn [Streaming.accepts Streaming.advance].
    destruct (Streaming.extractionFault env body) as [thrown|]; [reflexivity|].
    destruct (Nat.eqb (length (extractContentForSynthesis body)) 0);
      [reflexivity|].
    cbn [Streaming.accepts Streaming.advance].
    apply accepts_chunks. by destruct (Streaming.threw _). }
  split; [exact Haccepts|]. split; [reflexivity|].
  split; [by apply (accepts_ends_closed _ Streaming.Idle)|].
  intros searchResponse body thrown Hsearch Hbody Hfault.
  unfold Streaming.searchStream. by rewrite Hsearch, Hbody, Hfault.
Qed.

(** ** Key utilities *)


Section ValidatorFacts.
Context `{JsBuiltins}.
Variable typeErrorMessage : string -> string.
Variable parseInt : jsval -> Awaited number.
Variable network : KeyUtils.Request -> Awaited KeyUtils.HttpResponse.
Import KeyUtils.

Lemma perform_andThen {A B : Type} (m : Http A) (f : A -> Http B) :
  perform network (andThen m f)
  = (fst (perform network (f (fst (perform network m)))),
     snd (perform network m)
     ++ snd (perform network (f (fst (perform network m))))).
Proof.
  induction m as [a|request k IH]; simpl.
  - by destruct (perform network (f a)).
  - rewrite IH. destruct (perform network (k (network request))) as [a sent].
    reflexivity.
Qed.

(** The Gemini validator: a request is sent only for a key that is not
    blank and starts with "AIza"; the key is reported valid only when that
    request was answered with an [ok] response; and a result is valid
    exactly when it carries no error. *)
Lemma validateGeminiKey_outcome (apiKey : string) :
  let '(result, sent) :=
    perform network (validateGeminiKey typeErrorMessage apiKey) in
  sent = (if negb (blank apiKey) && JsString.startsWith apiKey "AIza"
          then [GeminiTest apiKey] else [])
  /\ (isValid result = true ->
      sent = [GeminiTest apiKey]
      /\ exists response,
           network (GeminiTest apiKey) = Resolved response /\ ok response = true)
  /\ isValid result = negb (bool_decide (is_Some (validationError result))).
Proof.
  unfold validateGeminiKey.
  destruct (blank apiKey); simpl; [by repeat split|].
  destruct (JsString.startsWith apiKey "AIza"); simpl; [|by repeat split].
  destruct (network (GeminiTest apiKey)) as [response|reason] eqn:Hnet; simpl;
    [|by repeat split].
  destruct (ok response) eqn:Hok; simpl.
  - repeat split. by exists response.
  - destruct (requestError response); simpl; by repeat split.
Qed.

Lemma validateCustomSearchKey_outcome (apiKey searchEngineId : string) :
  let '(result, sent) :=
    perform network
      (validateCustomSearchKey typeErrorMessage parseInt apiKey searchEngineId) in
  sent = (if negb (blank apiKey) && negb (blank searchEngineId)
             && JsString.startsWith apiKey "AIza"
          then [CustomSearchTest apiKey searchEngineId] else [])
  /\ (isValid result = true ->
      sent = [CustomSearchTest apiKey searchEngineId]
      /\ exists response,
           network (CustomSearchTest apiKey searchEngineId) = Resolved response
           /\ ok response = true)
  /\ isValid result = negb (bool_decide (is_Some (validationError result))).
Proof.
  unfold validateCustomSearchKey.
  destruct (blank apiKey); simpl; [by repeat split|].
  destruct (blank searchEngineId); simpl; [by repeat split|].
  destruct (JsString.startsWith apiKey "AIza"); simpl; [|by repeat split].
  destruct (network (CustomSearchTest apiKey searchEngineId))
    as [response|reason] eqn:Hnet; simpl; [|by repeat split].
  destruct (ok response) eqn:Hok; simpl.
  - destruct (json response) as [payload|reason]; simpl; [|by repeat split].
    destruct (quotaOf typeErrorMessage parseInt payload); simpl;
      [|by repeat split].
    repeat split. by exists response.
  - destruct (Nat.eqb (status response) 429); simpl; [by repeat split|].
    destruct (requestError response); simpl; by repeat split.
Qed.

End ValidatorFacts.

(** X21. [validateAllKeys] never sends a key that is blank or lacks the "AIza"
    prefix over the network: each validator sends its one request only for a
    well-formed key (and, for the search key, a search engine id that is not
    blank), the Gemini request first. The overall verdict is positive only
    when both requests were sent and both were answered with an [ok]
    response; and each of the two results is valid exactly when it carries
    no error. *)
Theorem validateAllKeys_sends_only_well_formed_keys
    `{JsBuiltins} (typeErrorMessage : string -> string)
    (parseInt : jsval -> Awaited number)
    (network : KeyUtils.Request -> Awaited KeyUtils.HttpResponse)
    (geminiKey customSearchKey searchEngineId : string) :
  let outcome :=
    KeyUtils.perform network
      (KeyUtils.validateAllKeys typeErrorMessage parseInt
         geminiKey customSearchKey searchEngineId) in
  let result := fst outcome in
  let sent := snd outcome in
  sent
  = (if negb (KeyUtils.blank geminiKey) && JsString.startsWith geminiKey "AIza"
     then [KeyUtils.GeminiTest geminiKey] else [])
    ++ (if negb (KeyUtils.blank customSearchKey)
           && negb (KeyUtils.blank searchEngineId)
           && JsString.startsWith customSearchKey "AIza"
        then [KeyUtils.CustomSearchTest customSearchKey searchEngineId] else [])
  /\ (KeyUtils.overall result = true ->
      sent = [KeyUtils.GeminiTest geminiKey;
              KeyUtils.CustomSearchTest customSearchKey searchEngineId]
      /\ (exists response,
            network (KeyUtils.GeminiTest geminiKey) = Resolved response
            /\ KeyUtils.ok response = true)
      /\ (exists response,
            network (KeyUtils.CustomSearchTest customSearchKey searchEngineId)
            = Resolved response
            /\ KeyUtils.ok response = true))
  /\ KeyUtils.overall result
     = KeyUtils.isValid (KeyUtils.gemini result)
       && KeyUtils.isValid (KeyUtils.customSearch result)
  /\ KeyUtils.isValid (KeyUtils.gemini result)
     = negb (bool_decide (is_Some (KeyUtils.validationError (KeyUtils.gemini result))))
  /\ KeyUtils.isValid (KeyUtils.customSearch result)
     = negb (bool_decide
               (is_Some (KeyUtils.validationError (KeyUtils.customSearch result)))).
Proof.
  cbv zeta. unfold KeyUtils.validateAllKeys.
  rewrite !perform_andThen. cbn [fst snd KeyUtils.perform]. rewrite app_nil_r.
  pose proof (validateGeminiKey_outcome typeErrorMessage network geminiKey) as Hg.
  pose proof (validateCustomSearchKey_outcome typeErrorMessage parseInt network
                customSearchKey searchEngineId) as Hc.
  destruct (KeyUtils.perform network
              (KeyUtils.validateGeminiKey typeErrorMessage geminiKey))
    as [geminiResult sentG].
  destruct (KeyUtils.perform network
              (KeyUtils.validateCustomSearchKey typeErrorMessage parseInt
                 customSearchKey searchEngineId))
    as [customResult sentC].
  destruct Hg as (HsentG & HvalidG & HerrorG).
  destruct Hc as (HsentC & HvalidC & HerrorC).
  cbn [fst snd KeyUtils.gemini KeyUtils.customSearch KeyUtils.overall].
  split; [by rewrite HsentG, HsentC|].
  split; [|split; [reflexivity|split; [exact HerrorG|exact HerrorC]]].
  intros [Hg Hc]%andb_true_iff.
  destruct (HvalidG Hg) as [-> HokG]. destruct (HvalidC Hc) as [-> HokC].
  by repeat split.
Qed.

(** ** The stop conditions of a turn *)

(** X22. A turn whose analysis reports that no more search is needed, or a
    completeness that reaches the threshold, or no information gap, ends
    the loop at once: the gathered batches and the counter are left as they
    were, and the turn makes no call besides that of the analysis, so no
    follow-up query is generated and no search is run. *)
Theorem iteration_stops_when_complete
    `{JsBuiltins} `{Collaborators} (config : SearchOrchestrationConfig)
    (context : SearchContext) (env : Environment) (history : list Event)
    (st : LoopState) (analysis : ResultAnalysis)
    (Hanalysis :
       usable (fst (run env history
                      (Orchestrator.analyzeSearchResults config context
                         (allSearchResults st))))
       = Some analysis)
    (Hcomplete :
       needsMoreSearch analysis = false
       \/ JsNumber.geb (completeness analysis) (completenessThreshold config) = true
       \/ informationGaps analysis = []) :
  fst (run env history (Orchestrator.iteration config context st)) = (Break, st)
  /\ newEvents env history (Orchestrator.iteration config context st)
     = newEvents env history
         (Orchestrator.analyzeSearchResults config context (allSearchResults st))
  /\ searchRounds (newEvents env history (Orchestrator.iteration config context st))
     = 0
  /\ generationCalls (newEvents env history (Orchestrator.iteration config context st))
     <= 1.
Proof.
  pose proof (analyzeSearchResults_calls config env history context
                (allSearchResults st)) as [Hrounds Hcalls].
  assert (Hturn :
            fst (run env history (Orchestrator.iteration config context st))
            = (Break, st)
            /\ newEvents env history (Orchestrator.iteration config context st)
               = newEvents env history
                   (Orchestrator.analyzeSearchResults config context
                      (allSearchResults st))).
  { unfold Orchestrator.iteration. rewrite run_bind, newEvents_bind, Hanalysis.
    destruct Hcomplete as [Hneeds|[Hreached|Hgaps]].
    - rewrite Hneeds. cbn [negb orb].
      by rewrite run_mret, newEvents_ret, app_nil_r.
    - rewrite Hreached, orb_true_r.
      by rewrite run_mret, newEvents_ret, app_nil_r.
    - destruct (negb (needsMoreSearch analysis) || _);
        [by rewrite run_mret, newEvents_ret, app_nil_r|].
      rewrite Hgaps. cbn [length Nat.eqb].
      by rewrite run_mret, newEvents_ret, app_nil_r. }
  destruct Hturn as [Hresult Hevents].
  split; [exact Hresult|]. split; [exact Hevents|].
  rewrite Hevents. split; [exact Hrounds|exact Hcalls].
Qed.

Lemma iteration_stops_when_complete_witness :
  fst (run (Sample.environment (Sample.reply "1. unused") (fun q => [Sample.item q]))
           []
           (@Orchestrator.iteration Sample.builtins Sample.collaborators
              Sample.lenientConfig Sample.context
              {| currentIteration := 1; allSearchResults := [Sample.batch []] |}))
  = (Break, {| currentIteration := 1; allSearchResults := [Sample.batch []] |})
  /\ generationCalls
       (newEvents (Sample.environment (Sample.reply "1. unused")
                                      (fun q => [Sample.item q]))
                  []
                  (@Orchestrator.iteration Sample.builtins Sample.collaborators
                     Sample.lenientConfig Sample.context
                     {| currentIteration := 1;
                        allSearchResults := [Sample.batch []] |}))
     <= 1.
Proof.
  destruct (@iteration_stops_when_complete Sample.builtins Sample.collaborators
              Sample.lenientConfig Sample.context
              (Sample.environment (Sample.reply "1. unused")
                                  (fun q => [Sample.item q]))
              []
              {| currentIteration := 1; allSearchResults := [Sample.batch []] |}
              Analysis.noContentAnalysis eq_refl)
    as (Hresult & _ & _ & Hcalls).
  - right. left. vm_compute. reflexivity.
  - split; [exact Hresult|exact Hcalls].
Defined.

(** ** Where the sources come from *)

Section ProvenanceFacts.
Context `{JsBuiltins} `{Collaborators}.
Variable config : SearchOrchestrationConfig.
Variable context : SearchContext.
Implicit Types (env : Environment) (history : list Event) (st : LoopState).

Lemma returnedBy_app_l (l k : list Event) batch :
  returnedBy l batch -> returnedBy (l ++ k) batch.
Proof.
  intros (event & Hin & Hevent). exists event.
  split; [apply elem_of_app; by left|exact Hevent].
Qed.

Lemma returnedBy_app_r (l k : list Event) batch :
  returnedBy k batch -> returnedBy (l ++ k) batch.
Proof.
  intros (event & Hin & Hevent). exists event.
  split; [apply elem_of_app; by right|exact Hevent].
Qed.

Lemma searchMultipleQueries_provenance env history queries batch :
  batch ∈ Orchestrator.successfulData
            (fst (run env history
                    (Orchestrator.searchMultipleQueries config queries context))) ->
  returnedBy (newEvents env history
                (Orchestrator.searchMultipleQueries config queries context))
             batch.
Proof.
  unfold Orchestrator.searchMultipleQueries, Orchestrator.successfulData.
  rewrite run_bind, newEvents_bind, newEvents_searchAllSettled, newEvents_ret,
    fst_run_searchAllSettled, run_mret.
  cbn [fst]. intros (response & Hin & Husable)%list_elem_of_omap.
  apply elem_of_lookup_imap in Hin as (i & outcome & -> & Hi).
  eexists. split; [left|]. cbn.
  destruct outcome as [value|]; [|done].
  exists value. split; [by eapply list_elem_of_lookup_2|exact Husable].
Qed.

Lemma iteration_provenance env history st batch :
  batch ∈ allSearchResults
            (snd (fst (run env history (Orchestrator.iteration config context st)))) ->
  batch ∈ allSearchResults st
  \/ returnedBy (newEvents env history (Orchestrator.iteration config context st))
                batch.
Proof.
  unfold Orchestrator.iteration. rewrite run_bind, newEvents_bind.
  destruct (usable (fst (run env history _))) as [analysis|];
    [|rewrite run_mret; by left].
  destruct (negb (needsMoreSearch analysis) || _); [rewrite run_mret; by left|].
  destruct (Nat.eqb (length (informationGaps analysis)) 0);
    [rewrite run_mret; by left|].
  rewrite run_bind, newEvents_bind.
  destruct (usable (fst (run env _ (Orchestrator.generateFollowupQueries _ _ _))))
    as [followupQueries|]; [|rewrite run_mret; by left].
  destruct (Nat.eqb (length followupQueries) 0); [rewrite run_mret; by left|].
  rewrite run_bind, newEvents_bind.
  match goal with
  | |- context [newEvents ?env' ?h' (Orchestrator.searchMultipleQueries config ?qs context)] =>
      pose proof (searchMultipleQueries_provenance env' h' qs batch) as Hnew
  end.
  destruct (Nat.eqb (length (Orchestrator.successfulData _)) 0);
    [rewrite run_mret; by left|].
  destruct (Orchestrator.diminishingReturns _ _ _);
    rewrite run_mret; cbn [fst snd allSearchResults];
    (intros [Hold|Hfresh]%elem_of_app; [by left|right]);
    apply returnedBy_app_r, returnedBy_app_r, returnedBy_app_l, Hnew, Hfresh.
Qed.

Lemma iterate_provenance (fuel : nat) : forall env history st final batch,
  fst (run env history (Orchestrator.iterate config fuel context st)) = Some final ->
  batch ∈ allSearchResults final ->
  batch ∈ allSearchResults st
  \/ returnedBy (newEvents env history (Orchestrator.iterate config fuel context st))
                batch.
Proof.
  induction fuel as [|fuel IH]; intros env history st final batch; simpl;
    destruct (Nat.ltb (currentIteration st) (maxSearchIterations config));
    try (rewrite run_mret; intros [= <-]; by left).
  rewrite run_bind, newEvents_bind.
  pose proof (iteration_provenance env history st batch) as Hturn.
  destruct (fst (run env history (Orchestrator.iteration config context st)))
    as [signal next].
  cbn [fst snd] in Hturn. destruct signal.
  - rewrite run_mret. intros [= <-] Hin.
    destruct (Hturn Hin) as [Hold|Hfresh]; [by left|right].
    by apply returnedBy_app_l.
  - intros Hfinal Hin.
    destruct (IH _ _ _ _ _ Hfinal Hin) as [Hnext|Hlater].
    + destruct (Hturn Hnext) as [Hold|Hfresh]; [by left|right].
      by apply returnedBy_app_l.
    + right. by apply returnedBy_app_r.
Qed.

Lemma initialSearch_provenance env history iterationResults batch :
  fst (run env history (Orchestrator.initialSearch config context))
  = inr iterationResults ->
  batch ∈ iterationResults ->
  returnedBy (newEvents env history (Orchestrator.initialSearch config context))
             batch.
Proof.
  unfold Orchestrator.initialSearch.
  destruct (enableQueryGeneration config).
  - rewrite !run_bind, !newEvents_bind.
    match goal with
    | |- context [newEvents ?env' ?h' (Orchestrator.searchMultipleQueries config ?qs context)] =>
        pose proof (searchMultipleQueries_provenance env' h' qs batch) as Hnew
    end.
    destruct (Nat.eqb (length (Orchestrator.successfulData _)) 0);
      rewrite run_mret; [done|].
    intros [= <-] Hin.
    apply returnedBy_app_r, returnedBy_app_l, Hnew, Hin.
  - rewrite run_bind, newEvents_bind, newEvents_searchWithFocus,
      fst_run_searchWithFocus.
    destruct (onSearchWithFocus env history context (maxSearchResults config))
      as [searchResponse|] eqn:Hfocus; [|by rewrite run_mret].
    destruct (usable searchResponse) as [body|] eqn:Hbody;
      rewrite run_mret; [|done].
    intros [= <-] ->%list_elem_of_singleton.
    eexists. split; [left|]. exact Hbody.
Qed.

Lemma aggregateResults_provenance gathered item :
  item ∈ items (aggregateResults config gathered) ->
  exists batch, batch ∈ gathered /\ item ∈ items batch.
Proof.
  rewrite aggregateResults_items. intros Hin%take_elem.
  pose proof (keepFirstAfter_sublist (flat_map items gathered) []) as Hsub.
  pose proof (elem_of_sublist _ _ _ Hin Hsub) as Hflat.
  apply list_elem_of_In, in_flat_map in Hflat as (batch & Hbatch & Hitem).
  exists batch. split; by apply list_elem_of_In.
Qed.

End ProvenanceFacts.

(** X23. No source is made up: every source a successful [search] cites is an
    item, with its title, URL, snippet and display URL, of a usable response
    that the search client returned to one of the search calls made during
    that very [search]. *)
Theorem search_sources_come_from_searches
    `{JsBuiltins} `{Collaborators} (config : SearchOrchestrationConfig)
    (context : SearchContext) (env : Environment) (history : list Event) :
  match fst (run env history (Orchestrator.search config context)) with
  | Some response =>
      match usable response with
      | Some result =>
          forall source, source ∈ sources result ->
            exists batch item,
              returnedBy (newEvents env history (Orchestrator.search config context))
                         batch
              /\ item ∈ items batch
              /\ url source = link item
              /\ sourceTitle source = title item
              /\ sourceSnippet source = snippet item
              /\ displayUrl source = displayLink item
      | None => True
      end
  | None => False
  end.
Proof.
  unfold Orchestrator.search. rewrite run_bind, newEvents_bind.
  pose proof (initialSearch_outcome config context env history) as (_ & _ & Hfirst).
  pose proof (initialSearch_provenance config context env history) as Hinitial.
  destruct (fst (run env history (Orchestrator.initialSearch config context)))
    as [failure|iterationResults].
  { rewrite run_mret. cbn [fst]. by destruct Hfirst as [->|[->|[msg ->]]]. }
  rewrite run_bind, newEvents_bind.
  set (history1 := snd (run env history (Orchestrator.initialSearch config context))).
  pose proof (iterativeRefinement_returns config context env history1
                iterationResults) as [final Hfinal].
  assert (Hloop : forall batch, batch ∈ allSearchResults final ->
            batch ∈ iterationResults
            \/ returnedBy (newEvents env history1
                             (Orchestrator.iterativeRefinement config context
                                iterationResults))
                          batch).
  { intros batch Hin. revert Hfinal. unfold Orchestrator.iterativeRefinement.
    destruct (enableIterativeSearch config && _).
    - intros Hfinal.
      destruct (iterate_provenance config context _ _ _ _ _ batch Hfinal Hin)
        as [Hold|Hfresh]; [by left|by right].
    - rewrite run_mret. intros [= <-]. by left. }
  rewrite Hfinal, run_bind, newEvents_bind, run_mret, newEvents_ret. cbn [fst].
  match goal with
  | |- context [usable (fst (run ?env' ?h' (Orchestrator.synthesize config context ?g)))] =>
      pose proof (synthesize_outcome config context env' h' g) as (_ & _ & Hlast)
  end.
  cbv zeta in Hlast.
  destruct (usable (fst (run env _ (Orchestrator.synthesize config context _))))
    as [result|]; [|done].
  destruct Hlast as (_ & _ & -> & _).
  intros source (k & item & -> & Hitem)%elem_of_lookup_imap.
  apply list_elem_of_lookup_2, aggregateResults_provenance in Hitem
    as (batch & Hbatch & Hitem).
  exists batch, item. split; [|by repeat split].
  destruct (Hloop batch Hbatch) as [Hold|Hfresh].
  - apply returnedBy_app_l. by eapply Hinitial.
  - by apply returnedBy_app_r, returnedBy_app_l.
Qed.

(** ** What deduplication keeps *)

(** X24. Deduplication loses no URL: the URL of every item of every batch is
    the URL of an item of the aggregate, unless the aggregate is full, that
    is, holds [maxSearchResults] items. *)
Theorem aggregateResults_drops_urls_only_when_full
    (config : SearchOrchestrationConfig) (batches : list SearchResponse) :
  Forall (fun item =>
            link item ∈ link <$> items (aggregateResults config batches)
            \/ length (items (aggregateResults config batches))
               = maxSearchResults config)
         (flat_map items batches).
Proof.
  apply Forall_forall. intros item Hin.
  rewrite aggregateResults_items.
  destruct (decide (length (keepFirstByUrl (flat_map items batches))
                    <= maxSearchResults config)) as [Hfits|Hfull].
  - left. rewrite take_ge by exact Hfits.
    destruct (find (fun x => String.eqb (link x) (link item))
                   (keepFirstByUrl (flat_map items batches))) as [kept|] eqn:Hfind.
    + apply find_some in Hfind as [Hkept Hsame].
      apply String.eqb_eq in Hsame. rewrite <- Hsame.
      apply list_elem_of_fmap. exists kept. split; [reflexivity|].
      by apply list_elem_of_In.
    + unfold keepFirstByUrl in Hfind.
      rewrite keepFirstAfter_find in Hfind by (simpl; apply not_elem_of_nil).
      eapply find_none in Hfind; [|apply list_elem_of_In, Hin].
      simpl in Hfind. by rewrite String.eqb_refl in Hfind.
  - right. rewrite length_take. lia.
Qed.
